(** * BookTree backend: order engine, cart, categories and access control

    A shallow embedding of the Express/MongoDB handlers of the repository
    (src/controllers/orderController.js, src/controllers/categoryController.js,
    src/routes/user.js, src/routes/orders.js, src/middleware/auth.js) and the
    properties of the specification that are about them.

    Conventions of the embedding.
    - A MongoDB collection keyed by [_id] is a [gmap string _]; the key is the
      hex text of the ObjectId (what [toString()] gives and what the token
      carries as [userId]).  The orders collection keeps insertion order and
      is a list of documents.
    - JavaScript numbers that the handlers compute with (prices, quantities,
      stock, totals) are integers, [Z].
    - A field that a JSON body or a document may lack is an [option]; a field
      that is present has the type the handlers expect (a string, a number).
    - A handler is a function from the request and the database to the
      response and the new database; [new Date()] and the id MongoDB gives an
      inserted document are inputs of the request ([Env]).
    - [ObjectId.isValid], [jwt.sign], [jwt.verify] and bcrypt belong to
      libraries and are interfaces (classes) of the development. *)

From Stdlib Require Import ZArith String Ascii List Bool Lia DecimalString Sorted.
From Stdlib Require Import DecimalFacts DecimalPos DecimalZ.
From stdpp Require Import gmap strings list fin_maps.

(** ** JavaScript values *)

(** [!s] is false exactly for a non-empty string. *)
Definition truthy (s : string) : bool := negb (String.eqb s "").

(** [x || d] on a possibly missing string. *)
Definition orDefault (x : option string) (d : string) : string :=
  match x with
  | Some s => if truthy s then s else d
  | None => d
  end.

(** [String(n)] for an integer. *)
Definition String_of (z : Z) : string := NilZero.string_of_int (Z.to_int z).

Fixpoint zeros (n : nat) : string :=
  match n with
  | O => ""
  | S k => String "0" (zeros k)
  end.

(** [s.padStart(n, '0')] *)
Definition padStart (n : nat) (s : string) : string :=
  (zeros (n - String.length s) ++ s)%string.

Definition dquote : string := String "034" "".

(** [new Date()]: the calendar fields the code reads, and the instant. *)
Record Date := mkDate {
  getFullYear : Z;
  getMonth : Z;
  getDate : Z;
  getTime : Z
}.

(** ** Documents *)

(** The value of a book's [category] field.  [createBook] and [updateBook]
    store the string of the request body; [scripts/seed.js] stores the
    [ObjectId] of the category.  A query [{ category: <string> }] matches a
    field that holds that very string, and no field that holds an
    [ObjectId]. *)
Inductive CategoryRef :=
  | RefString (s : string)
  | RefObjectId (hex : string).

#[global] Instance CategoryRef_eq_dec : EqDecision CategoryRef.
Proof. solve_decision. Defined.

Record Book := mkBook {
  book_title : string;
  book_author : string;
  book_description : string;
  book_price : Z;
  book_category : option CategoryRef;
  book_stock : Z
}.

(** A cart line; [/cart/add] never writes [cart_bookId] nor [cart__id], but
    [createOrderFromCart] reads them. *)
Record CartLine := mkCartLine {
  cart_title : string;
  cart_author : string;
  cart_price : Z;
  cart_description : option string;
  cart_quantity : Z;
  cart_addedAt : Date;
  cart_bookId : option string;
  cart__id : option string
}.

Record User := mkUser {
  user_name : string;
  user_email : string;
  user_password : string;
  user_role : option string;
  user_cart : list CartLine
}.

Record Category := mkCategory {
  cat_name : string;
  cat_description : string;
  cat_isActive : bool
}.

Record ShippingAddress := mkShippingAddress {
  address : option string;
  city : option string
}.

Record OrderLine := mkOrderLine {
  line_bookId : string;
  line_title : string;
  line_author : string;
  line_price : Z;
  line_quantity : Z;
  line_subtotal : Z
}.

Record StatusEntry := mkStatusEntry {
  entry_status : string;
  entry_notes : string;
  entry_timestamp : Date
}.

(** A document of the orders collection. *)
Record OrderDoc := mkOrderDoc {
  doc__id : string;
  doc_userId : string;
  doc_items : list OrderLine;
  doc_totalAmount : Z;
  doc_shippingAddress : ShippingAddress;
  doc_paymentMethod : string;
  doc_notes : string;
  doc_status : string;
  doc_statusHistory : list StatusEntry;
  doc_orderNumber : string;
  doc_createdAt : Date;
  doc_updatedAt : Date
}.

(** An instance of [class Order]: the constructor keeps these fields only. *)
Record Order := mkOrder {
  order_userId : string;
  order_items : list OrderLine;
  order_totalAmount : Z;
  order_status : string;
  order_shippingAddress : ShippingAddress;
  order_paymentMethod : string;
  order_notes : string;
  order__id : string
}.

Record Db := mkDb {
  books : gmap string Book;
  users : gmap string User;
  orders : list OrderDoc;
  categories : gmap string Category
}.

(** ** Requests and responses *)

(** The payload of a verified token, [req.user]. *)
Record Claims := mkClaims {
  userId : string;
  email : string;
  role : option string
}.

Record Env := mkEnv {
  now : Date;
  insertedId : string
}.

Record Response (A : Type) : Type := mkResponse {
  res_status : nat;
  res_success : option bool;
  res_error : option string;
  res_message : option string;
  res_data : option A
}.
Arguments mkResponse {A}.
Arguments res_status {A}.
Arguments res_success {A}.
Arguments res_error {A}.
Arguments res_message {A}.
Arguments res_data {A}.

(** [res.status(code).json({ success: false, error })] *)
Definition failure {A : Type} (code : nat) (err : string) : Response A :=
  mkResponse code (Some false) (Some err) None None.

(** [res.status(code).json({ success: true, message, data })] *)
Definition succeed {A : Type} (code : nat) (msg : option string) (d : option A)
  : Response A :=
  mkResponse code (Some true) None msg d.

(** The error classes of the specification, by the status a handler sends. *)
Inductive ErrorKind :=
  Unauthorized | Forbidden | InvalidArgument | NotFound | Conflict | Internal.

Definition errorKind (code : nat) : option ErrorKind :=
  match code with
  | 400 => Some InvalidArgument
  | 401 => Some Unauthorized
  | 403 => Some Forbidden
  | 404 => Some NotFound
  | 409 => Some Conflict
  | 500 => Some Internal
  | _ => None
  end.

(** What one round of a loop, or a guard, does: go on, respond and return,
    or throw into the handler's [catch]. *)
Inductive Step (A R : Type) : Type :=
  | Next (a : A)
  | Respond (r : R)
  | Throw.
Arguments Next {A R}.
Arguments Respond {A R}.
Arguments Throw {A R}.

Record OrderItemReq := mkItem {
  bookId : option string;
  quantity : option Z
}.

Record CreateOrderBody := mkCreateOrderBody {
  items : option (list OrderItemReq);
  shippingAddress : option ShippingAddress;
  paymentMethod : option string;
  notes : option string
}.

(** The fields [Order.create] receives. *)
Record OrderData := mkOrderData {
  data_userId : string;
  data_items : list OrderLine;
  data_totalAmount : Z;
  data_shippingAddress : ShippingAddress;
  data_paymentMethod : string;
  data_notes : string;
  data_status : string;
  data_statusHistory : list StatusEntry
}.

Definition set_books (f : gmap string Book → gmap string Book) (db : Db) : Db :=
  mkDb (f (books db)) (users db) (orders db) (categories db).
Definition set_users (f : gmap string User → gmap string User) (db : Db) : Db :=
  mkDb (books db) (f (users db)) (orders db) (categories db).
Definition set_orders (f : list OrderDoc → list OrderDoc) (db : Db) : Db :=
  mkDb (books db) (users db) (f (orders db)) (categories db).
Definition set_categories (f : gmap string Category → gmap string Category)
  (db : Db) : Db :=
  mkDb (books db) (users db) (orders db) (f (categories db)).

Definition set_cart (c : list CartLine) (u : User) : User :=
  mkUser (user_name u) (user_email u) (user_password u) (user_role u) c.

Definition add_stock (d : Z) (b : Book) : Book :=
  mkBook (book_title b) (book_author b) (book_description b) (book_price b)
    (book_category b) (book_stock b + d).

Definition unset_category (b : Book) : Book :=
  mkBook (book_title b) (book_author b) (book_description b) (book_price b)
    None (book_stock b).

(** [new Order(doc)] *)
Definition Order_new (d : OrderDoc) : Order :=
  mkOrder (doc_userId d) (doc_items d) (doc_totalAmount d)
    (orDefault (Some (doc_status d)) "pending") (doc_shippingAddress d)
    (doc_paymentMethod d) (doc_notes d) (doc__id d).

(** ** Library interfaces *)

(** The MongoDB driver: [ObjectId.isValid]; [new ObjectId(s)] throws on the
    strings it rejects. *)
Class MongoDriver := {
  ObjectId_isValid : string → bool
}.

(** jsonwebtoken, with the server's secret and the clock of the request. *)
Class JsonWebToken := {
  jwt_sign : Claims → string;
  jwt_verify : string → option Claims
}.

(** bcryptjs *)
Class Bcrypt := {
  bcrypt_hash : string → string;
  bcrypt_compare : string → string → bool
}.

Definition newObjectId `{MongoDriver} (s : string) : option string :=
  if ObjectId_isValid s then Some s else None.

Definition truthyOpt (x : option string) : bool :=
  match x with
  | Some s => truthy s
  | None => false
  end.

Definition isAdmin (user : Claims) : bool :=
  bool_decide (role user = Some "admin").

(** ** src/controllers/orderController.js *)
Module OrderController.
Section Controller.
Context `{MongoDriver}.

(** *** class Order *)

Definition generateOrderNumber (d : Date) (coll : list OrderDoc) : string :=
  let count := Z.of_nat (length coll) in
  let year := String_of (getFullYear d) in
  let month := padStart 2 (String_of (getMonth d + 1)) in
  let day := padStart 2 (String_of (getDate d)) in
  ("ORD-" ++ year ++ month ++ day ++ "-" ++ padStart 4 (String_of (count + 1)))%string.

Definition create (env : Env) (od : OrderData) (coll : list OrderDoc)
  : Order * list OrderDoc :=
  let doc :=
    mkOrderDoc (insertedId env) (data_userId od) (data_items od)
      (data_totalAmount od) (data_shippingAddress od) (data_paymentMethod od)
      (data_notes od) (orDefault (Some (data_status od)) "pending")
      (data_statusHistory od) (generateOrderNumber (now env) coll)
      (now env) (now env) in
  (Order_new doc, coll ++ [doc]).

(** [collection.findOne({ _id })] *)
Definition findDoc (id : string) (coll : list OrderDoc) : option OrderDoc :=
  snd <$> list_find (λ d, doc__id d = id) coll.

Definition findById (id : string) (coll : list OrderDoc) : option Order :=
  Order_new <$> findDoc id coll.

Definition pushStatus (env : Env) (st notes : string) (d : OrderDoc) : OrderDoc :=
  mkOrderDoc (doc__id d) (doc_userId d) (doc_items d) (doc_totalAmount d)
    (doc_shippingAddress d) (doc_paymentMethod d) (doc_notes d) st
    (doc_statusHistory d ++ [mkStatusEntry st notes (now env)])
    (doc_orderNumber d) (doc_createdAt d) (now env).

(** [collection.updateOne({ _id }, { $set: {status, updatedAt}, $push })]:
    the first matching document is updated. *)
Definition updateStatus (env : Env) (id st notes : string)
  (coll : list OrderDoc) : list OrderDoc :=
  match list_find (λ d, doc__id d = id) coll with
  | Some (i, _) => alter (pushStatus env st notes) i coll
  | None => coll
  end.

Record Pagination := mkPagination {
  pg_page : Z;
  pg_limit : Z;
  pg_total : Z;
  pg_pages : option Z
}.

Record Filter := mkFilter {
  f_userId : option string;
  f_status : option string
}.

Definition matches (f : Filter) (d : OrderDoc) : bool :=
  match f_userId f with
  | Some u => String.eqb (doc_userId d) u
  | None => true
  end &&
  match f_status f with
  | Some s => String.eqb (doc_status d) s
  | None => true
  end.

(** [sort({ createdAt: -1 })] *)
Fixpoint insertNewestFirst (d : OrderDoc) (l : list OrderDoc) : list OrderDoc :=
  match l with
  | [] => [d]
  | x :: rest =>
    if (getTime (doc_createdAt x) <=? getTime (doc_createdAt d))%Z
    then d :: x :: rest
    else x :: insertNewestFirst d rest
  end.

Definition sortNewestFirst (l : list OrderDoc) : list OrderDoc :=
  foldr insertNewestFirst [] l.

(** [limit(n)]: 0 is no limit, a negative number limits to its absolute
    value. *)
Definition limitTo (n : Z) (l : list OrderDoc) : list OrderDoc :=
  if (n =? 0)%Z then l else take (Z.abs_nat n) l.

(** [Math.ceil(total / limit)], not a finite number when [limit] is 0. *)
Definition pageCount (total limit : Z) : option Z :=
  if (limit =? 0)%Z then None else Some (- ((- total) / limit))%Z.

(** [Order.findAll]; the driver refuses a negative [skip]. *)
Definition findAll (f : Filter) (page limit : Z) (coll : list OrderDoc)
  : option (list Order * Pagination) :=
  let skip := ((page - 1) * limit)%Z in
  if (skip <? 0)%Z then None
  else
    let found := filter (λ d, matches f d = true) coll in
    let docs := limitTo limit (drop (Z.to_nat skip) (sortNewestFirst found)) in
    let total := Z.of_nat (length found) in
    Some (Order_new <$> docs, mkPagination page limit total (pageCount total limit)).

(** *** getAllOrders *)

Record ListQuery := mkListQuery {
  q_page : option Z;
  q_limit : option Z;
  q_status : option string;
  q_userId : option string
}.

Definition getAllOrders (user : Claims) (query : ListQuery) (db : Db)
  : Response (list Order * Pagination) * Db :=
  let page := default 1%Z (q_page query) in
  let limit := default 10%Z (q_limit query) in
  let filterUserId : Step (option string) unit :=
    if negb (isAdmin user) && negb (truthyOpt (q_userId query)) then
      match newObjectId (userId user) with
      | Some u => Next (Some u)
      | None => Throw
      end
    else if truthyOpt (q_userId query) then
      match newObjectId (default "" (q_userId query)) with
      | Some u => Next (Some u)
      | None => Throw
      end
    else Next None in
  match filterUserId with
  | Next fu =>
    let fs := if truthyOpt (q_status query) then q_status query else None in
    match findAll (mkFilter fu fs) page limit (orders db) with
    | Some result => (succeed 200 None (Some result), db)
    | None => (failure 500 "Failed to fetch orders", db)
    end
  | _ => (failure 500 "Failed to fetch orders", db)
  end.

(** *** createOrder *)

Definition insufficientStock (title : string) (available requested : Z) : string :=
  ("Insufficient stock for " ++ dquote ++ title ++ dquote ++ ". Available: "
   ++ String_of available ++ ", Requested: " ++ String_of requested)%string.

Definition bookNotFound (id : string) : string :=
  ("Book with ID " ++ id ++ " not found")%string.

Definition invalidItem : Response Order :=
  failure 400 "Each item must have a valid bookId and quantity".

(** The validation loop of [createOrder], with its two accumulators. *)
Fixpoint validateItems (bs : gmap string Book) (its : list OrderItemReq)
  (totalAmount : Z) (validatedItems : list OrderLine)
  : Step (Z * list OrderLine) (Response Order) :=
  match its with
  | [] => Next (totalAmount, validatedItems)
  | item :: rest =>
    match bookId item, quantity item with
    | Some bid, Some q =>
      if negb (truthy bid) || (q =? 0)%Z || (q <=? 0)%Z then Respond invalidItem
      else
        match newObjectId bid with
        | None => Throw
        | Some oid =>
          match bs !! oid with
          | None => Respond (failure 404 (bookNotFound bid))
          | Some book =>
            if (book_stock book <? q)%Z then
              Respond (failure 400
                (insufficientStock (book_title book) (book_stock book) q))
            else
              let itemTotal := (book_price book * q)%Z in
              validateItems bs rest (totalAmount + itemTotal)%Z
                (validatedItems ++
                 [mkOrderLine oid (book_title book) (book_author book)
                    (book_price book) q itemTotal])
          end
        end
    | _, _ => Respond invalidItem
    end
  end.

(** [updateOne({ _id }, { $inc: { stock: -item.quantity } })] for every line. *)
Definition decrementStock (bs : gmap string Book) (validatedItems : list OrderLine)
  : gmap string Book :=
  fold_left (λ m item, alter (add_stock (- line_quantity item)) (line_bookId item) m)
    validatedItems bs.

Definition hasAddressAndCity (sa : ShippingAddress) : bool :=
  truthyOpt (address sa) && truthyOpt (city sa).

Definition createOrder (env : Env) (user : Claims) (body : CreateOrderBody)
  (db : Db) : Response Order * Db :=
  match items body with
  | None | Some [] => (failure 400 "Order items are required", db)
  | Some its =>
    match shippingAddress body with
    | None =>
      (failure 400 "Shipping address with address and city is required", db)
    | Some sa =>
      if negb (hasAddressAndCity sa) then
        (failure 400 "Shipping address with address and city is required", db)
      else if negb (truthyOpt (paymentMethod body)) then
        (failure 400 "Payment method is required", db)
      else
        match validateItems (books db) its 0 [] with
        | Respond r => (r, db)
        | Throw => (failure 500 "Failed to create order", db)
        | Next (totalAmount, validatedItems) =>
          match newObjectId (userId user) with
          | None => (failure 500 "Failed to create order", db)
          | Some uid =>
            let orderData :=
              mkOrderData uid validatedItems totalAmount sa
                (default "" (paymentMethod body))
                (orDefault (notes body) "") "pending"
                [mkStatusEntry "pending" "Order created" (now env)] in
            let '(order, orders') := create env orderData (orders db) in
            let books' := decrementStock (books db) validatedItems in
            let users' := alter (set_cart []) uid (users db) in
            (succeed 201 (Some "Order created successfully") (Some order),
             mkDb books' users' orders' (categories db))
          end
        end
    end
  end.

(** *** updateOrderStatus *)

Definition validStatuses : list string :=
  ["pending"; "confirmed"; "processing"; "shipped"; "delivered"; "cancelled"].

Fixpoint join (sep : string) (l : list string) : string :=
  match l with
  | [] => ""
  | [x] => x
  | x :: rest => (x ++ sep ++ join sep rest)%string
  end.

Definition includes (l : list string) (x : option string) : bool :=
  match x with
  | Some s => existsb (String.eqb s) l
  | None => false
  end.

Record StatusBody := mkStatusBody {
  sb_status : option string;
  sb_notes : option string
}.

Definition updateOrderStatus (env : Env) (user : Claims) (id : string)
  (body : StatusBody) (db : Db) : Response Order * Db :=
  if negb (ObjectId_isValid id) then (failure 400 "Invalid order ID", db)
  else if negb (includes validStatuses (sb_status body)) then
    (failure 400 ("Invalid status. Valid statuses: " ++ join ", " validStatuses), db)
  else
    let status := default "" (sb_status body) in
    match findById id (orders db) with
    | None => (failure 404 "Order not found", db)
    | Some order =>
      if negb (isAdmin user) && negb (String.eqb (order_userId order) (userId user))
      then (failure 403 "Access denied", db)
      else if negb (isAdmin user) && negb (String.eqb status "cancelled")
              && negb (String.eqb (order_status order) "pending")
      then (failure 403 "You can only cancel pending orders", db)
      else
        let orders' :=
          updateStatus env id status (orDefault (sb_notes body) "") (orders db) in
        (mkResponse 200 (Some true) None
           (Some "Order status updated successfully") (findById id orders'),
         set_orders (λ _, orders') db)
    end.

(** *** createOrderFromCart *)

(** [cartItem.bookId || cartItem._id] *)
Definition cartItemBookId (cartItem : CartLine) : option string :=
  if truthyOpt (cart_bookId cartItem) then cart_bookId cartItem
  else cart__id cartItem.

Definition cartToItems (cart : list CartLine) : list OrderItemReq :=
  (λ cartItem, mkItem (cartItemBookId cartItem) (Some (cart_quantity cartItem)))
    <$> cart.

Definition createOrderFromCart (env : Env) (user : Claims)
  (body : CreateOrderBody) (db : Db) : Response Order * Db :=
  match newObjectId (userId user) with
  | None => (failure 500 "Failed to create order from cart", db)
  | Some uid =>
    match users db !! uid with
    | None => (failure 400 "Cart is empty", db)
    | Some userData =>
      match user_cart userData with
      | [] => (failure 400 "Cart is empty", db)
      | cart =>
        createOrder env user
          (mkCreateOrderBody (Some (cartToItems cart)) (shippingAddress body)
             (paymentMethod body) (notes body)) db
      end
    end
  end.

(** *** getOrderById *)

Definition getOrderById (user : Claims) (id : string) (db : Db)
  : Response Order * Db :=
  if negb (ObjectId_isValid id) then (failure 400 "Invalid order ID", db)
  else
    match findById id (orders db) with
    | None => (failure 404 "Order not found", db)
    | Some order =>
      if negb (isAdmin user) && negb (String.eqb (order_userId order) (userId user))
      then (failure 403 "Access denied", db)
      else (succeed 200 None (Some order), db)
    end.

(** *** Order.getOrderStats, getOrderStats *)

Record OrderStats := mkOrderStats {
  totalOrders : Z;
  totalRevenue : Z;
  pendingOrders : Z;
  completedOrders : Z;
  cancelledOrders : Z
}.

(** [$sum: { $cond: [{ $eq: ['$status', s] }, 1, 0] }] *)
Definition countStatus (s : string) (docs : list OrderDoc) : Z :=
  foldr (λ d acc, ((if String.eqb (doc_status d) s then 1 else 0) + acc)%Z) 0%Z docs.

(** The [$group] stage with [_id: null]: one group when some document
    matches, none otherwise. *)
Definition groupStats (docs : list OrderDoc) : list OrderStats :=
  match docs with
  | [] => []
  | _ =>
    [mkOrderStats (Z.of_nat (length docs))
       (foldr Z.add 0%Z (doc_totalAmount <$> docs))
       (countStatus "pending" docs) (countStatus "completed" docs)
       (countStatus "cancelled" docs)]
  end.

(** [Order.getOrderStats(userId)]; [None] when [new ObjectId] throws. *)
Definition Order_getOrderStats (target : option string) (coll : list OrderDoc)
  : option OrderStats :=
  let matchStage : Step (option string) unit :=
    if truthyOpt target then
      match newObjectId (default "" target) with
      | Some u => Next (Some u)
      | None => Throw
      end
    else Next None in
  match matchStage with
  | Next f =>
    let stats := groupStats (filter (λ d, matches (mkFilter f None) d = true) coll) in
    Some (default (mkOrderStats 0 0 0 0 0) (head stats))
  | _ => None
  end.

Definition getOrderStats (user : Claims) (queryUserId : option string) (db : Db)
  : Response OrderStats * Db :=
  let targetUserId :=
    if negb (isAdmin user) then Some (userId user)
    else if truthyOpt queryUserId then queryUserId
    else None in
  match Order_getOrderStats targetUserId (orders db) with
  | Some stats => (succeed 200 None (Some stats), db)
  | None => (failure 500 "Failed to fetch order statistics", db)
  end.

(** *** getUserOrders *)

Definition getUserOrders (user : Claims) (userIdParam : string)
  (query : ListQuery) (db : Db) : Response (list Order * Pagination) * Db :=
  let page := default 1%Z (q_page query) in
  let limit := default 10%Z (q_limit query) in
  if negb (isAdmin user) then (failure 403 "Access denied", db)
  else if negb (ObjectId_isValid userIdParam) then (failure 400 "Invalid user ID", db)
  else
    match findAll (mkFilter (Some userIdParam) None) page limit (orders db) with
    | Some result => (succeed 200 None (Some result), db)
    | None => (failure 500 "Failed to fetch user orders", db)
    end.

(** *** Order.updateById, updateOrder *)

(** The fields of an order document a request body may carry. *)
Record OrderUpdate := mkOrderUpdate {
  ou__id : option string;
  ou_userId : option string;
  ou_items : option (list OrderLine);
  ou_totalAmount : option Z;
  ou_shippingAddress : option ShippingAddress;
  ou_paymentMethod : option string;
  ou_notes : option string;
  ou_status : option string;
  ou_statusHistory : option (list StatusEntry);
  ou_orderNumber : option string;
  ou_createdAt : option Date;
  ou_updatedAt : option Date
}.

(** [delete updateData.userId; delete updateData.orderNumber;
     delete updateData.createdAt; delete updateData._id] *)
Definition deleteProtected (u : OrderUpdate) : OrderUpdate :=
  mkOrderUpdate None None (ou_items u) (ou_totalAmount u) (ou_shippingAddress u)
    (ou_paymentMethod u) (ou_notes u) (ou_status u) (ou_statusHistory u)
    None None (ou_updatedAt u).

(** [$set: { ...updateData, updatedAt: new Date() }] on an order document. *)
Definition applyOrderUpdate (env : Env) (u : OrderUpdate) (d : OrderDoc) : OrderDoc :=
  mkOrderDoc (default (doc__id d) (ou__id u)) (default (doc_userId d) (ou_userId u))
    (default (doc_items d) (ou_items u))
    (default (doc_totalAmount d) (ou_totalAmount u))
    (default (doc_shippingAddress d) (ou_shippingAddress u))
    (default (doc_paymentMethod d) (ou_paymentMethod u))
    (default (doc_notes d) (ou_notes u))
    (default (doc_status d) (ou_status u))
    (default (doc_statusHistory d) (ou_statusHistory u))
    (default (doc_orderNumber d) (ou_orderNumber u))
    (default (doc_createdAt d) (ou_createdAt u))
    (now env).

Definition updateById (env : Env) (id : string) (u : OrderUpdate)
  (coll : list OrderDoc) : list OrderDoc :=
  match list_find (λ d, doc__id d = id) coll with
  | Some (i, _) => alter (applyOrderUpdate env u) i coll
  | None => coll
  end.

Definition updateOrder (env : Env) (user : Claims) (id : string)
  (updateData : OrderUpdate) (db : Db) : Response Order * Db :=
  if negb (ObjectId_isValid id) then (failure 400 "Invalid order ID", db)
  else
    match findById id (orders db) with
    | None => (failure 404 "Order not found", db)
    | Some _ =>
      if negb (isAdmin user) then
        (failure 403 "Only administrators can update order details", db)
      else
        let orders' := updateById env id (deleteProtected updateData) (orders db) in
        (mkResponse 200 (Some true) None (Some "Order updated successfully")
           (findById id orders'),
         set_orders (λ _, orders') db)
    end.

End Controller.
End OrderController.

(** ** The book controller (second part of src/controllers/orderController.js) *)
Module BookController.
Section Controller.
Context `{MongoDriver}.

(** The fields of a book a request body may carry. *)
Record BookUpdate := mkBookUpdate {
  up_title : option string;
  up_author : option string;
  up_description : option string;
  up_price : option Z;
  up_category : option string;
  up_stock : option Z
}.

(** [$set: { ...updateData }] on a book document. *)
Definition applyUpdate (u : BookUpdate) (b : Book) : Book :=
  mkBook (default (book_title b) (up_title u))
    (default (book_author b) (up_author u))
    (default (book_description b) (up_description u))
    (default (book_price b) (up_price u))
    (match up_category u with
     | Some c => Some (RefString c)
     | None => book_category b
     end)
    (default (book_stock b) (up_stock u)).

(** [updateData.price && updateData.price <= 0] *)
Definition badPrice (u : BookUpdate) : bool :=
  match up_price u with
  | Some p => negb (p =? 0)%Z && (p <=? 0)%Z
  | None => false
  end.

Definition updateBook (id : string) (updateData : BookUpdate) (db : Db)
  : Response (string * Book) * Db :=
  if negb (ObjectId_isValid id) then (failure 400 "Invalid book ID", db)
  else
    match books db !! id with
    | None => (failure 404 "Book not found", db)
    | Some _ =>
      if badPrice updateData then (failure 400 "Price must be greater than 0", db)
      else
        let books' := alter (applyUpdate updateData) id (books db) in
        (mkResponse 200 (Some true) None (Some "Book updated successfully")
           ((λ b, (id, b)) <$> books' !! id),
         set_books (λ _, books') db)
    end.

(** The body of POST /api/books. *)
Record BookBody := mkBookBody {
  bb_title : option string;
  bb_author : option string;
  bb_description : option string;
  bb_price : option Z;
  bb_category : option string;
  bb_stock : option Z
}.

Definition createBook (env : Env) (body : BookBody) (db : Db)
  : Response (string * Book) * Db :=
  match bb_title body, bb_author body, bb_price body, bb_category body with
  | Some title, Some author, Some price, Some category =>
    if negb (truthy title) || negb (truthy author) || (price =? 0)%Z
       || negb (truthy category)
    then (failure 400 "Title, author, price, and category are required", db)
    else if (price <=? 0)%Z then (failure 400 "Price must be greater than 0", db)
    else
      let book :=
        mkBook title author (orDefault (bb_description body) "") price
          (Some (RefString category)) (default 0%Z (bb_stock body)) in
      (mkResponse 201 (Some true) None (Some "Book created successfully")
         (Some (insertedId env, book)),
       set_books (insert (insertedId env) book) db)
  | _, _, _, _ =>
    (failure 400 "Title, author, price, and category are required", db)
  end.

Definition getBookById (id : string) (db : Db) : Response (string * Book) * Db :=
  if negb (ObjectId_isValid id) then (failure 400 "Invalid book ID", db)
  else
    match books db !! id with
    | None => (failure 404 "Book not found", db)
    | Some book => (succeed 200 None (Some (id, book)), db)
    end.

Definition deleteBook (id : string) (db : Db) : Response (string * Book) * Db :=
  if negb (ObjectId_isValid id) then (failure 400 "Invalid book ID", db)
  else
    match books db !! id with
    | None => (failure 404 "Book not found", db)
    | Some _ =>
      (succeed 200 (Some "Book deleted successfully") None,
       set_books (delete id) db)
    end.

End Controller.
End BookController.

(** ** src/controllers/categoryController.js *)
Module CategoryController.
Section Controller.
Context `{MongoDriver}.

(** [bookCollection.countDocuments({ category: categoryId })], with the
    string of the path as [categoryId]. *)
Definition countBooks (categoryId : string) (bs : gmap string Book) : nat :=
  size (filter (λ kb, book_category kb.2 = Some (RefString categoryId)) bs).

Definition cannotDelete (bookCount : nat) : string :=
  ("Cannot delete category with " ++ String_of (Z.of_nat bookCount)
   ++ " books. Use force=true to delete anyway.")%string.

(** [updateMany({ category: id }, { $unset: { category: "" } })] *)
Definition unsetCategory (id : string) (bs : gmap string Book) : gmap string Book :=
  (λ b, if decide (book_category b = Some (RefString id))
        then unset_category b else b) <$> bs.

Definition forced (force : option string) : bool :=
  bool_decide (force = Some "true").

(** The payload of the response is the [bookCount] field of the refusal. *)
Definition deleteCategory (id : string) (force : option string) (db : Db)
  : Response nat * Db :=
  if negb (ObjectId_isValid id) then (failure 400 "Invalid category ID", db)
  else
    let bookCount := countBooks id (books db) in
    if (0 <? bookCount)%nat && negb (forced force) then
      (mkResponse 400 (Some false) (Some (cannotDelete bookCount)) None
         (Some bookCount), db)
    else
      match categories db !! id with
      | None => (failure 404 "Category not found", db)
      | Some _ =>
        let categories' := delete id (categories db) in
        let books' :=
          if forced force && (0 <? bookCount)%nat
          then unsetCategory id (books db)
          else books db in
        (succeed 200 (Some "Category deleted successfully") None,
         mkDb books' (users db) (orders db) categories')
      end.

Definition set_isActive (b : bool) (c : Category) : Category :=
  mkCategory (cat_name c) (cat_description c) b.

(** The payload is the category with its [bookCount]. *)
Definition getCategoryById (id : string) (db : Db)
  : Response (Category * nat) * Db :=
  if negb (ObjectId_isValid id) then (failure 400 "Invalid category ID", db)
  else
    match categories db !! id with
    | None => (failure 404 "Category not found", db)
    | Some category =>
      (succeed 200 None (Some (category, countBooks id (books db))), db)
    end.

Definition toggleCategoryStatus (id : string) (db : Db)
  : Response (string * Category) * Db :=
  if negb (ObjectId_isValid id) then (failure 400 "Invalid category ID", db)
  else
    match categories db !! id with
    | None => (failure 404 "Category not found", db)
    | Some category =>
      let newStatus := negb (cat_isActive category) in
      let categories' := alter (set_isActive newStatus) id (categories db) in
      (mkResponse 200 (Some true) None
         (Some ("Category " ++ (if newStatus then "activated" else "deactivated")
                ++ " successfully")%string)
         ((λ c, (id, c)) <$> categories' !! id),
       set_categories (λ _, categories') db)
    end.

End Controller.
End CategoryController.

(** ** src/routes/user.js *)
Module UserRoutes.
Section Routes.
Context `{MongoDriver} `{JsonWebToken} `{Bcrypt}.

(** [res.status(code).json({ error })], the bare form of this router. *)
Definition bareError {A : Type} (code : nat) (err : string) : Response A :=
  mkResponse code None (Some err) None None.

(** [res.json({ message, ... })] *)
Definition bare {A : Type} (code : nat) (msg : string) (d : A) : Response A :=
  mkResponse code None None (Some msg) (Some d).

Definition lowerAscii (a : ascii) : ascii :=
  let n := nat_of_ascii a in
  if (65 <=? n)%nat && (n <=? 90)%nat then ascii_of_nat (n + 32) else a.

Fixpoint toLowerCase (s : string) : string :=
  match s with
  | EmptyString => EmptyString
  | String a rest => String (lowerAscii a) (toLowerCase rest)
  end.

(** [collection.findOne({ email })], in the enumeration order of the map. *)
Definition findByEmail (e : string) (us : gmap string User) : option (string * User) :=
  snd <$> list_find (λ kv, user_email kv.2 = e) (map_to_list us).

(** The payload both [register] and [login] hand to [jwt.sign]. *)
Definition tokenPayload (id e : string) : Claims := mkClaims id e None.

Record AuthPayload := mkAuthPayload {
  ap_id : string;
  ap_name : string;
  ap_email : string;
  ap_cart : option (list CartLine);
  ap_token : string
}.

Record RegisterBody := mkRegisterBody {
  rb_name : option string;
  rb_email : option string;
  rb_password : option string
}.

Definition register (env : Env) (body : RegisterBody) (db : Db)
  : Response AuthPayload * Db :=
  match rb_name body, rb_email body, rb_password body with
  | Some name, Some em, Some password =>
    if negb (truthy name) || negb (truthy em) || negb (truthy password) then
      (bareError 400 "Name, email, and password are required", db)
    else if (String.length password <? 6)%nat then
      (bareError 400 "Password must be at least 6 characters long", db)
    else
      match findByEmail em (users db) with
      | Some _ => (bareError 409 "User with this email already exists", db)
      | None =>
        let userData :=
          mkUser name (toLowerCase em) (bcrypt_hash password) (Some "user") [] in
        let id := insertedId env in
        let token := jwt_sign (tokenPayload id (user_email userData)) in
        (bare 201 "User registered successfully"
           (mkAuthPayload id name (user_email userData) None token),
         set_users (insert id userData) db)
      end
  | _, _, _ => (bareError 400 "Name, email, and password are required", db)
  end.

Record LoginBody := mkLoginBody {
  lb_email : option string;
  lb_password : option string
}.

Definition login (body : LoginBody) (db : Db) : Response AuthPayload * Db :=
  match lb_email body, lb_password body with
  | Some em, Some password =>
    if negb (truthy em) || negb (truthy password) then
      (bareError 400 "Email and password are required", db)
    else
      match findByEmail (toLowerCase em) (users db) with
      | None => (bareError 401 "Invalid email or password", db)
      | Some (id, user) =>
        if negb (bcrypt_compare password (user_password user)) then
          (bareError 401 "Invalid email or password", db)
        else
          let token := jwt_sign (tokenPayload id (user_email user)) in
          (bare 200 "Login successful"
             (mkAuthPayload id (user_name user) (user_email user)
                (Some (user_cart user)) token),
           db)
      end
  | _, _ => (bareError 400 "Email and password are required", db)
  end.

(** *** The cart *)

(** [User.updateById(id, { cart })] *)
Definition saveCart (uid : string) (cart : list CartLine) (db : Db) : Db :=
  set_users (alter (set_cart cart) uid) db.

(** [cart.findIndex((item) => item.title === title)] *)
Definition findIndex (title : string) (cart : list CartLine) : option nat :=
  fst <$> list_find (λ item, cart_title item = title) cart.

Definition set_quantity (q : Z) (l : CartLine) : CartLine :=
  mkCartLine (cart_title l) (cart_author l) (cart_price l) (cart_description l)
    q (cart_addedAt l) (cart_bookId l) (cart__id l).

Record AddBody := mkAddBody {
  ab_title : option string;
  ab_author : option string;
  ab_price : option Z;
  ab_description : option string
}.

(** POST /cart/add *)
Definition cartAdd (env : Env) (user : Claims) (body : AddBody) (db : Db)
  : Response (list CartLine) * Db :=
  match ab_title body, ab_author body, ab_price body with
  | Some title, Some author, Some price =>
    if negb (truthy title) || negb (truthy author) || (price =? 0)%Z then
      (bareError 400 "Title, author, and price are required", db)
    else
      match newObjectId (userId user) with
      | None => (bareError 500 "Internal server error", db)
      | Some uid =>
        match users db !! uid with
        | None => (bareError 404 "User not found", db)
        | Some u =>
          let cart :=
            match findIndex title (user_cart u) with
            | Some existingItemIndex =>
              alter (λ l, set_quantity (cart_quantity l + 1) l)
                existingItemIndex (user_cart u)
            | None =>
              user_cart u ++
              [mkCartLine title author price (ab_description body) 1 (now env)
                 None None]
            end in
          (bare 200 "Item added to cart" cart, saveCart uid cart db)
        end
      end
  | _, _, _ => (bareError 400 "Title, author, and price are required", db)
  end.

(** The body of PUT /cart/update, with a number as its quantity.  (The route
    also accepts a body without a quantity, and then stores the line without
    one; such a body is not a value of this type.) *)
Record UpdateBody := mkUpdateBody {
  ub_title : option string;
  ub_quantity : Z
}.

(** PUT /cart/update *)
Definition cartUpdate (user : Claims) (body : UpdateBody) (db : Db)
  : Response (list CartLine) * Db :=
  if negb (truthyOpt (ub_title body)) || (ub_quantity body <? 0)%Z then
    (bareError 400 "Valid title and quantity are required", db)
  else
    let title := default "" (ub_title body) in
    match newObjectId (userId user) with
    | None => (bareError 500 "Internal server error", db)
    | Some uid =>
      match users db !! uid with
      | None => (bareError 404 "User not found", db)
      | Some u =>
        match findIndex title (user_cart u) with
        | None => (bareError 404 "Item not found in cart", db)
        | Some itemIndex =>
          let cart :=
            if (ub_quantity body =? 0)%Z
            then delete itemIndex (user_cart u)
            else alter (set_quantity (ub_quantity body)) itemIndex (user_cart u) in
          (bare 200 "Cart updated successfully" cart, saveCart uid cart db)
        end
      end
    end.

(** DELETE /cart/remove *)
Definition cartRemove (user : Claims) (title : option string) (db : Db)
  : Response (list CartLine) * Db :=
  if negb (truthyOpt title) then (bareError 400 "Title is required", db)
  else
    match newObjectId (userId user) with
    | None => (bareError 500 "Internal server error", db)
    | Some uid =>
      match users db !! uid with
      | None => (bareError 404 "User not found", db)
      | Some u =>
        let cart := filter (λ item, cart_title item ≠ default "" title) (user_cart u) in
        (bare 200 "Item removed from cart" cart, saveCart uid cart db)
      end
    end.

(** POST /cart/clear *)
Definition cartClear (user : Claims) (db : Db) : Response (list CartLine) * Db :=
  match newObjectId (userId user) with
  | None => (bareError 500 "Internal server error", db)
  | Some uid => (bare 200 "Cart cleared successfully" [], saveCart uid [] db)
  end.

(** *** The profile *)

Record Profile := mkProfile {
  pf_id : string;
  pf_name : string;
  pf_email : string;
  pf_cart : list CartLine
}.

(** GET /profile *)
Definition getProfile (user : Claims) (db : Db) : Response Profile * Db :=
  match newObjectId (userId user) with
  | None => (bareError 500 "Internal server error", db)
  | Some uid =>
    match users db !! uid with
    | None => (bareError 404 "User not found", db)
    | Some u =>
      (mkResponse 200 None None None
         (Some (mkProfile uid (user_name u) (user_email u) (user_cart u))), db)
    end
  end.

Definition set_name (n : string) (u : User) : User :=
  mkUser n (user_email u) (user_password u) (user_role u) (user_cart u).

(** PUT /profile; the payload is the name sent back. *)
Definition updateProfile (user : Claims) (name : option string) (db : Db)
  : Response string * Db :=
  if negb (truthyOpt name) then (bareError 400 "Name is required", db)
  else
    match newObjectId (userId user) with
    | None => (bareError 500 "Internal server error", db)
    | Some uid =>
      (bare 200 "Profile updated successfully" (default "" name),
       set_users (alter (set_name (default "" name)) uid) db)
    end.

(** GET /cart *)
Definition getCart (user : Claims) (db : Db) : Response (list CartLine) * Db :=
  match newObjectId (userId user) with
  | None => (bareError 500 "Internal server error", db)
  | Some uid =>
    match users db !! uid with
    | None => (bareError 404 "User not found", db)
    | Some u => (mkResponse 200 None None None (Some (user_cart u)), db)
    end
  end.

End Routes.
End UserRoutes.

(** ** src/routes/orders.js *)
Module OrderRoutes.
Section Routes.
Context `{JsonWebToken}.

(** [s.split(c)] *)
Fixpoint split (c : ascii) (s : string) : list string :=
  match s with
  | EmptyString => [EmptyString]
  | String a rest =>
    if Ascii.eqb a c then EmptyString :: split c rest
    else
      match split c rest with
      | x :: xs => String a x :: xs
      | [] => [String a EmptyString]
      end
  end.

(** [authHeader && authHeader.split(' ')[1]], when it is truthy. *)
Definition bearerToken (authHeader : option string) : option string :=
  match authHeader with
  | Some h =>
    match split " " h !! 1%nat with
    | Some t => if truthy t then Some t else None
    | None => None
    end
  | None => None
  end.

Definition authenticateToken {A : Type} (authHeader : option string)
  : Step Claims (Response A) :=
  match bearerToken authHeader with
  | None => Respond (mkResponse 401 None (Some "Access token required") None None)
  | Some token =>
    match jwt_verify token with
    | None => Respond (mkResponse 403 None (Some "Invalid or expired token") None None)
    | Some user => Next user
    end
  end.

(** The admin check of this router: it reads [req.user.role]. *)
Definition requireAdmin {A : Type} (user : Claims) : Step Claims (Response A) :=
  if negb (isAdmin user) then Respond (failure 403 "Admin access required")
  else Next user.

Inductive Route :=
  | GetAllOrders        (* GET / *)
  | GetOrderStats       (* GET /stats *)
  | GetUserOrders       (* GET /user/:userId *)
  | GetOrderById        (* GET /:id *)
  | CreateOrder         (* POST / *)
  | CreateOrderFromCart (* POST /from-cart *)
  | UpdateOrder         (* PUT /:id *)
  | UpdateOrderStatus.  (* PUT /:id/status *)

(** The routes registered with [requireAdmin]. *)
Definition adminOnly (r : Route) : bool :=
  match r with
  | GetUserOrders | UpdateOrder => true
  | _ => false
  end.

(** [router.use(authenticateToken)], then the route's own middleware, then
    the controller. *)
Definition dispatch {A : Type} (r : Route) (authHeader : option string)
  (controller : Claims → Db → Response A * Db) (db : Db) : Response A * Db :=
  match authenticateToken authHeader with
  | Next user =>
    if adminOnly r then
      match requireAdmin user with
      | Next user' => controller user' db
      | Respond res => (res, db)
      | Throw => (mkResponse 500 None (Some "Something went wrong!") None None, db)
      end
    else controller user db
  | Respond res => (res, db)
  | Throw => (mkResponse 500 None (Some "Something went wrong!") None None, db)
  end.

End Routes.
End OrderRoutes.

(** ** src/middleware/auth.js *)
Module AuthMiddleware.
Section Middleware.
Context `{MongoDriver}.

(** The admin check of this file: it reads the role of the stored user. *)
Definition requireAdmin {A : Type} (user : Claims) (db : Db)
  : Step Claims (Response A) :=
  match newObjectId (userId user) with
  | None => Respond (failure 500 "Failed to verify admin status")
  | Some uid =>
    match users db !! uid with
    | Some u =>
      if bool_decide (user_role u = Some "admin")
      then Next (mkClaims (userId user) (email user) (user_role u))
      else Respond (failure 403 "Admin access required")
    | None => Respond (failure 403 "Admin access required")
    end
  end.

(** [authenticateToken] of this file: the responses carry [success: false]. *)
Definition authenticateToken `{JsonWebToken} {A : Type} (authHeader : option string)
  : Step Claims (Response A) :=
  match OrderRoutes.bearerToken authHeader with
  | None => Respond (failure 401 "Access token required")
  | Some token =>
    match jwt_verify token with
    | None => Respond (failure 403 "Invalid or expired token")
    | Some user => Next user
    end
  end.

(** [addUserRole]: the role, name and email of the stored user replace what
    the token says; the result is the new [req.user] and its [name]. *)
Definition addUserRole {A : Type} (user : Claims) (db : Db)
  : Step (Claims * string) (Response A) :=
  match newObjectId (userId user) with
  | None => Respond (failure 500 "Failed to verify user")
  | Some uid =>
    match users db !! uid with
    | None => Respond (failure 404 "User not found")
    | Some u =>
      Next (mkClaims (userId user) (user_email u)
              (Some (orDefault (user_role u) "user")), user_name u)
    end
  end.

(** [optionalAuth]: [req.user] is [null] without a verifiable token. *)
Definition optionalAuth `{JsonWebToken} (authHeader : option string)
  : option Claims :=
  match OrderRoutes.bearerToken authHeader with
  | None => None
  | Some token => jwt_verify token
  end.

End Middleware.
End AuthMiddleware.

(** ** The routers of the books and of the categories
    (last part of src/controllers/orderController.js, second part of
    src/routes/orders.js) *)
Module CatalogRoutes.
Section Routes.
Context `{JsonWebToken}.

Inductive Route :=
  | GetAllBooks         (* GET /api/books *)
  | SearchBooks         (* GET /api/books/search *)
  | GetBooksByCategory  (* GET /api/books/category/:categoryId *)
  | GetBookById         (* GET /api/books/:id *)
  | CreateBook          (* POST /api/books *)
  | UpdateBook          (* PUT /api/books/:id *)
  | DeleteBook          (* DELETE /api/books/:id *)
  | GetAllCategories    (* GET /api/categories *)
  | GetCategoryById     (* GET /api/categories/:id *)
  | CreateCategory      (* POST /api/categories *)
  | UpdateCategory      (* PUT /api/categories/:id *)
  | DeleteCategory      (* DELETE /api/categories/:id *)
  | ToggleCategory.     (* PUT /api/categories/:id/toggle *)

(** The routes registered with [authenticateToken, requireAdmin]. *)
Definition protected (r : Route) : bool :=
  match r with
  | CreateBook | UpdateBook | DeleteBook
  | CreateCategory | UpdateCategory | DeleteCategory | ToggleCategory => true
  | _ => false
  end.

(** A public route runs its controller with no [req.user]; a protected one
    runs [authenticateToken] and [requireAdmin] (the copies of these routers
    are those of the orders router, word for word) first. *)
Definition dispatch {A : Type} (r : Route) (authHeader : option string)
  (controller : option Claims → Db → Response A * Db) (db : Db)
  : Response A * Db :=
  if protected r then
    match OrderRoutes.authenticateToken authHeader with
    | Next user =>
      match OrderRoutes.requireAdmin user with
      | Next user' => controller (Some user') db
      | Respond res => (res, db)
      | Throw => (mkResponse 500 None (Some "Something went wrong!") None None, db)
      end
    | Respond res => (res, db)
    | Throw => (mkResponse 500 None (Some "Something went wrong!") None None, db)
    end
  else controller None db.

End Routes.
End CatalogRoutes.

(** ** The vocabulary of the properties *)

(** The sum of the subtotals of a list of order lines. *)
Definition subtotalSum (ls : list OrderLine) : Z :=
  foldr Z.add 0%Z (line_subtotal <$> ls).

(** The quantity a request orders of the book [id], over all its items. *)
Definition orderedQuantity (id : string) (its : list OrderItemReq) : Z :=
  foldr Z.add 0%Z
    ((λ it, default 0%Z (quantity it)) <$> filter (λ it, bookId it = Some id) its).

(** The same, counted on the validated lines. *)
Definition lineQuantity (id : string) (ls : list OrderLine) : Z :=
  foldr Z.add 0%Z (line_quantity <$> filter (λ l, line_bookId l = id) ls).

(** A validated line snapshots its request item and the stored book. *)
Definition snapshotOf (bs : gmap string Book) (item : OrderItemReq)
  (line : OrderLine) : Prop :=
  bookId item = Some (line_bookId line) ∧
  quantity item = Some (line_quantity line) ∧
  ∃ book, bs !! line_bookId line = Some book ∧
    line_title line = book_title book ∧
    line_author line = book_author book ∧
    line_price line = book_price book ∧
    line_subtotal line = (book_price book * line_quantity line)%Z ∧
    (0 < line_quantity line ≤ book_stock book)%Z.

(** An item that passes every check of the validation loop. *)
Definition itemAccepted `{MongoDriver} (bs : gmap string Book)
  (it : OrderItemReq) : Prop :=
  ∃ bid q book,
    bookId it = Some bid ∧ quantity it = Some q ∧
    truthy bid = true ∧ ObjectId_isValid bid = true ∧ (0 < q)%Z ∧
    bs !! bid = Some book ∧ (q ≤ book_stock book)%Z.

(** The requests that write to the store, and a run of them. *)
Inductive Request :=
  | ReqCreateOrder (env : Env) (user : Claims) (body : CreateOrderBody)
  | ReqCreateOrderFromCart (env : Env) (user : Claims) (body : CreateOrderBody)
  | ReqUpdateOrderStatus (env : Env) (user : Claims) (id : string)
      (body : OrderController.StatusBody)
  | ReqUpdateBook (id : string) (updateData : BookController.BookUpdate)
  | ReqDeleteCategory (id : string) (force : option string)
  | ReqCartAdd (env : Env) (user : Claims) (body : UserRoutes.AddBody)
  | ReqCartUpdate (user : Claims) (body : UserRoutes.UpdateBody)
  | ReqCartRemove (user : Claims) (title : option string)
  | ReqCartClear (user : Claims).

Definition handle `{MongoDriver} (req : Request) (db : Db) : Db :=
  match req with
  | ReqCreateOrder env user body => (OrderController.createOrder env user body db).2
  | ReqCreateOrderFromCart env user body =>
    (OrderController.createOrderFromCart env user body db).2
  | ReqUpdateOrderStatus env user id body =>
    (OrderController.updateOrderStatus env user id body db).2
  | ReqUpdateBook id updateData => (BookController.updateBook id updateData db).2
  | ReqDeleteCategory id force => (CategoryController.deleteCategory id force db).2
  | ReqCartAdd env user body => (UserRoutes.cartAdd env user body db).2
  | ReqCartUpdate user body => (UserRoutes.cartUpdate user body db).2
  | ReqCartRemove user title => (UserRoutes.cartRemove user title db).2
  | ReqCartClear user => (UserRoutes.cartClear user db).2
  end.

Definition run `{MongoDriver} (reqs : list Request) (db : Db) : Db :=
  fold_left (λ d req, handle req d) reqs db.

(** The order at a position keeps its lines and its total. *)
Definition ordersKept (db db' : Db) : Prop :=
  ∀ i d, orders db !! i = Some d →
    ∃ d', orders db' !! i = Some d' ∧
      doc_totalAmount d' = doc_totalAmount d ∧ doc_items d' = doc_items d.

(** The titles of the lines of a cart, in order. *)
Definition titles (cart : list CartLine) : list string := cart_title <$> cart.

(** Every stored cart has at most one line per title. *)
Definition oneLinePerTitle (db : Db) : Prop :=
  ∀ uid u, users db !! uid = Some u → NoDup (titles (user_cart u)).

(** No cart line carries a book reference. *)
Definition noBookReference (db : Db) : Prop :=
  ∀ uid u, users db !! uid = Some u →
    Forall (λ l, cart_bookId l = None ∧ cart__id l = None) (user_cart u).

(** [a] was created no earlier than [b]. *)
Definition newerEq (a b : OrderDoc) : Prop :=
  (getTime (doc_createdAt b) ≤ getTime (doc_createdAt a))%Z.

(** The documents of a collection that a filter selects. *)
Definition selected (f : OrderController.Filter) (coll : list OrderDoc)
  : list OrderDoc :=
  filter (λ d, OrderController.matches f d = true) coll.

(** The orders of a collection that belong to user [u]. *)
Definition ownedBy (u : string) (coll : list OrderDoc) : list OrderDoc :=
  filter (λ d, doc_userId d = u) coll.

(** The statistics of a list of orders. *)
Definition statsOf (docs : list OrderDoc) : OrderController.OrderStats :=
  OrderController.mkOrderStats (Z.of_nat (length docs))
    (foldr Z.add 0%Z (doc_totalAmount <$> docs))
    (Z.of_nat (length (filter (λ d, doc_status d = "pending") docs)))
    (Z.of_nat (length (filter (λ d, doc_status d = "completed") docs)))
    (Z.of_nat (length (filter (λ d, doc_status d = "cancelled") docs))).

(** Every stored order has one of the six statuses. *)
Definition validStatusOrders (db : Db) : Prop :=
  Forall (λ d, doc_status d ∈ OrderController.validStatuses) (orders db).

(** The order at a position keeps its identity and its history grows at the
    end only. *)
Definition historyExtended (db db' : Db) : Prop :=
  ∀ i d, orders db !! i = Some d →
    ∃ d', orders db' !! i = Some d' ∧
      doc__id d' = doc__id d ∧ doc_userId d' = doc_userId d ∧
      doc_orderNumber d' = doc_orderNumber d ∧
      doc_createdAt d' = doc_createdAt d ∧
      doc_statusHistory d `prefix_of` doc_statusHistory d'.

(** The history of every stored order starts with the pending entry. *)
Definition pendingFirst (db : Db) : Prop :=
  Forall (λ d, entry_status <$> head (doc_statusHistory d) = Some "pending")
    (orders db).

(** No stored book has a negative price. *)
Definition nonNegativePrices (db : Db) : Prop :=
  ∀ id book, books db !! id = Some book → (0 ≤ book_price book)%Z.

(** A string without a space. *)
Definition spaceFree (s : string) : bool :=
  forallb (λ a, negb (Ascii.eqb a " ")) (list_ascii_of_string s).

(** Two instants of one calendar day. *)
Definition sameDay (a b : Date) : Prop :=
  getFullYear a = getFullYear b ∧ getMonth a = getMonth b ∧ getDate a = getDate b.

(** Every stored order got its number from the orders stored before it. *)
Definition numberedInSequence (db : Db) : Prop :=
  ∀ i d, orders db !! i = Some d →
    doc_orderNumber d
    = OrderController.generateOrderNumber (doc_createdAt d) (take i (orders db)).

(** ** A concrete store and concrete requests

    Library instances and documents on which the handlers are run. *)
Module Scenario.

Definition isHexDigit (a : ascii) : bool :=
  let n := nat_of_ascii a in
  ((48 <=? n) && (n <=? 57) || (97 <=? n) && (n <=? 102)
   || (65 <=? n) && (n <=? 70))%nat.

(** A 24 character hex string. *)
Definition hex24 (s : string) : bool :=
  (String.length s =? 24)%nat && forallb isHexDigit (list_ascii_of_string s).

#[global] Instance driver : MongoDriver := {| ObjectId_isValid := hex24 |}.

Definition idA : string := "64b0000000000000000000a1".
Definition idB : string := "64b0000000000000000000a2".
Definition idAdmin : string := "64b0000000000000000000ad".
Definition idX : string := "64b0000000000000000000b1".
Definition idGone : string := "64b0000000000000000000b9".
Definition idFantasy : string := "64b0000000000000000000c1".
Definition idOrder1 : string := "64b0000000000000000000d1".
Definition idOrder2 : string := "64b0000000000000000000d2".

Definition claimsA : Claims := mkClaims idA "a@example.com" None.
Definition claimsAdmin : Claims := mkClaims idAdmin "admin@example.com" None.

Definition tokenA : string := "token-of-a".
Definition tokenAdmin : string := "token-of-admin".

(** A table in place of signature checking. *)
#[global] Instance jwt : JsonWebToken := {|
  jwt_sign c := if String.eqb (userId c) idAdmin then tokenAdmin else tokenA;
  jwt_verify t :=
    if String.eqb t tokenA then Some claimsA
    else if String.eqb t tokenAdmin then Some claimsAdmin
    else None
|}.

#[global] Instance bcrypt : Bcrypt := {|
  bcrypt_hash p := ("hash:" ++ p)%string;
  bcrypt_compare p h := String.eqb ("hash:" ++ p)%string h
|}.

Definition day : Date := mkDate 2025 0 15 1736899200000.
Definition later : Date := mkDate 2025 0 16 1736985600000.
Definition env0 : Env := mkEnv day idOrder1.

Definition bookX : Book :=
  mkBook "Dune" "Frank Herbert" "" 450 (Some (RefString idFantasy)) 5.

Definition userA : User :=
  mkUser "A" "a@example.com" "hash:secret-a" (Some "user") [].
Definition userB : User :=
  mkUser "B" "b@example.com" "hash:secret-b" (Some "user") [].
Definition userAdmin : User :=
  mkUser "Admin" "admin@example.com" "hash:secret-admin" (Some "admin") [].

Definition db0 : Db :=
  mkDb {[ idX := bookX ]}
    (<[ idA := userA ]> (<[ idB := userB ]> {[ idAdmin := userAdmin ]}))
    []
    {[ idFantasy := mkCategory "Fantasy" "" true ]}.

Definition home : ShippingAddress := mkShippingAddress (Some "1 Main St") (Some "Lagos").

Definition orderBody (its : list OrderItemReq) : CreateOrderBody :=
  mkCreateOrderBody (Some its) (Some home) (Some "card") None.

(** Two copies of X. *)
Definition twoOfX : CreateOrderBody := orderBody [mkItem (Some idX) (Some 2%Z)].

(** Ten copies of X, of which five are in stock. *)
Definition tenOfX : CreateOrderBody := orderBody [mkItem (Some idX) (Some 10%Z)].

(** One copy of a book that is not in the store, then ten copies of X. *)
Definition goneThenTenOfX : CreateOrderBody :=
  orderBody [mkItem (Some idGone) (Some 1%Z); mkItem (Some idX) (Some 10%Z)].

Definition claimsB : Claims := mkClaims idB "b@example.com" None.

(** Claims with an admin role: no endpoint signs such a payload. *)
Definition claimsRoot : Claims := mkClaims idAdmin "admin@example.com" (Some "admin").

(** The body of POST /cart/add for book X. *)
Definition addDune : UserRoutes.AddBody :=
  UserRoutes.mkAddBody (Some "Dune") (Some "Frank Herbert") (Some 450%Z) None.

(** The body of POST /from-cart. *)
Definition checkout : CreateOrderBody :=
  mkCreateOrderBody None (Some home) (Some "card") None.

(** The line that the first add of X writes. *)
Definition lineDune : CartLine :=
  mkCartLine "Dune" "Frank Herbert" 450 None 1 day None None.

(** User A has added X to the cart once, and twice. *)
Definition dbCart1 : Db := (UserRoutes.cartAdd env0 claimsA addDune db0).2.
Definition dbCart2 : Db := (UserRoutes.cartAdd env0 claimsA addDune dbCart1).2.

(** User B has ordered two copies of X. *)
Definition dbOrdered : Db := (OrderController.createOrder env0 claimsB twoOfX db0).2.

(** ... and the order has been marked as shipped, by a request whose claims
    carry the admin role. *)
Definition dbShipped : Db :=
  (OrderController.updateOrderStatus (mkEnv later idOrder2) claimsRoot idOrder1
     (OrderController.mkStatusBody (Some "shipped") None) dbOrdered).2.

(** A controller that answers 200 when it runs. *)
Definition answers : Claims → Db → Response unit * Db :=
  λ _ d, (succeed 200 None (Some tt), d).

(** Two orders: B's of [day], then A's of [later]. *)
Definition dbTwo : Db :=
  (OrderController.createOrder (mkEnv later idOrder2) claimsA twoOfX dbOrdered).2.

(** The requests that ship B's order and then create A's. *)
Definition shipThenOrder : list Request :=
  [ReqUpdateOrderStatus (mkEnv later idOrder2) claimsRoot idOrder1
     (OrderController.mkStatusBody (Some "shipped") None);
   ReqCreateOrder (mkEnv later idOrder2) claimsA twoOfX].

(** GET /api/orders?userId=B *)
Definition ordersOfB : OrderController.ListQuery :=
  OrderController.mkListQuery None None None (Some idB).

(** A book that is not in the store yet, and the id it is inserted under. *)
Definition idEmma : string := "64b0000000000000000000b2".
Definition newEmma : BookController.BookBody :=
  BookController.mkBookBody (Some "Emma") (Some "Jane Austen") None (Some 300%Z)
    (Some idFantasy) (Some 3%Z).

(** A registration, and the id the user is inserted under. *)
Definition idC : string := "64b0000000000000000000a3".
Definition registerC : UserRoutes.RegisterBody :=
  UserRoutes.mkRegisterBody (Some "C") (Some "C@Example.com") (Some "secret-c").

(** Another instant of [day]. *)
Definition noon : Date := mkDate 2025 0 15 1736942400000.

(** A store as scripts/seed.js writes it: the book refers to its category
    by the [ObjectId] of the category. *)
Definition idSciFi : string := "64b0000000000000000000c2".
Definition idDune : string := "64b0000000000000000000b3".
Definition bookSeeded : Book :=
  mkBook "Dune" "Frank Herbert"
    "A science fiction novel about politics and power on a desert planet."
    450 (Some (RefObjectId idSciFi)) 15.
Definition dbSeeded : Db :=
  mkDb {[ idDune := bookSeeded ]}
    {[ idAdmin := mkUser "Admin User" "admin@schoolplus.com" "hash:admin123"
                    (Some "admin") [] ]}
    []
    {[ idSciFi := mkCategory "Science Fiction"
         "Futuristic and speculative fiction exploring advanced science and technology"
         true ]}.

(** PUT /api/orders/:id with a status that is not one of the six. *)
Definition markCompleted : OrderController.OrderUpdate :=
  OrderController.mkOrderUpdate None None None None None None None
    (Some "completed") None None None None.

End Scenario.

(** * Properties *)

(** ** Creating an order *)

Section OrderFacts.
Context `{MongoDriver}.
Import OrderController.

Lemma subtotalSum_app ls1 ls2 :
  subtotalSum (ls1 ++ ls2) = (subtotalSum ls1 + subtotalSum ls2)%Z.
Proof.
  unfold subtotalSum. rewrite fmap_app, foldr_app.
  generalize (foldr Z.add 0%Z (line_subtotal <$> ls2)).
  induction ls1 as [|l ls1 IH]; intros z; simpl; [lia|].
  rewrite IH. unfold fmap. lia.
Qed.

Lemma newObjectId_Some s oid : newObjectId s = Some oid → oid = s.
Proof. unfold newObjectId. destruct (ObjectId_isValid s); congruence. Qed.

(** What a completed validation loop has accumulated. *)
Lemma validateItems_Next bs its :
  ∀ total acc total' acc',
    validateItems bs its total acc = Next (total', acc') →
    ∃ lines, acc' = acc ++ lines ∧
      total' = (total + subtotalSum lines)%Z ∧
      Forall2 (snapshotOf bs) its lines.
Proof.
  induction its as [|item rest IH]; intros total acc total' acc' Hv; simpl in Hv.
  - inversion Hv; subst. exists []. rewrite app_nil_r. split; [done|].
    split; [unfold subtotalSum; simpl; lia | constructor].
  - destruct (bookId item) as [bid|] eqn:Hb; [|discriminate].
    destruct (quantity item) as [q|] eqn:Hq; [|discriminate].
    destruct (negb (truthy bid) || (q =? 0)%Z || (q <=? 0)%Z) eqn:Hg;
      [discriminate|].
    destruct (newObjectId bid) as [oid|] eqn:Ho; [|discriminate].
    apply newObjectId_Some in Ho. subst oid.
    destruct (bs !! bid) as [book|] eqn:Hbook; [|discriminate].
    destruct (book_stock book <? q)%Z eqn:Hs; [discriminate|].
    apply IH in Hv as (lines & -> & -> & HF).
    eexists (_ :: lines). rewrite <- app_assoc. split; [reflexivity|].
    split.
    + change (?l :: lines) with ([l] ++ lines).
      rewrite subtotalSum_app. unfold subtotalSum, fmap. cbn. lia.
    + constructor; [|exact HF].
      unfold snapshotOf; simpl. repeat split; try done.
      exists book. repeat split; try done.
      * apply orb_false_elim in Hg as [_ Hg]. lia.
      * lia.
Qed.

(** A response of the validation loop is never the success status. *)
Lemma validateItems_Respond bs its :
  ∀ total acc r,
    validateItems bs its total acc = Respond r →
    res_status r = 400 ∨ res_status r = 404.
Proof.
  induction its as [|item rest IH]; intros total acc r Hv; simpl in Hv;
    [discriminate|].
  destruct (bookId item) as [bid|]; [|inversion Hv; subst; by left].
  destruct (quantity item) as [q|]; [|inversion Hv; subst; by left].
  destruct (negb (truthy bid) || (q =? 0)%Z || (q <=? 0)%Z);
    [inversion Hv; subst; by left|].
  destruct (newObjectId bid) as [oid|]; [|discriminate].
  destruct (bs !! oid) as [book|]; [|inversion Hv; subst; by right].
  destruct (book_stock book <? q)%Z; [inversion Hv; subst; by left|].
  by eapply IH.
Qed.

Lemma create_spec env od coll :
  ∃ doc, create env od coll = (Order_new doc, coll ++ [doc]) ∧
    doc_items doc = data_items od ∧ doc_totalAmount doc = data_totalAmount od.
Proof. unfold create. by eexists. Qed.

(** The shape of a successful [createOrder]. *)
Lemma createOrder_created env user body db resp db' :
  createOrder env user body db = (resp, db') →
  res_status resp = 201 →
  ∃ its sa total lines,
    items body = Some its ∧ shippingAddress body = Some sa ∧
    validateItems (books db) its 0 [] = Next (total, lines) ∧
    ObjectId_isValid (userId user) = true ∧
    let od := mkOrderData (userId user) lines total sa
                (default "" (paymentMethod body)) (orDefault (notes body) "")
                "pending" [mkStatusEntry "pending" "Order created" (now env)] in
    resp = succeed 201 (Some "Order created successfully")
             (Some (create env od (orders db)).1) ∧
    db' = mkDb (decrementStock (books db) lines)
            (alter (set_cart []) (userId user) (users db))
            (create env od (orders db)).2 (categories db).
Proof.
  unfold createOrder. intros Hc H201.
  destruct (items body) as [[|item its]|] eqn:Hits;
    try (inversion Hc; subst; simpl in H201; discriminate).
  destruct (shippingAddress body) as [sa|] eqn:Hsa;
    [|inversion Hc; subst; simpl in H201; discriminate].
  destruct (negb (hasAddressAndCity sa));
    [inversion Hc; subst; simpl in H201; discriminate|].
  destruct (negb (truthyOpt (paymentMethod body)));
    [inversion Hc; subst; simpl in H201; discriminate|].
  destruct (validateItems (books db) (item :: its) 0 []) as [[total lines]|r|] eqn:Hv.
  - unfold newObjectId in Hc.
    destruct (ObjectId_isValid (userId user)) eqn:Hu;
      [|inversion Hc; subst; simpl in H201; discriminate].
    simpl in Hc. inversion Hc; subst.
    exists (item :: its), sa, total, lines. repeat split; done.
  - inversion Hc; subst. apply validateItems_Respond in Hv. lia.
  - inversion Hc; subst; simpl in H201; discriminate.
Qed.

(** A [createOrder] that does not answer 201 leaves the database as it
    was. *)
Lemma createOrder_failed env user body db :
  res_status (createOrder env user body db).1 ≠ 201 →
  (createOrder env user body db).2 = db.
Proof.
  unfold createOrder.
  destruct (items body) as [[|item its]|]; try done.
  destruct (shippingAddress body) as [sa|]; [|done].
  destruct (negb (hasAddressAndCity sa)); [done|].
  destruct (negb (truthyOpt (paymentMethod body))); [done|].
  destruct (validateItems (books db) (item :: its) 0 []) as [[total lines]|r|];
    [|done|done].
  destruct (newObjectId (userId user)); [|done].
  simpl. done.
Qed.

Lemma ordersKept_same db db' : orders db' = orders db → ordersKept db db'.
Proof. intros Ho i d Hd. exists d. by rewrite Ho. Qed.

Lemma ordersKept_trans db1 db2 db3 :
  ordersKept db1 db2 → ordersKept db2 db3 → ordersKept db1 db3.
Proof.
  intros H12 H23 i d Hd.
  destruct (H12 i d Hd) as (d2 & Hd2 & Ht2 & Hi2).
  destruct (H23 i d2 Hd2) as (d3 & Hd3 & Ht3 & Hi3).
  exists d3. split; [done|]. split; congruence.
Qed.

Lemma createOrder_ordersKept env user body db :
  ordersKept db (createOrder env user body db).2.
Proof.
  destruct (decide (res_status (createOrder env user body db).1 = 201)) as [H201|Hne].
  - destruct (createOrder env user body db) as [resp db'] eqn:Hc.
    destruct (createOrder_created _ _ _ _ _ _ Hc H201)
      as (its & sa & total & lines & _ & _ & _ & _ & _ & Hdb).
    simpl. subst db'. intros i d Hd. exists d. simpl.
    split; [|done]. unfold create. simpl. by apply lookup_app_l_Some.
  - apply ordersKept_same. by rewrite createOrder_failed.
Qed.

Lemma createOrderFromCart_ordersKept env user body db :
  ordersKept db (createOrderFromCart env user body db).2.
Proof.
  unfold createOrderFromCart.
  destruct (newObjectId (userId user)) as [uid|]; [|by apply ordersKept_same].
  destruct (users db !! uid) as [u|]; [|by apply ordersKept_same].
  destruct (user_cart u) as [|l cart]; [by apply ordersKept_same|].
  apply createOrder_ordersKept.
Qed.

Lemma updateOrderStatus_ordersKept env user id body db :
  ordersKept db (updateOrderStatus env user id body db).2.
Proof.
  unfold updateOrderStatus.
  destruct (negb (ObjectId_isValid id)); [by apply ordersKept_same|].
  destruct (negb (includes validStatuses (sb_status body)));
    [by apply ordersKept_same|].
  destruct (findById id (orders db)) as [order|]; [|by apply ordersKept_same].
  destruct (negb (isAdmin user) && _); [by apply ordersKept_same|].
  destruct (negb (isAdmin user) && _ && _); [by apply ordersKept_same|].
  simpl. intros i d Hd. unfold updateStatus.
  destruct (list_find _ (orders db)) as [[j x]|]; [|by exists d].
  unfold set_orders. cbn [orders].
  rewrite list_lookup_alter. case_decide as Hij.
  - subst j. rewrite Hd. simpl. by eexists.
  - by exists d.
Qed.

Lemma updateBook_orders id u db :
  orders (BookController.updateBook id u db).2 = orders db.
Proof.
  unfold BookController.updateBook.
  destruct (negb (ObjectId_isValid id)); [done|].
  destruct (books db !! id); [|done].
  destruct (BookController.badPrice u); done.
Qed.

Lemma deleteCategory_orders id force db :
  orders (CategoryController.deleteCategory id force db).2 = orders db.
Proof.
  unfold CategoryController.deleteCategory.
  destruct (negb (ObjectId_isValid id)); [done|].
  destruct (_ && _); [done|].
  destruct (categories db !! id); done.
Qed.

Lemma handle_ordersKept req db : ordersKept db (handle req db).
Proof.
  destruct req as [env user body|env user body|env user id body|id u|id force
                  |env user body|user body|user title|user]; simpl.
  - apply createOrder_ordersKept.
  - apply createOrderFromCart_ordersKept.
  - apply updateOrderStatus_ordersKept.
  - apply ordersKept_same, updateBook_orders.
  - apply ordersKept_same, deleteCategory_orders.
  - apply ordersKept_same. unfold UserRoutes.cartAdd.
    repeat (case_match; try done).
  - apply ordersKept_same. unfold UserRoutes.cartUpdate.
    repeat (case_match; try done).
  - apply ordersKept_same. unfold UserRoutes.cartRemove.
    repeat (case_match; try done).
  - apply ordersKept_same. unfold UserRoutes.cartClear.
    repeat (case_match; try done).
Qed.

(** Whatever requests follow, a stored order keeps its lines and total. *)
Lemma run_ordersKept reqs : ∀ db, ordersKept db (run reqs db).
Proof.
  unfold run. induction reqs as [|req reqs IH]; intros db; simpl.
  - by apply ordersKept_same.
  - eapply ordersKept_trans; [apply handle_ordersKept|apply IH].
Qed.

Lemma add_stock_zero b : add_stock 0 b = b.
Proof. destruct b. unfold add_stock. simpl. f_equal. lia. Qed.

Lemma add_stock_add a c b : add_stock c (add_stock a b) = add_stock (a + c) b.
Proof. unfold add_stock. simpl. f_equal. lia. Qed.

Lemma lineQuantity_cons id l ls :
  lineQuantity id (l :: ls) =
  if decide (line_bookId l = id) then (line_quantity l + lineQuantity id ls)%Z
  else lineQuantity id ls.
Proof.
  unfold lineQuantity. rewrite filter_cons. by case_decide.
Qed.

(** The stock of every book after the decrement loop. *)
Lemma decrementStock_lookup ls :
  ∀ bs id,
    decrementStock bs ls !! id = add_stock (- lineQuantity id ls) <$> bs !! id.
Proof.
  induction ls as [|l ls IH]; intros bs id.
  - unfold decrementStock, lineQuantity. simpl.
    destruct (bs !! id) as [b|]; simpl; [|done]. by rewrite add_stock_zero.
  - change (decrementStock bs (l :: ls))
      with (decrementStock
              (alter (add_stock (- line_quantity l)) (line_bookId l) bs) ls).
    rewrite IH, lineQuantity_cons, lookup_alter.
    case_decide as Hid.
    + subst id. destruct (bs !! line_bookId l) as [b|]; simpl; [|done].
      rewrite add_stock_add. do 2 f_equal. lia.
    + done.
Qed.

Lemma orderedQuantity_cons id it its :
  orderedQuantity id (it :: its) =
  if decide (bookId it = Some id)
  then (default 0 (quantity it) + orderedQuantity id its)%Z
  else orderedQuantity id its.
Proof.
  unfold orderedQuantity. rewrite filter_cons. by case_decide.
Qed.

Lemma lineQuantity_ordered bs id its ls :
  Forall2 (snapshotOf bs) its ls → lineQuantity id ls = orderedQuantity id its.
Proof.
  induction 1 as [|item l its ls (Hb & Hq & _) _ IH]; [done|].
  rewrite lineQuantity_cons, orderedQuantity_cons, IH, Hb, Hq. simpl.
  destruct (decide (line_bookId l = id)) as [->|Hne].
  - by rewrite decide_True.
  - rewrite decide_False; [done|]. congruence.
Qed.

(** C1: a successful createOrder returns an order whose totalAmount is the
    sum of the subtotals of its lines; every line is the snapshot of its
    request item, with subtotal = the stored price of the book at the time
    of the call times the requested quantity; the persisted document carries
    the same lines and total, and keeps both whatever requests follow
    (updates of the books and their prices included). *)
Theorem C1_total_is_sum_of_subtotals env user body db resp db' :
  createOrder env user body db = (resp, db') →
  res_status resp = 201 →
  ∃ order its doc,
    res_data resp = Some order ∧
    items body = Some its ∧
    order_totalAmount order = subtotalSum (order_items order) ∧
    Forall2 (snapshotOf (books db)) its (order_items order) ∧
    orders db' = orders db ++ [doc] ∧
    doc_items doc = order_items order ∧
    doc_totalAmount doc = order_totalAmount order ∧
    ∀ reqs, ∃ doc',
      orders (run reqs db') !! length (orders db) = Some doc' ∧
      doc_items doc' = order_items order ∧
      doc_totalAmount doc' = order_totalAmount order.
Proof.
  intros Hc H201.
  destruct (createOrder_created _ _ _ _ _ _ Hc H201)
    as (its & sa & total & lines & Hits & Hsa & Hv & Hu & Hresp & Hdb).
  apply validateItems_Next in Hv as (ls & Hls & Htot & HF).
  simpl in Hls. subst lines. rewrite Z.add_0_l in Htot.
  cbv zeta in Hresp, Hdb.
  destruct (create_spec env
              (mkOrderData (userId user) ls total sa
                 (default "" (paymentMethod body)) (orDefault (notes body) "")
                 "pending" [mkStatusEntry "pending" "Order created" (now env)])
              (orders db)) as (doc & Hcr & Hi & Ht).
  rewrite Hcr in Hresp, Hdb. simpl in Hresp, Hdb, Hi, Ht.
  exists (Order_new doc), its, doc. subst resp db'. simpl.
  rewrite Hi, Ht, Htot. repeat split; try done.
  intros reqs.
  destruct (run_ordersKept reqs
              (mkDb (decrementStock (books db) ls)
                 (alter (set_cart []) (userId user) (users db))
                 (orders db ++ [doc]) (categories db))
              (length (orders db)) doc) as (d' & Hd' & Ht' & Hi').
  { simpl. apply list_lookup_middle. done. }
  exists d'. split; [exact Hd'|]. split; congruence.
Qed.

(** C2: after a successful createOrder the stock of every book is its former
    stock minus the quantity the request ordered of it (books the request
    does not mention keep theirs), and the cart of the ordering user is
    empty; the other users are untouched. *)
Theorem C2_stock_decremented_cart_cleared env user body db resp db' :
  createOrder env user body db = (resp, db') →
  res_status resp = 201 →
  ∃ its,
    items body = Some its ∧
    (∀ id, books db' !! id
           = add_stock (- orderedQuantity id its) <$> books db !! id) ∧
    (∀ id book, books db !! id = Some book →
       ∃ book', books db' !! id = Some book' ∧
         book_stock book' = (book_stock book - orderedQuantity id its)%Z) ∧
    users db' !! userId user = set_cart [] <$> users db !! userId user ∧
    (∀ u, users db' !! userId user = Some u → user_cart u = []) ∧
    (∀ uid, uid ≠ userId user → users db' !! uid = users db !! uid).
Proof.
  intros Hc H201.
  destruct (createOrder_created _ _ _ _ _ _ Hc H201)
    as (its & sa & total & lines & Hits & Hsa & Hv & Hu & Hresp & Hdb).
  apply validateItems_Next in Hv as (ls & Hls & Htot & HF).
  simpl in Hls. subst lines.
  assert (Hbooks : ∀ id, books db' !! id
            = add_stock (- orderedQuantity id its) <$> books db !! id).
  { intros id. subst db'. simpl.
    by rewrite decrementStock_lookup, (lineQuantity_ordered _ _ _ _ HF). }
  assert (Hcart : users db' !! userId user
            = set_cart [] <$> users db !! userId user).
  { subst db'. simpl. rewrite lookup_alter. by rewrite decide_True. }
  exists its. repeat split; try done.
  - intros id book Hb. rewrite Hbooks, Hb. simpl.
    eexists. split; [done|]. simpl. lia.
  - intros u Hu'. rewrite Hcart in Hu'.
    destruct (users db !! userId user); simpl in Hu'; [|done].
    by inversion Hu'.
  - intros uid Hne. subst db'. simpl. rewrite lookup_alter.
    by rewrite decide_False.
Qed.

Lemma validateItems_app bs pre :
  ∀ rest total acc,
    validateItems bs (pre ++ rest) total acc =
    match validateItems bs pre total acc with
    | Next (total', acc') => validateItems bs rest total' acc'
    | Respond r => Respond r
    | Throw => Throw
    end.
Proof.
  induction pre as [|item pre IH]; intros rest total acc; simpl; [done|].
  destruct (bookId item) as [bid|]; [|done].
  destruct (quantity item) as [q|]; [|done].
  destruct (negb (truthy bid) || (q =? 0)%Z || (q <=? 0)%Z); [done|].
  destruct (newObjectId bid) as [oid|]; [|done].
  destruct (bs !! oid) as [book|]; [|done].
  destruct (book_stock book <? q)%Z; [done|].
  apply IH.
Qed.

Lemma validateItems_accepted bs pre :
  Forall (itemAccepted bs) pre →
  ∀ total acc, ∃ total' acc', validateItems bs pre total acc = Next (total', acc').
Proof.
  induction 1 as [|item pre (bid & q & book & Hb & Hq & Ht & Hv & Hpos & Hbk & Hle) _ IH];
    intros total acc; simpl; [by eexists _, _|].
  rewrite Hb, Hq, Ht. simpl.
  replace ((q =? 0)%Z) with false by lia.
  replace ((q <=? 0)%Z) with false by lia. simpl.
  unfold newObjectId. rewrite Hv, Hbk.
  replace ((book_stock book <? q)%Z) with false by lia.
  apply IH.
Qed.

(** The statuses [createOrder] answers with. *)
Lemma createOrder_statuses env user body db :
  let r := (createOrder env user body db).1 in
  res_status r = 201 ∨
  res_success r = Some false ∧
  (res_status r = 400 ∨ res_status r = 404 ∨ res_status r = 500).
Proof.
  unfold createOrder.
  destruct (items body) as [[|item its]|]; try (right; simpl; tauto).
  destruct (shippingAddress body) as [sa|]; [|right; simpl; tauto].
  destruct (negb (hasAddressAndCity sa)); [right; simpl; tauto|].
  destruct (negb (truthyOpt (paymentMethod body))); [right; simpl; tauto|].
  destruct (validateItems (books db) (item :: its) 0 []) as [[total lines]|r|] eqn:Hv.
  - destruct (newObjectId (userId user)); simpl; [by left|right; tauto].
  - right. simpl. clear -Hv. revert Hv.
    generalize (item :: its), 0%Z, (@nil OrderLine).
    intros its'. induction its' as [|it its' IH]; intros total acc Hv; simpl in Hv;
      [discriminate|].
    destruct (bookId it) as [bid|]; [|inversion Hv; subst; simpl; tauto].
    destruct (quantity it) as [q|]; [|inversion Hv; subst; simpl; tauto].
    destruct (negb (truthy bid) || (q =? 0)%Z || (q <=? 0)%Z);
      [inversion Hv; subst; simpl; tauto|].
    destruct (newObjectId bid) as [oid|]; [|discriminate].
    destruct (books db !! oid) as [book|]; [|inversion Hv; subst; simpl; tauto].
    destruct (book_stock book <? q)%Z; [inversion Hv; subst; simpl; tauto|].
    by eapply IH.
  - right; simpl; tauto.
Qed.

(** Items that pass the loop are accepted items. *)
Lemma validateItems_Next_accepted bs its :
  ∀ total acc r,
    validateItems bs its total acc = Next r → Forall (itemAccepted bs) its.
Proof.
  induction its as [|item rest IH]; intros total acc r Hv; simpl in Hv;
    [constructor|].
  destruct (bookId item) as [bid|] eqn:Hb; [|discriminate].
  destruct (quantity item) as [q|] eqn:Hq; [|discriminate].
  destruct (negb (truthy bid) || (q =? 0)%Z || (q <=? 0)%Z) eqn:Hg;
    [discriminate|].
  destruct (newObjectId bid) as [oid|] eqn:Ho; [|discriminate].
  pose proof (newObjectId_Some _ _ Ho) as ->.
  destruct (bs !! bid) as [book|] eqn:Hbook; [|discriminate].
  destruct (book_stock book <? q)%Z eqn:Hs; [discriminate|].
  constructor; [|by eapply IH].
  exists bid, q, book.
  apply orb_false_elim in Hg as [Hg Hle].
  apply orb_false_elim in Hg as [Ht _].
  unfold newObjectId in Ho. destruct (ObjectId_isValid bid); [|discriminate].
  repeat split; try done.
  - by destruct (truthy bid).
  - lia.
  - lia.
Qed.

Lemma itemAccepted_dec bs it : itemAccepted bs it ∨ ¬ itemAccepted bs it.
Proof.
  destruct (bookId it) as [b|] eqn:Hb;
    [|right; intros (b' & q' & bk & Hb' & _); congruence].
  destruct (quantity it) as [n|] eqn:Hn;
    [|right; intros (b' & q' & bk & _ & Hq' & _); congruence].
  destruct (truthy b) eqn:Ht;
    [|right; intros (b' & q' & bk & Hb' & _ & Ht' & _); congruence].
  destruct (ObjectId_isValid b) eqn:Hv;
    [|right; intros (b' & q' & bk & Hb' & _ & _ & Hv' & _); congruence].
  destruct (decide (0 < n)%Z) as [Hpos|Hpos];
    [|right; intros (b' & q' & bk & _ & Hq' & _ & _ & Hp' & _);
      rewrite Hn in Hq'; injection Hq' as <-; lia].
  destruct (bs !! b) as [bk|] eqn:Hbk;
    [|right; intros (b' & q' & bk & Hb' & _ & _ & _ & _ & Hbk' & _);
      rewrite Hb in Hb'; injection Hb' as <-; congruence].
  destruct (decide (n ≤ book_stock bk)%Z) as [Hle|Hgt].
  - left. by exists b, n, bk.
  - right. intros (b' & q' & bk' & Hb' & Hq' & _ & _ & _ & Hbk' & Hle).
    rewrite Hb in Hb'; injection Hb' as <-.
    rewrite Hn in Hq'; injection Hq' as <-.
    rewrite Hbk in Hbk'; injection Hbk' as <-. lia.
Qed.

(** The first item that does not pass its checks: the loop reaches it with
    the lines of the items before it. *)
Lemma validateItems_first_failure bs its :
  ¬ Forall (itemAccepted bs) its →
  ∀ total acc,
  ∃ pre it post total' acc',
    its = pre ++ it :: post ∧
    Forall (itemAccepted bs) pre ∧ ¬ itemAccepted bs it ∧
    validateItems bs its total acc = validateItems bs (it :: post) total' acc'.
Proof.
  induction its as [|x xs IH]; intros Hnot total acc.
  - destruct Hnot. constructor.
  - destruct (itemAccepted_dec bs x) as [Hx|Hx].
    + assert (Hxs : ¬ Forall (itemAccepted bs) xs)
        by (intros Hxs; apply Hnot; by constructor).
      destruct (validateItems_accepted bs [x] (Forall_cons_2 _ _ _ Hx (Forall_nil_2 _))
                  total acc) as (t1 & a1 & Hv1).
      destruct (IH Hxs t1 a1)
        as (pre & it & post & t' & a' & -> & Hpre & Hit & Hv).
      exists (x :: pre), it, post, t', a'.
      split; [done|]. split; [by constructor|]. split; [done|].
      change (x :: pre ++ it :: post) with ([x] ++ (pre ++ it :: post)).
      by rewrite validateItems_app, Hv1.
    + by exists [], x, xs, total, acc.
Qed.

(** The answer of the loop at an item that does not pass its checks. *)
Lemma validateItems_refusal bs it post total acc :
  ¬ itemAccepted bs it →
  let v := validateItems bs (it :: post) total acc in
  ((bookId it = None ∨ quantity it = None ∨
    (∃ b, bookId it = Some b ∧ truthy b = false) ∨
    (∃ n, quantity it = Some n ∧ (n ≤ 0)%Z)) →
     v = Respond (mkResponse 400 (Some false)
                    (Some "Each item must have a valid bookId and quantity")
                    None None)) ∧
  (∀ b n, bookId it = Some b → truthy b = true →
     quantity it = Some n → (0 < n)%Z →
     (ObjectId_isValid b = false → v = Throw) ∧
     (ObjectId_isValid b = true → bs !! b = None →
        v = Respond (mkResponse 404 (Some false)
                       (Some ("Book with ID " ++ b ++ " not found")%string)
                       None None)) ∧
     (ObjectId_isValid b = true → ∀ bk, bs !! b = Some bk →
        (book_stock bk < n)%Z ∧
        v = Respond (mkResponse 400 (Some false)
                       (Some ("Insufficient stock for " ++ String "034" ""
                              ++ book_title bk ++ String "034" ""
                              ++ ". Available: "
                              ++ NilZero.string_of_int (Z.to_int (book_stock bk))
                              ++ ", Requested: "
                              ++ NilZero.string_of_int (Z.to_int n))%string)
                       None None))).
Proof.
  intros Hnot v. subst v. split.
  - intros Hbad. simpl.
    destruct (bookId it) as [b|] eqn:Hb; [|done].
    destruct (quantity it) as [n|] eqn:Hn; [|done].
    destruct Hbad as [?|[?|[(b' & [= <-] & Ht)|(n' & [= <-] & Hle)]]]; try done.
    + by rewrite Ht.
    + replace (n <=? 0)%Z with true by lia. by rewrite orb_true_r.
  - intros b n Hb Ht Hn Hpos. simpl. rewrite Hb, Hn, Ht.
    replace (n =? 0)%Z with false by lia.
    replace (n <=? 0)%Z with false by lia. cbn [negb orb].
    unfold newObjectId. split; [by intros ->|].
    split.
    + intros -> Hnone. by rewrite Hnone.
    + intros Hv bk Hbk. rewrite Hv, Hbk.
      assert (Hlt : (book_stock bk < n)%Z).
      { destruct (decide (book_stock bk < n)%Z) as [?|Hge]; [done|].
        destruct Hnot. exists b, n, bk. repeat split; try done. lia. }
      split; [done|]. by replace (book_stock bk <? n)%Z with true by lia.
Qed.

(** C3 (amended): a request with an item whose quantity exceeds the stock of
    the book it names is refused and the database (orders, stocks, carts) is
    unchanged.  The answer is that of the first check that fails, in the
    order of the code: a missing address or city, a missing payment method,
    and then the first item that does not pass its checks, which is at or
    before the item in question: 400 for a missing or empty bookId or a
    missing or non-positive quantity, 500 for a malformed id, 404 naming the
    id for a book that is not stored, and 400 naming the title, the stock and
    the requested quantity for a short stock.  The last is the answer for the
    item in question when the address, city and payment method are given,
    every earlier item passes its checks and the item itself has a positive
    quantity and a well-formed, non-empty id. *)
Theorem C3_insufficient_stock_rejected env user body db pre item post bid q book :
  items body = Some (pre ++ item :: post) →
  bookId item = Some bid →
  quantity item = Some q →
  books db !! bid = Some book →
  (book_stock book < q)%Z →
  let r := createOrder env user body db in
  let answer (code : nat) (msg : string) : Response Order :=
    mkResponse code (Some false) (Some msg) None None in
  let shortOf (bk : Book) (n : Z) : string :=
    ("Insufficient stock for " ++ String "034" "" ++ book_title bk
     ++ String "034" "" ++ ". Available: "
     ++ NilZero.string_of_int (Z.to_int (book_stock bk))
     ++ ", Requested: " ++ NilZero.string_of_int (Z.to_int n))%string in
  res_status r.1 ≠ 201 ∧
  res_success r.1 = Some false ∧
  (errorKind (res_status r.1) = Some InvalidArgument ∨
   errorKind (res_status r.1) = Some NotFound ∨
   errorKind (res_status r.1) = Some Internal) ∧
  r.2 = db ∧
  ((shippingAddress body = None ∨
    ∃ sa, shippingAddress body = Some sa ∧ hasAddressAndCity sa = false) →
   r.1 = answer 400 "Shipping address with address and city is required") ∧
  ((∃ sa, shippingAddress body = Some sa ∧ hasAddressAndCity sa = true) →
   (truthyOpt (paymentMethod body) = false →
    r.1 = answer 400 "Payment method is required") ∧
   (truthyOpt (paymentMethod body) = true →
    (∃ pre' it post',
       pre ++ item :: post = pre' ++ it :: post' ∧
       length pre' ≤ length pre ∧
       Forall (itemAccepted (books db)) pre' ∧
       ¬ itemAccepted (books db) it ∧
       ((bookId it = None ∨ quantity it = None ∨
         (∃ b, bookId it = Some b ∧ truthy b = false) ∨
         (∃ n, quantity it = Some n ∧ (n ≤ 0)%Z)) →
        r.1 = answer 400 "Each item must have a valid bookId and quantity") ∧
       (∀ b n, bookId it = Some b → truthy b = true →
          quantity it = Some n → (0 < n)%Z →
          (ObjectId_isValid b = false →
           r.1 = answer 500 "Failed to create order") ∧
          (ObjectId_isValid b = true → books db !! b = None →
           r.1 = answer 404 ("Book with ID " ++ b ++ " not found")%string) ∧
          (ObjectId_isValid b = true → ∀ bk, books db !! b = Some bk →
           (book_stock bk < n)%Z ∧ r.1 = answer 400 (shortOf bk n)))) ∧
    (Forall (itemAccepted (books db)) pre →
     truthy bid = true → ObjectId_isValid bid = true → (0 < q)%Z →
     r.1 = answer 400 (shortOf book q) ∧
     errorKind (res_status r.1) = Some InvalidArgument))).
Proof.
  intros Hits Hb Hq Hbook Hlt r answer shortOf.
  assert (Hitem : ¬ itemAccepted (books db) item).
  { intros (b' & q' & bk & Hb' & Hq' & _ & _ & _ & Hbk & Hle).
    rewrite Hb in Hb'; injection Hb' as <-.
    rewrite Hq in Hq'; injection Hq' as <-.
    rewrite Hbook in Hbk; injection Hbk as <-. lia. }
  assert (Hnot : ¬ Forall (itemAccepted (books db)) (pre ++ item :: post)).
  { intros HF. apply Forall_app in HF as [_ HF].
    by apply Forall_cons_1 in HF as [? _]. }
  assert (Hfail : res_status r.1 ≠ 201).
  { intros H201. subst r.
    destruct (createOrder env user body db) as [resp db'] eqn:Hc.
    destruct (createOrder_created _ _ _ _ _ _ Hc H201)
      as (its & sa & total & lines & Hits' & _ & Hv & _).
    rewrite Hits in Hits'. injection Hits' as <-.
    by apply validateItems_Next_accepted in Hv. }
  split; [done|].
  destruct (createOrder_statuses env user body db) as [H201|(Hs & Hk)];
    [done|].
  fold r in Hs, Hk.
  split; [done|]. split.
  { destruct Hk as [->| [->| ->]]; simpl; tauto. }
  split; [by apply createOrder_failed|].
  assert (Hne : ∃ x xs, pre ++ item :: post = x :: xs)
    by (destruct pre; simpl; eauto).
  destruct Hne as (x & xs & Hne).
  split.
  { intros Hsa. subst r. unfold createOrder. rewrite Hits, Hne.
    destruct Hsa as [->|(sa & -> & ->)]; done. }
  intros (sa & Hsa & Hac). split.
  { intros Hpm. subst r. unfold createOrder.
    rewrite Hits, Hne, Hsa, Hac, Hpm. done. }
  intros Hpm.
  assert (Hr : r.1 = match validateItems (books db) (pre ++ item :: post) 0 [] with
                     | Respond resp => resp
                     | Throw => answer 500 "Failed to create order"
                     | Next _ => r.1
                     end).
  { subst r. unfold createOrder. rewrite Hits, Hne, Hsa, Hac, Hpm.
    cbn [negb]. by destruct (validateItems (books db) (x :: xs) 0 []). }
  destruct (validateItems_first_failure _ _ Hnot 0%Z [])
    as (pre' & it & post' & t' & a' & Heq & Hpre' & Hit & Hv).
  rewrite Hv in Hr.
  destruct (validateItems_refusal (books db) it post' t' a' Hit) as [Hbad Hgood].
  split.
  - exists pre', it, post'. split; [done|]. split.
    { destruct (decide (length pre' ≤ length pre)) as [?|Hgt]; [done|].
      exfalso. apply Hitem.
      assert (Hl : (pre' ++ it :: post') !! length pre = Some item).
      { rewrite <- Heq. by rewrite lookup_app_r, Nat.sub_diag by lia. }
      rewrite lookup_app_l in Hl by lia.
      rewrite Forall_forall in Hpre'. apply Hpre'.
      by eapply list_elem_of_lookup_2. }
    split; [done|]. split; [done|]. split.
    + intros Hcase. by rewrite Hr, (Hbad Hcase).
    + intros b n Hb' Ht' Hn' Hpos'.
      destruct (Hgood b n Hb' Ht' Hn' Hpos') as (Hthrow & Hnone & Hshort).
      split; [intros Hv'; by rewrite Hr, (Hthrow Hv')|].
      split; [intros Hv' Hno; by rewrite Hr, (Hnone Hv' Hno)|].
      intros Hv' bk Hbk. destruct (Hshort Hv' bk Hbk) as [Hlt' Hresp].
      split; [done|]. by rewrite Hr, Hresp.
  - intros Hpre Ht Hvalid Hpos.
    assert (Hresp : r.1 = answer 400 (shortOf book q)).
    { rewrite Hr, <- Hv. rewrite validateItems_app.
      destruct (validateItems_accepted _ _ Hpre 0%Z []) as (t1 & a1 & ->).
      destruct (validateItems_refusal (books db) item post t1 a1 Hitem)
        as [_ Hgood'].
      destruct (Hgood' bid q Hb Ht Hq Hpos) as (_ & _ & Hshort).
      destruct (Hshort Hvalid book Hbook) as [_ ->]. done. }
    split; [done|]. by rewrite Hresp.
Qed.


End OrderFacts.

Section OrderScenario.
Import OrderController Scenario.

Lemma C1_witness :
  let r := createOrder env0 claimsA twoOfX db0 in
  res_status r.1 = 201 ∧
  ∃ order its doc,
    res_data r.1 = Some order ∧
    items twoOfX = Some its ∧
    order_totalAmount order = subtotalSum (order_items order) ∧
    Forall2 (snapshotOf (books db0)) its (order_items order) ∧
    orders r.2 = orders db0 ++ [doc] ∧
    doc_items doc = order_items order ∧
    doc_totalAmount doc = order_totalAmount order ∧
    ∀ reqs, ∃ doc',
      orders (run reqs r.2) !! length (orders db0) = Some doc' ∧
      doc_items doc' = order_items order ∧
      doc_totalAmount doc' = order_totalAmount order.
Proof.
  intros r. split; [vm_compute; reflexivity|].
  apply (C1_total_is_sum_of_subtotals env0 claimsA twoOfX db0 r.1 r.2).
  - apply surjective_pairing.
  - vm_compute; reflexivity.
Defined.

Lemma C2_witness :
  let r := createOrder env0 claimsA twoOfX db0 in
  res_status r.1 = 201 ∧
  ∃ its,
    items twoOfX = Some its ∧
    (∀ id, books r.2 !! id
           = add_stock (- orderedQuantity id its) <$> books db0 !! id) ∧
    (∀ id book, books db0 !! id = Some book →
       ∃ book', books r.2 !! id = Some book' ∧
         book_stock book' = (book_stock book - orderedQuantity id its)%Z) ∧
    users r.2 !! userId claimsA = set_cart [] <$> users db0 !! userId claimsA ∧
    (∀ u, users r.2 !! userId claimsA = Some u → user_cart u = []) ∧
    (∀ uid, uid ≠ userId claimsA → users r.2 !! uid = users db0 !! uid).
Proof.
  intros r. split; [vm_compute; reflexivity|].
  apply (C2_stock_decremented_cart_cleared env0 claimsA twoOfX db0 r.1 r.2).
  - apply surjective_pairing.
  - vm_compute; reflexivity.
Defined.

(** On the concrete store: two copies of X at 450 make an order of 900 and
    leave three copies. *)
Example createOrder_twoOfX :
  let r := createOrder env0 claimsA twoOfX db0 in
  (order_totalAmount <$> res_data r.1) = Some 900%Z ∧
  (book_stock <$> books r.2 !! idX) = Some 3%Z ∧
  (doc_orderNumber <$> orders r.2) = ["ORD-20250115-0001"].
Proof. vm_compute. done. Qed.

Lemma C3_witness :
  let r := createOrder env0 claimsA tenOfX db0 in
  items tenOfX = Some ([] ++ mkItem (Some idX) (Some 10%Z) :: []) ∧
  books db0 !! idX = Some bookX ∧
  (book_stock bookX < 10)%Z ∧
  (∃ sa, shippingAddress tenOfX = Some sa ∧ hasAddressAndCity sa = true) ∧
  truthyOpt (paymentMethod tenOfX) = true ∧
  Forall (itemAccepted (books db0)) [] ∧
  truthy idX = true ∧ ObjectId_isValid idX = true ∧
  res_status r.1 ≠ 201 ∧
  r.2 = db0 ∧
  r.1 = mkResponse 400 (Some false)
          (Some ("Insufficient stock for " ++ String "034" "" ++ book_title bookX
                 ++ String "034" "" ++ ". Available: "
                 ++ NilZero.string_of_int (Z.to_int (book_stock bookX))
                 ++ ", Requested: " ++ NilZero.string_of_int (Z.to_int 10))%string)
          None None ∧
  errorKind (res_status r.1) = Some InvalidArgument.
Proof.
  intros r.
  assert (Hbook : books db0 !! idX = Some bookX) by (vm_compute; reflexivity).
  assert (Hlt : (book_stock bookX < 10)%Z) by (vm_compute; reflexivity).
  assert (Hsa : ∃ sa, shippingAddress tenOfX = Some sa
                      ∧ hasAddressAndCity sa = true)
    by (exists home; split; reflexivity).
  assert (Hid : ObjectId_isValid idX = true) by (vm_compute; reflexivity).
  destruct (C3_insufficient_stock_rejected env0 claimsA tenOfX db0
              [] (mkItem (Some idX) (Some 10%Z)) [] idX 10%Z bookX
              eq_refl eq_refl eq_refl Hbook Hlt)
    as (Hfail & _ & _ & Hdb & _ & Hrest).
  destruct (Hrest Hsa) as [_ Hpay].
  destruct (Hpay eq_refl) as [_ Hshort].
  destruct (Hshort (Forall_nil_2 _) eq_refl Hid ltac:(lia)) as [Hresp Hkind].
  split; [reflexivity|]. split; [exact Hbook|]. split; [exact Hlt|].
  split; [exact Hsa|]. split; [reflexivity|]. split; [constructor|].
  split; [reflexivity|]. split; [exact Hid|].
  split; [exact Hfail|]. split; [exact Hdb|]. split; [exact Hresp|exact Hkind].
Defined.

(** The message of the refusal on the concrete store. *)
Example createOrder_tenOfX :
  (createOrder env0 claimsA tenOfX db0).1 =
  failure 400
    ("Insufficient stock for " ++ dquote ++ "Dune" ++ dquote
     ++ ". Available: 5, Requested: 10")%string.
Proof. vm_compute. reflexivity. Qed.

(** Earlier checks answer first: a malformed id before the short item gives
    500, an item without a quantity gives 400, a missing payment method gives
    400, and none of them changes the store. *)
Example createOrder_earlier_failures :
  let short := mkItem (Some idX) (Some 10%Z) in
  createOrder env0 claimsA (orderBody [mkItem (Some "no-id") (Some 1%Z); short]) db0
    = (failure 500 "Failed to create order", db0) ∧
  createOrder env0 claimsA (orderBody [mkItem (Some idX) None; short]) db0
    = (failure 400 "Each item must have a valid bookId and quantity", db0) ∧
  createOrder env0 claimsA (mkCreateOrderBody (Some [short]) (Some home) None None) db0
    = (failure 400 "Payment method is required", db0).
Proof. vm_compute. repeat split; reflexivity. Qed.

(** C3 as stated fails: the second item asks for ten copies of a book that
    has five, and the answer is NotFound for the first item, not
    InvalidArgument. *)
Lemma C3_counterexample :
  let item := mkItem (Some idX) (Some 10%Z) in
  let r := createOrder env0 claimsA goneThenTenOfX db0 in
  items goneThenTenOfX = Some [mkItem (Some idGone) (Some 1%Z); item] ∧
  books db0 !! idX = Some bookX ∧
  (book_stock bookX < 10)%Z ∧
  res_status r.1 = 404 ∧
  errorKind (res_status r.1) = Some NotFound ∧
  errorKind (res_status r.1) ≠ Some InvalidArgument ∧
  res_error r.1 = Some (bookNotFound idGone).
Proof. vm_compute. repeat split; done. Qed.

End OrderScenario.

(** ** The cart *)

Section CartFacts.
Context `{MongoDriver}.
Import UserRoutes.

Lemma saveCart_oneLinePerTitle uid cart db :
  oneLinePerTitle db → NoDup (titles cart) →
  oneLinePerTitle (saveCart uid cart db).
Proof.
  intros Hinv Hcart uid' u'. unfold saveCart. simpl.
  rewrite lookup_alter. case_decide as Heq.
  - destruct (users db !! uid) as [u|]; simpl; [|done].
    intros [= <-]. done.
  - apply Hinv.
Qed.

Lemma titles_set_quantity (g : CartLine → Z) i cart :
  titles (alter (λ l, set_quantity (g l) l) i cart) = titles cart.
Proof.
  unfold titles. revert i. induction cart as [|l cart IH]; intros [|i]; simpl;
    try done.
  f_equal. apply IH.
Qed.

Lemma findIndex_None title cart :
  findIndex title cart = None → title ∉ titles cart.
Proof.
  unfold findIndex, titles. intros Hf.
  destruct (list_find _ cart) as [[i x]|] eqn:Hfind; [discriminate|].
  apply list_find_None in Hfind.
  intros (l & -> & Hl)%list_elem_of_fmap.
  rewrite Forall_forall in Hfind. by apply (Hfind l).
Qed.

Lemma findIndex_Some title cart i :
  findIndex title cart = Some i →
  ∃ l, cart !! i = Some l ∧ cart_title l = title.
Proof.
  unfold findIndex. intros Hf.
  destruct (list_find _ cart) as [[j x]|] eqn:Hfind; [|discriminate].
  simpl in Hf. inversion Hf; subst j.
  apply list_find_Some in Hfind as (Hl & Ht & _). by exists x.
Qed.

(** With one line per title, [findIndex] finds the line of that title. *)
Lemma findIndex_unique title cart i l :
  NoDup (titles cart) → cart !! i = Some l → cart_title l = title →
  findIndex title cart = Some i.
Proof.
  intros Hnd Hl Ht.
  destruct (findIndex title cart) as [j|] eqn:Hf.
  - apply findIndex_Some in Hf as (l' & Hl' & Ht').
    f_equal. apply (NoDup_lookup _ j i title Hnd); unfold titles;
      rewrite list_lookup_fmap.
    + by rewrite Hl'; simpl; rewrite Ht'.
    + by rewrite Hl; simpl; rewrite Ht.
  - apply findIndex_None in Hf. exfalso. apply Hf.
    unfold titles. apply list_elem_of_fmap. exists l. split; [done|].
    by eapply list_elem_of_lookup_2.
Qed.

Lemma cartAdd_oneLinePerTitle env user body db :
  oneLinePerTitle db → oneLinePerTitle (cartAdd env user body db).2.
Proof.
  intros Hinv. unfold cartAdd.
  destruct (ab_title body) as [title|]; [|done].
  destruct (ab_author body) as [author|]; [|done].
  destruct (ab_price body) as [price|]; [|done].
  destruct (negb (truthy title) || negb (truthy author) || (price =? 0)%Z); [done|].
  destruct (newObjectId (userId user)) as [uid|]; [|done].
  destruct (users db !! uid) as [u|] eqn:Hu; [|done].
  simpl. apply saveCart_oneLinePerTitle; [done|].
  specialize (Hinv _ _ Hu).
  destruct (findIndex title (user_cart u)) as [i|] eqn:Hf.
  - by rewrite titles_set_quantity.
  - apply findIndex_None in Hf.
    unfold titles in *. rewrite fmap_app. apply NoDup_app.
    split; [done|]. split; [|apply NoDup_singleton].
    simpl. intros x Hx ->%list_elem_of_singleton. done.
Qed.

Lemma cartUpdate_oneLinePerTitle user body db :
  oneLinePerTitle db → oneLinePerTitle (cartUpdate user body db).2.
Proof.
  intros Hinv. unfold cartUpdate.
  destruct (negb (truthyOpt (ub_title body)) || (ub_quantity body <? 0)%Z); [done|].
  destruct (newObjectId (userId user)) as [uid|]; [|done].
  destruct (users db !! uid) as [u|] eqn:Hu; [|done].
  destruct (findIndex _ (user_cart u)) as [i|]; [|done].
  simpl. apply saveCart_oneLinePerTitle; [done|].
  specialize (Hinv _ _ Hu).
  destruct (ub_quantity body =? 0)%Z.
  - eapply sublist_NoDup; [exact Hinv|].
    unfold titles. apply fmap_sublist, sublist_delete.
  - by rewrite (titles_set_quantity (λ _, ub_quantity body)).
Qed.

Lemma cartRemove_oneLinePerTitle user title db :
  oneLinePerTitle db → oneLinePerTitle (cartRemove user title db).2.
Proof.
  intros Hinv. unfold cartRemove.
  destruct (negb (truthyOpt title)); [done|].
  destruct (newObjectId (userId user)) as [uid|]; [|done].
  destruct (users db !! uid) as [u|] eqn:Hu; [|done].
  simpl. apply saveCart_oneLinePerTitle; [done|].
  eapply sublist_NoDup; [exact (Hinv _ _ Hu)|].
  unfold titles. apply fmap_sublist, sublist_filter.
Qed.

Lemma cartClear_oneLinePerTitle user db :
  oneLinePerTitle db → oneLinePerTitle (cartClear user db).2.
Proof.
  intros Hinv. unfold cartClear.
  destruct (newObjectId (userId user)) as [uid|]; [|done].
  simpl. apply saveCart_oneLinePerTitle; [done|]. apply NoDup_nil_2.
Qed.

(** An accepted add of a title that is already in the cart. *)
Lemma cartAdd_existing env user body db u title i l :
  oneLinePerTitle db →
  res_status (cartAdd env user body db).1 = 200 →
  users db !! userId user = Some u →
  ab_title body = Some title →
  user_cart u !! i = Some l →
  cart_title l = title →
  let cart' := alter (λ l, set_quantity (cart_quantity l + 1) l) i (user_cart u) in
  cartAdd env user body db = (bare 200 "Item added to cart" cart',
                              saveCart (userId user) cart' db).
Proof.
  intros Hinv H200 Hu Htitle Hl Ht cart'. revert H200. unfold cartAdd.
  rewrite Htitle.
  destruct (ab_author body) as [author|]; [|simpl; discriminate].
  destruct (ab_price body) as [price|]; [|simpl; discriminate].
  destruct (negb (truthy title) || negb (truthy author) || (price =? 0)%Z);
    [simpl; discriminate|].
  unfold newObjectId.
  destruct (ObjectId_isValid (userId user)); [|simpl; discriminate].
  rewrite Hu. intros _.
  by rewrite (findIndex_unique title (user_cart u) i l (Hinv _ _ Hu) Hl Ht).
Qed.

(** C9: add, update, remove and clear keep every stored cart at one line
    per title at most; and an accepted add of a title the cart already has
    changes that line only, to quantity + 1 with its price as it was, and
    appends nothing. *)
Theorem C9_cart_one_line_per_title db :
  oneLinePerTitle db →
  (∀ env user body, oneLinePerTitle (cartAdd env user body db).2) ∧
  (∀ user body, oneLinePerTitle (cartUpdate user body db).2) ∧
  (∀ user title, oneLinePerTitle (cartRemove user title db).2) ∧
  (∀ user, oneLinePerTitle (cartClear user db).2) ∧
  (∀ env user body u title i l,
     res_status (cartAdd env user body db).1 = 200 →
     users db !! userId user = Some u →
     ab_title body = Some title →
     user_cart u !! i = Some l →
     cart_title l = title →
     ∃ cart' l',
       res_data (cartAdd env user body db).1 = Some cart' ∧
       (user_cart <$> users (cartAdd env user body db).2 !! userId user)
         = Some cart' ∧
       length cart' = length (user_cart u) ∧
       cart' !! i = Some l' ∧
       cart_quantity l' = (cart_quantity l + 1)%Z ∧
       cart_price l' = cart_price l ∧
       cart_title l' = cart_title l ∧
       (∀ j, j ≠ i → cart' !! j = user_cart u !! j)).
Proof.
  intros Hinv.
  split; [intros; by apply cartAdd_oneLinePerTitle|].
  split; [intros; by apply cartUpdate_oneLinePerTitle|].
  split; [intros; by apply cartRemove_oneLinePerTitle|].
  split; [intros; by apply cartClear_oneLinePerTitle|].
  intros env user body u title i l H200 Hu Htitle Hl Ht.
  rewrite (cartAdd_existing env user body db u title i l Hinv H200 Hu Htitle Hl Ht).
  eexists _, (set_quantity (cart_quantity l + 1) l). simpl.
  split; [done|]. split.
  { rewrite lookup_alter, decide_True by done. by rewrite Hu. }
  split; [apply length_alter|].
  split; [by rewrite list_lookup_alter_eq, Hl|].
  repeat split; try done.
  intros j Hj. rewrite list_lookup_alter. by rewrite decide_False.
Qed.

End CartFacts.

Section CartScenario.
Import UserRoutes OrderController Scenario.

Lemma dbCart1_oneLinePerTitle : oneLinePerTitle dbCart1.
Proof.
  apply (bool_decide_unpack (map_Forall (λ _ u, NoDup (titles (user_cart u)))
                               (users dbCart1))).
  vm_compute. exact I.
Defined.

(** Adding the same title twice gives one line with quantity 2. *)
Example cartAdd_twice :
  (λ l, (cart_title l, cart_quantity l, cart_price l))
    <$> default [] (user_cart <$> users dbCart2 !! idA)
  = [("Dune", 2%Z, 450%Z)].
Proof. vm_compute. reflexivity. Qed.

Lemma C9_witness :
  oneLinePerTitle dbCart1 ∧
  (∀ env user body, oneLinePerTitle (cartAdd env user body dbCart1).2) ∧
  (∀ user body, oneLinePerTitle (cartUpdate user body dbCart1).2) ∧
  (∀ user title, oneLinePerTitle (cartRemove user title dbCart1).2) ∧
  (∀ user, oneLinePerTitle (cartClear user dbCart1).2) ∧
  res_status (cartAdd env0 claimsA addDune dbCart1).1 = 200 ∧
  ∃ cart' l',
    res_data (cartAdd env0 claimsA addDune dbCart1).1 = Some cart' ∧
    (user_cart <$> users (cartAdd env0 claimsA addDune dbCart1).2 !! userId claimsA)
      = Some cart' ∧
    length cart' = length [lineDune] ∧
    cart' !! 0%nat = Some l' ∧
    cart_quantity l' = (cart_quantity lineDune + 1)%Z ∧
    cart_price l' = cart_price lineDune ∧
    cart_title l' = cart_title lineDune ∧
    (∀ j, j ≠ 0%nat → cart' !! j = [lineDune] !! j).
Proof.
  split; [exact dbCart1_oneLinePerTitle|].
  destruct (C9_cart_one_line_per_title dbCart1 dbCart1_oneLinePerTitle)
    as (Ha & Hu & Hr & Hc & Hq).
  repeat (split; [assumption|]).
  split; [vm_compute; reflexivity|].
  apply (Hq env0 claimsA addDune (set_cart [lineDune] userA) "Dune" 0%nat lineDune);
    vm_compute; reflexivity.
Defined.

End CartScenario.

(** ** Order status and listing *)

Section StatusFacts.
Context `{MongoDriver}.
Import OrderController.

(** What [updateOrderStatus] decides for the owner of an order who is not an
    administrator: the request is refused exactly when the new status is not
    cancelled and the order is not pending. *)
Lemma updateOrderStatus_owner env user id body db order st :
  ObjectId_isValid id = true →
  sb_status body = Some st →
  includes validStatuses (Some st) = true →
  findById id (orders db) = Some order →
  isAdmin user = false →
  order_userId order = userId user →
  let r := updateOrderStatus env user id body db in
  if negb (String.eqb st "cancelled") && negb (String.eqb (order_status order) "pending")
  then r = (failure 403 "You can only cancel pending orders", db)
  else res_status r.1 = 200 ∧
       orders r.2 = updateStatus env id st (orDefault (sb_notes body) "") (orders db).
Proof.
  intros Hid Hst Hinc Hfind Hadm Hown. unfold updateOrderStatus.
  rewrite Hid, Hst, Hinc, Hfind, Hadm, Hown, String.eqb_refl. simpl.
  destruct (negb (String.eqb st "cancelled")
            && negb (String.eqb (order_status order) "pending")); done.
Qed.

(** An administrator may set any of the six statuses. *)
Lemma updateOrderStatus_admin env user id body db order st :
  ObjectId_isValid id = true →
  sb_status body = Some st →
  includes validStatuses (Some st) = true →
  findById id (orders db) = Some order →
  isAdmin user = true →
  let r := updateOrderStatus env user id body db in
  res_status r.1 = 200 ∧
  orders r.2 = updateStatus env id st (orDefault (sb_notes body) "") (orders db).
Proof.
  intros Hid Hst Hinc Hfind Hadm. unfold updateOrderStatus.
  rewrite Hid, Hst, Hinc, Hfind, Hadm. simpl. done.
Qed.

End StatusFacts.

Section StatusScenario.
Import OrderController Scenario.

(** C4: the owner of a shipped order, who is not an administrator, asks for
    the status cancelled: the handler answers 200 and the order is cancelled.
    The owner of a pending order who asks for delivered is served as well. *)
Theorem C4_owner_cancels_shipped_order :
  let env := mkEnv later idOrder2 in
  let r := updateOrderStatus env claimsB idOrder1
             (mkStatusBody (Some "cancelled") None) dbShipped in
  let r' := updateOrderStatus env claimsB idOrder1
              (mkStatusBody (Some "delivered") None) dbOrdered in
  isAdmin claimsB = false ∧
  (doc_userId <$> findDoc idOrder1 (orders dbShipped)) = Some (userId claimsB) ∧
  (doc_status <$> findDoc idOrder1 (orders dbShipped)) = Some "shipped" ∧
  res_status r.1 = 200 ∧
  (doc_status <$> findDoc idOrder1 (orders r.2)) = Some "cancelled" ∧
  ((λ d, entry_status <$> doc_statusHistory d) <$> findDoc idOrder1 (orders r.2))
    = Some ["pending"; "shipped"; "cancelled"] ∧
  (doc_status <$> findDoc idOrder1 (orders dbOrdered)) = Some "pending" ∧
  res_status r'.1 = 200 ∧
  (doc_status <$> findDoc idOrder1 (orders r'.2)) = Some "delivered".
Proof. vm_compute. repeat split; reflexivity. Qed.

(** C5: user A, who is not an administrator, lists the orders with the
    filter userId = B: the page holds the order of B. *)
Theorem C5_non_admin_lists_other_users_orders :
  let r := getAllOrders claimsA (mkListQuery None None None (Some idB)) dbOrdered in
  isAdmin claimsA = false ∧
  userId claimsA ≠ idB ∧
  res_status r.1 = 200 ∧
  ((λ p : list Order * Pagination, order_userId <$> p.1) <$> res_data r.1) = Some [idB] ∧
  ((λ p : list Order * Pagination, order__id <$> p.1) <$> res_data r.1) = Some [idOrder1].
Proof. vm_compute. repeat split; done. Qed.

(** Without the filter the same caller gets an empty page. *)
Example getAllOrders_own :
  let r := getAllOrders claimsA (mkListQuery None None None None) dbOrdered in
  ((λ p : list Order * Pagination, order__id <$> p.1) <$> res_data r.1) = Some [].
Proof. vm_compute. reflexivity. Qed.

End StatusScenario.

(** ** Categories *)

Section CategoryFacts.
Context `{MongoDriver}.
Import CategoryController.

Lemma unsetCategory_lookup id bs b :
  unsetCategory id bs !! b =
  (λ book, if decide (book_category book = Some (RefString id))
           then unset_category book else book) <$> bs !! b.
Proof. unfold unsetCategory. apply lookup_fmap. Qed.

Lemma forced_other force : force ≠ Some "true" → forced force = false.
Proof. intros Hf. unfold forced. by apply bool_decide_eq_false_2. Qed.

Lemma forced_true : forced (Some "true") = true.
Proof. reflexivity. Qed.

(** The count of [deleteCategory] is the number of books whose category field
    holds the string of the path. *)
Lemma countBooks_size id (bs : gmap string Book) (deps : gset string) :
  (∀ b, b ∈ deps ↔
     ∃ book, bs !! b = Some book ∧ book_category book = Some (RefString id)) →
  countBooks id bs = size deps.
Proof.
  intros Hdeps. unfold countBooks. rewrite <- size_dom. f_equal.
  apply set_eq. intros b. rewrite Hdeps, elem_of_dom. split.
  - intros [book Hb]. apply map_lookup_filter_Some in Hb as [Hb Hcat].
    by exists book.
  - intros (book & Hb & Hcat). exists book. by apply map_lookup_filter_Some.
Qed.

(** C8 (amended): the dependent books of a category are the books whose
    category field holds the id of the path as a string, as createBook and
    updateBook store it.  Deleting a category with a well-formed id and
    n > 0 dependent books without force=true is refused with status 400, the
    InvalidArgument signal (not 409, Conflict), with n in the message and in
    bookCount, and the database is unchanged; with force=true an existing
    category is deleted, every dependent book has no category any more and
    keeps its other fields, and no book is deleted. *)
Theorem C8_delete_category_with_books id db (deps : gset string) :
  ObjectId_isValid id = true →
  (∀ b, b ∈ deps ↔
     ∃ book, books db !! b = Some book ∧
       book_category book = Some (RefString id)) →
  (0 < size deps)%nat →
  (∀ force, force ≠ Some "true" →
     let r := deleteCategory id force db in
     res_status r.1 = 400 ∧
     errorKind (res_status r.1) = Some InvalidArgument ∧
     res_success r.1 = Some false ∧
     res_error r.1
       = Some ("Cannot delete category with "
               ++ NilZero.string_of_int (Z.to_int (Z.of_nat (size deps)))
               ++ " books. Use force=true to delete anyway.")%string ∧
     res_data r.1 = Some (size deps) ∧
     r.2 = db) ∧
  (is_Some (categories db !! id) →
     let r := deleteCategory id (Some "true") db in
     res_status r.1 = 200 ∧ res_success r.1 = Some true ∧
     categories r.2 !! id = None ∧
     (∀ c, c ≠ id → categories r.2 !! c = categories db !! c) ∧
     (∀ b book, books db !! b = Some book → b ∈ deps →
        ∃ book', books r.2 !! b = Some book' ∧
          book_category book' = None ∧
          book_title book' = book_title book ∧
          book_author book' = book_author book ∧
          book_description book' = book_description book ∧
          book_price book' = book_price book ∧
          book_stock book' = book_stock book) ∧
     (∀ b book, books db !! b = Some book → b ∉ deps →
        books r.2 !! b = Some book) ∧
     dom (books r.2) = dom (books db) ∧
     users r.2 = users db ∧ orders r.2 = orders db).
Proof.
  intros Hid Hdeps Hpos.
  pose proof (countBooks_size id (books db) deps Hdeps) as Hn.
  assert (Hlt : (0 <? size deps)%nat = true) by (apply Nat.ltb_lt; lia).
  split.
  - intros force Hforce r. subst r. unfold deleteCategory.
    rewrite Hid, Hn, Hlt, (forced_other _ Hforce). by repeat split.
  - intros [c Hc] r. subst r. unfold deleteCategory.
    rewrite Hid, Hn, Hlt, forced_true, Hc. simpl.
    split; [done|]. split; [done|]. split; [apply lookup_delete_eq|].
    split; [intros c' Hne; by apply lookup_delete_ne|].
    split.
    { intros b book Hb Hin. apply Hdeps in Hin as (book0 & Hb0 & Hcat).
      rewrite Hb in Hb0. injection Hb0 as <-.
      rewrite unsetCategory_lookup, Hb. simpl. rewrite decide_True by done.
      eexists. split; [reflexivity|]. by repeat split. }
    split.
    { intros b book Hb Hnot. rewrite unsetCategory_lookup, Hb. simpl.
      rewrite decide_False; [done|]. intros Hcat. apply Hnot, Hdeps. by exists book. }
    split; [|done]. unfold unsetCategory. apply dom_fmap_L.
Qed.

End CategoryFacts.

Section CategoryScenario.
Import CategoryController Scenario.

(** Book X is the one dependent book of the category Fantasy. *)
Lemma db0_dependent_books b :
  b ∈ ({[ idX ]} : gset string) ↔
  ∃ book, books db0 !! b = Some book ∧
    book_category book = Some (RefString idFantasy).
Proof.
  rewrite elem_of_singleton. split.
  - intros ->. by exists bookX.
  - intros (book & Hb & _). unfold db0 in Hb. cbn [books] in Hb.
    by apply lookup_singleton_Some in Hb as [<- _].
Defined.

Lemma C8_witness :
  ObjectId_isValid idFantasy = true ∧
  (∀ b, b ∈ ({[ idX ]} : gset string) ↔
     ∃ book, books db0 !! b = Some book ∧
       book_category book = Some (RefString idFantasy)) ∧
  (0 < size ({[ idX ]} : gset string))%nat ∧
  (∀ force, force ≠ Some "true" →
     let r := deleteCategory idFantasy force db0 in
     res_status r.1 = 400 ∧
     errorKind (res_status r.1) = Some InvalidArgument ∧
     res_success r.1 = Some false ∧
     res_error r.1
       = Some ("Cannot delete category with "
               ++ NilZero.string_of_int
                    (Z.to_int (Z.of_nat (size ({[ idX ]} : gset string))))
               ++ " books. Use force=true to delete anyway.")%string ∧
     res_data r.1 = Some (size ({[ idX ]} : gset string)) ∧
     r.2 = db0) ∧
  (is_Some (categories db0 !! idFantasy) →
     let r := deleteCategory idFantasy (Some "true") db0 in
     res_status r.1 = 200 ∧ res_success r.1 = Some true ∧
     categories r.2 !! idFantasy = None ∧
     (∀ c, c ≠ idFantasy → categories r.2 !! c = categories db0 !! c) ∧
     (∀ b book, books db0 !! b = Some book → b ∈ ({[ idX ]} : gset string) →
        ∃ book', books r.2 !! b = Some book' ∧
          book_category book' = None ∧
          book_title book' = book_title book ∧
          book_author book' = book_author book ∧
          book_description book' = book_description book ∧
          book_price book' = book_price book ∧
          book_stock book' = book_stock book) ∧
     (∀ b book, books db0 !! b = Some book → b ∉ ({[ idX ]} : gset string) →
        books r.2 !! b = Some book) ∧
     dom (books r.2) = dom (books db0) ∧
     users r.2 = users db0 ∧ orders r.2 = orders db0).
Proof.
  assert (Hid : ObjectId_isValid idFantasy = true) by (vm_compute; reflexivity).
  assert (Hpos : (0 < size ({[ idX ]} : gset string))%nat)
    by (rewrite size_singleton; lia).
  split; [exact Hid|]. split; [exact db0_dependent_books|].
  split; [exact Hpos|].
  exact (C8_delete_category_with_books idFantasy db0 {[ idX ]} Hid
           db0_dependent_books Hpos).
Defined.

(** C8 as stated fails: the refusal carries status 400, which is the signal
    of InvalidArgument, not of Conflict. *)
Lemma C8_counterexample :
  let r := deleteCategory idFantasy None db0 in
  books db0 !! idX = Some bookX ∧
  book_category bookX = Some (RefString idFantasy) ∧
  res_status r.1 = 400 ∧
  errorKind (res_status r.1) = Some InvalidArgument ∧
  errorKind (res_status r.1) ≠ Some Conflict ∧
  res_error r.1
    = Some "Cannot delete category with 1 books. Use force=true to delete anyway." ∧
  res_data r.1 = Some 1%nat ∧
  r.2 = db0.
Proof. vm_compute. repeat split; done. Qed.

(** The forced deletion on the concrete store. *)
Example deleteCategory_forced :
  let r := deleteCategory idFantasy (Some "true") db0 in
  res_status r.1 = 200 ∧
  categories r.2 !! idFantasy = None ∧
  (book_category <$> books r.2 !! idX) = Some None.
Proof. vm_compute. repeat split; reflexivity. Qed.

End CategoryScenario.

(** ** Access control *)

Section AccessFacts.
Context `{MongoDriver} `{JsonWebToken} `{Bcrypt}.
Import UserRoutes.

(** The token of a registration is signed from the new user's id and
    email. *)
Lemma register_token env body db p :
  res_data (register env body db).1 = Some p →
  ap_token p = jwt_sign (tokenPayload (ap_id p) (ap_email p)).
Proof.
  unfold register.
  destruct (rb_name body) as [name|]; [|discriminate].
  destruct (rb_email body) as [em|]; [|discriminate].
  destruct (rb_password body) as [password|]; [|discriminate].
  destruct (negb (truthy name) || negb (truthy em) || negb (truthy password));
    [discriminate|].
  destruct (String.length password <? 6)%nat; [discriminate|].
  destruct (findByEmail em (users db)); [discriminate|].
  simpl. intros [= <-]. reflexivity.
Qed.

(** The token of a login is signed from the stored user's id and email. *)
Lemma login_token body db p :
  res_data (login body db).1 = Some p →
  ap_token p = jwt_sign (tokenPayload (ap_id p) (ap_email p)).
Proof.
  unfold login.
  destruct (lb_email body) as [em|]; [|discriminate].
  destruct (lb_password body) as [password|]; [|discriminate].
  destruct (negb (truthy em) || negb (truthy password)); [discriminate|].
  destruct (findByEmail (toLowerCase em) (users db)) as [[id user]|];
    [|discriminate].
  destruct (negb (bcrypt_compare password (user_password user))); [discriminate|].
  simpl. intros [= <-]. reflexivity.
Qed.

(** C10: register and login sign the payload {userId, email}, without a
    role; a request to an admin-only order route whose bearer token is such a
    token, verified to the payload it was signed from, is answered 403 with
    the error Admin access required, whatever the store holds (so also when
    the stored role of the user is admin), and the controller does not run:
    the database is as before. *)
Theorem C10_issued_tokens_refused_on_admin_routes {A : Type}
  env rbody lbody db0 route authHeader id e
  (controller : Claims → Db → Response A * Db) db :
  OrderRoutes.adminOnly route = true →
  OrderRoutes.bearerToken authHeader = Some (jwt_sign (tokenPayload id e)) →
  jwt_verify (jwt_sign (tokenPayload id e)) = Some (tokenPayload id e) →
  (∀ p, res_data (register env rbody db0).1 = Some p →
        ap_token p = jwt_sign (tokenPayload (ap_id p) (ap_email p))) ∧
  (∀ p, res_data (login lbody db0).1 = Some p →
        ap_token p = jwt_sign (tokenPayload (ap_id p) (ap_email p))) ∧
  role (tokenPayload id e) = None ∧
  OrderRoutes.dispatch route authHeader controller db
    = (failure 403 "Admin access required", db) ∧
  errorKind (res_status (OrderRoutes.dispatch route authHeader controller db).1)
    = Some Forbidden.
Proof.
  intros Hroute Hbearer Hverify.
  split; [intros p; apply register_token|].
  split; [intros p; apply login_token|].
  split; [reflexivity|].
  assert (Hd : OrderRoutes.dispatch route authHeader controller db
               = (failure 403 "Admin access required", db)).
  { unfold OrderRoutes.dispatch, OrderRoutes.authenticateToken.
    rewrite Hbearer, Hverify, Hroute. reflexivity. }
  rewrite Hd. split; reflexivity.
Qed.

End AccessFacts.

Section AccessScenario.
Import UserRoutes Scenario.

Lemma C10_witness :
  let route := OrderRoutes.UpdateOrder in
  let authHeader := Some "Bearer token-of-admin" in
  let env := mkEnv day idOrder1 in
  let rbody := mkRegisterBody (Some "C") (Some "C@Example.com") (Some "secret-c") in
  let lbody := mkLoginBody (Some "admin@example.com") (Some "secret-admin") in
  (user_role <$> users db0 !! idAdmin) = Some (Some "admin") ∧
  (∀ p, res_data (register env rbody db0).1 = Some p →
        ap_token p = jwt_sign (tokenPayload (ap_id p) (ap_email p))) ∧
  (∀ p, res_data (login lbody db0).1 = Some p →
        ap_token p = jwt_sign (tokenPayload (ap_id p) (ap_email p))) ∧
  role (tokenPayload idAdmin "admin@example.com") = None ∧
  OrderRoutes.dispatch route authHeader answers db0
    = (failure 403 "Admin access required", db0) ∧
  errorKind (res_status (OrderRoutes.dispatch route authHeader answers db0).1)
    = Some Forbidden.
Proof.
  intros route authHeader env rbody lbody.
  split; [vm_compute; reflexivity|].
  apply (C10_issued_tokens_refused_on_admin_routes env rbody lbody db0 route
           authHeader idAdmin "admin@example.com" answers db0);
    vm_compute; reflexivity.
Defined.

(** C6: the administrator of the store logs in and sends the token to
    PUT /api/orders/:id.  The stored role is admin, the verified claims carry
    no role, the router of the orders answers 403 without consulting the
    store, while the check of src/middleware/auth.js, which no router
    mounts, reads the stored role and lets the same claims through. *)
Theorem C6_order_routes_take_role_from_token :
  let r := login (mkLoginBody (Some "admin@example.com") (Some "secret-admin")) db0 in
  ∃ p c,
    res_data r.1 = Some p ∧
    (user_role <$> users db0 !! ap_id p) = Some (Some "admin") ∧
    OrderRoutes.authenticateToken (A := unit)
      (Some ("Bearer " ++ ap_token p)%string) = Next c ∧
    role c = None ∧
    OrderRoutes.dispatch OrderRoutes.UpdateOrder
      (Some ("Bearer " ++ ap_token p)%string) answers db0
      = (failure 403 "Admin access required", db0) ∧
    AuthMiddleware.requireAdmin (A := unit) c db0
      = Next (mkClaims (userId c) (email c) (Some "admin")).
Proof.
  eexists _, _. vm_compute. repeat split; reflexivity.
Qed.

End AccessScenario.

(** ** From the cart to an order *)

Section FromCartFacts.
Context `{MongoDriver}.
Import UserRoutes OrderController.

(** [/cart/add] writes lines without a book reference. *)
Lemma cartAdd_noBookReference env user body db :
  noBookReference db → noBookReference (cartAdd env user body db).2.
Proof.
  intros Hinv. unfold cartAdd.
  destruct (ab_title body) as [title|]; [|done].
  destruct (ab_author body) as [author|]; [|done].
  destruct (ab_price body) as [price|]; [|done].
  destruct (negb (truthy title) || negb (truthy author) || (price =? 0)%Z); [done|].
  destruct (newObjectId (userId user)) as [uid|]; [|done].
  destruct (users db !! uid) as [u|] eqn:Hu; [|done].
  simpl. intros uid' u'. unfold saveCart. simpl.
  rewrite lookup_alter. case_decide as Heq; [|apply Hinv].
  rewrite Hu. simpl. intros [= <-]. simpl.
  specialize (Hinv _ _ Hu).
  destruct (findIndex title (user_cart u)) as [i|].
  - apply Forall_alter; [done|]. by intros l _.
  - apply Forall_app. split; [done|]. by constructor.
Qed.

(** With such carts [createOrderFromCart] never creates an order. *)
Lemma createOrderFromCart_unreferenced env user body db :
  noBookReference db →
  let r := createOrderFromCart env user body db in
  res_status r.1 ≠ 201 ∧ r.2 = db.
Proof.
  intros Hinv. unfold createOrderFromCart.
  destruct (newObjectId (userId user)) as [uid|]; [|done].
  destruct (users db !! uid) as [u|] eqn:Hu; [|done].
  specialize (Hinv _ _ Hu).
  destruct (user_cart u) as [|l cart]; [done|].
  apply Forall_cons in Hinv as [[Hb Hi] _].
  unfold createOrder.
  cbn [items shippingAddress paymentMethod notes cartToItems fmap list_fmap].
  destruct (shippingAddress body) as [sa|]; [|done].
  destruct (negb (hasAddressAndCity sa)); [done|].
  destruct (negb (truthyOpt (paymentMethod body))); [done|].
  unfold validateItems, cartItemBookId. simpl. rewrite Hb, Hi. simpl. done.
Qed.

End FromCartFacts.

Section FromCartScenario.
Import UserRoutes OrderController Scenario.

(** C7: user A adds book X (stock 5) to the cart twice, which gives one
    line of quantity 2 without a book reference; createOrderFromCart then
    answers 400, creates no order, leaves the stock at 5 and the cart as it
    was. *)
Theorem C7_from_cart_refuses_added_items :
  let r := createOrderFromCart env0 claimsA checkout dbCart2 in
  ((λ l, (cart_title l, cart_quantity l, cart_bookId l, cart__id l))
     <$> default [] (user_cart <$> users dbCart2 !! idA))
    = [("Dune", 2%Z, None, None)] ∧
  (book_stock <$> books dbCart2 !! idX) = Some 5%Z ∧
  r.1 = failure 400 "Each item must have a valid bookId and quantity" ∧
  r.2 = dbCart2 ∧
  orders r.2 = [] ∧
  (book_stock <$> books r.2 !! idX) = Some 5%Z ∧
  (length <$> (user_cart <$> users r.2 !! idA)) = Some 1%nat.
Proof. vm_compute. repeat split; reflexivity. Qed.

End FromCartScenario.

(** ** Listing orders *)

Section ListingFacts.
Context `{MongoDriver}.
Import OrderController.

Lemma insertNewestFirst_perm d l : insertNewestFirst d l ≡ₚ d :: l.
Proof.
  induction l as [|x l IH]; simpl; [done|].
  destruct (getTime (doc_createdAt x) <=? getTime (doc_createdAt d))%Z; [done|].
  rewrite IH. apply Permutation_swap.
Qed.

Lemma sortNewestFirst_perm l : sortNewestFirst l ≡ₚ l.
Proof.
  unfold sortNewestFirst. induction l as [|x l IH]; simpl; [done|].
  by rewrite insertNewestFirst_perm, IH.
Qed.

Lemma insertNewestFirst_sorted d l :
  StronglySorted newerEq l → StronglySorted newerEq (insertNewestFirst d l).
Proof.
  induction 1 as [|x l Hs IH Hx]; simpl.
  - repeat constructor.
  - destruct (getTime (doc_createdAt x) <=? getTime (doc_createdAt d))%Z eqn:Hle.
    + apply Z.leb_le in Hle. constructor; [by constructor|].
      constructor; [exact Hle|].
      eapply Forall_impl; [exact Hx|]. unfold newerEq. intros y Hy. simpl in Hy. lia.
    + apply Z.leb_gt in Hle. constructor; [exact IH|].
      rewrite insertNewestFirst_perm. constructor; [|exact Hx].
      unfold newerEq. lia.
Qed.

Lemma sortNewestFirst_sorted l : StronglySorted newerEq (sortNewestFirst l).
Proof.
  unfold sortNewestFirst. induction l as [|x l IH]; simpl; [constructor|].
  by apply insertNewestFirst_sorted.
Qed.

Lemma StronglySorted_sublist_of (l k : list OrderDoc) :
  l `sublist_of` k → StronglySorted newerEq k → StronglySorted newerEq l.
Proof.
  induction 1 as [|x l k Hsub IH|x l k Hsub IH]; intros Hk.
  - constructor.
  - apply StronglySorted_inv in Hk as [Hk Hx].
    constructor; [by apply IH|].
    rewrite Forall_forall in Hx. apply Forall_forall. intros y Hy.
    apply Hx. by eapply elem_of_sublist.
  - apply StronglySorted_inv in Hk as [Hk _]. by apply IH.
Qed.

Lemma limitTo_sublist n l : limitTo n l `sublist_of` l.
Proof. unfold limitTo. destruct (n =? 0)%Z; [done|apply sublist_take]. Qed.

(** The documents behind a page of [Order.findAll]. *)
Lemma findAll_docs f page limit coll os pg :
  findAll f page limit coll = Some (os, pg) →
  os = Order_new <$> limitTo limit
         (drop (Z.to_nat ((page - 1) * limit)) (sortNewestFirst (selected f coll))) ∧
  pg = mkPagination page limit (Z.of_nat (length (selected f coll)))
         (pageCount (Z.of_nat (length (selected f coll))) limit).
Proof.
  unfold findAll. fold (selected f coll).
  destruct ((page - 1) * limit <? 0)%Z; [discriminate|]. by intros [= <- <-].
Qed.

Lemma page_sublist limit skip (l : list OrderDoc) :
  limitTo limit (drop skip l) `sublist_of` l.
Proof. etrans; [apply limitTo_sublist|apply sublist_drop]. Qed.

Lemma selected_elem_of f coll d :
  d ∈ sortNewestFirst (selected f coll) → d ∈ coll ∧ matches f d = true.
Proof.
  rewrite sortNewestFirst_perm. unfold selected. intros Hd.
  by apply list_elem_of_filter in Hd as [Hm Hd].
Qed.

(** X1: a page that Order.findAll returns holds documents of the collection
    that match the filter, newest first, at most |limit| of them (no bound for
    limit 0), and [total] counts all the matching documents, whatever the
    page. *)
Theorem findAll_page f page limit coll os pg :
  findAll f page limit coll = Some (os, pg) →
  ∃ docs,
    os = Order_new <$> docs ∧
    docs `sublist_of` sortNewestFirst (selected f coll) ∧
    (∀ d, d ∈ docs → d ∈ coll ∧ matches f d = true) ∧
    StronglySorted newerEq docs ∧
    (limit ≠ 0%Z → length docs ≤ Z.abs_nat limit) ∧
    pg_total pg = Z.of_nat (length (selected f coll)) ∧
    pg_page pg = page ∧ pg_limit pg = limit.
Proof.
  intros Hf. apply findAll_docs in Hf as [-> ->].
  set (docs := limitTo limit (drop _ (sortNewestFirst (selected f coll)))).
  assert (Hsub : docs `sublist_of` sortNewestFirst (selected f coll))
    by apply page_sublist.
  exists docs. split; [done|]. split; [done|]. split.
  { intros d Hd. apply selected_elem_of. by eapply elem_of_sublist. }
  split; [eapply StronglySorted_sublist_of; [exact Hsub|apply sortNewestFirst_sorted]|].
  split; [|done].
  intros Hl. unfold docs, limitTo.
  replace (limit =? 0)%Z with false by lia. apply firstn_le_length.
Qed.

Lemma findAll_matches f page limit coll os pg :
  findAll f page limit coll = Some (os, pg) →
  ∀ o, o ∈ os → ∃ d, o = Order_new d ∧ d ∈ coll ∧ matches f d = true.
Proof.
  intros Hf o Ho. apply findAll_docs in Hf as [-> _].
  apply list_elem_of_fmap in Ho as (d & -> & Hd).
  exists d. split; [done|].
  apply selected_elem_of. eapply elem_of_sublist; [exact Hd|apply page_sublist].
Qed.

Lemma truthy_status d st :
  truthy st = true → String.eqb (doc_status d) st = true →
  order_status (Order_new d) = st.
Proof.
  intros Ht Heq. apply String.eqb_eq in Heq. simpl. rewrite Heq.
  unfold orDefault. by rewrite Ht.
Qed.

(** X2: a page that getAllOrders returns with status 200 obeys the filters of
    the request: with a userId in the query every order is of that user;
    without one, and for a caller who is not an administrator, every order
    is the caller's own; with a status in the query every order has it.  The
    database is not written. *)
Theorem getAllOrders_page user query db :
  let r := getAllOrders user query db in
  res_status r.1 = 200 →
  r.2 = db ∧
  ∃ os pg,
    res_data r.1 = Some (os, pg) ∧
    (isAdmin user = false → truthyOpt (q_userId query) = false →
       ∀ o, o ∈ os → order_userId o = userId user) ∧
    (∀ u, q_userId query = Some u → truthy u = true →
       ∀ o, o ∈ os → order_userId o = u) ∧
    (∀ st, q_status query = Some st → truthy st = true →
       ∀ o, o ∈ os → order_status o = st).
Proof.
  intros r. subst r. unfold getAllOrders.
  set (fu := if negb (isAdmin user) && negb (truthyOpt (q_userId query)) then _
             else _).
  destruct fu as [f| |] eqn:Hfu; [|simpl; discriminate|simpl; discriminate].
  set (fs := if truthyOpt (q_status query) then q_status query else None).
  destruct (findAll _ _ _ (orders db)) as [[os pg]|] eqn:Hfind;
    [|simpl; discriminate].
  intros _. split; [done|]. exists os, pg. split; [done|].
  pose proof (findAll_matches _ _ _ _ _ _ Hfind) as Hm.
  split; [|split].
  - intros Hadm Hq o Ho. subst fu. rewrite Hadm, Hq in Hfu. simpl in Hfu.
    destruct (newObjectId (userId user)) as [u|] eqn:Hu; [|discriminate].
    apply newObjectId_Some in Hu. subst u. inversion Hfu; subst f.
    destruct (Hm o Ho) as (d & -> & _ & Hmatch).
    unfold matches in Hmatch. simpl in Hmatch.
    apply andb_true_iff in Hmatch as [Hmatch _]. by apply String.eqb_eq in Hmatch.
  - intros u Hqu Hu o Ho. subst fu. rewrite Hqu in Hfu. simpl in Hfu.
    rewrite Hu in Hfu. rewrite andb_false_r in Hfu.
    destruct (newObjectId u) as [u'|] eqn:Hu'; [|discriminate].
    apply newObjectId_Some in Hu'. subst u'. inversion Hfu; subst f.
    destruct (Hm o Ho) as (d & -> & _ & Hmatch).
    unfold matches in Hmatch. simpl in Hmatch.
    apply andb_true_iff in Hmatch as [Hmatch _]. by apply String.eqb_eq in Hmatch.
  - intros st Hqs Hst o Ho. subst fs. rewrite Hqs in Hfind. simpl in Hfind.
    rewrite Hst in Hfind.
    destruct (Hm o Ho) as (d & -> & _ & Hmatch).
    unfold matches in Hmatch. simpl in Hmatch.
    apply andb_true_iff in Hmatch as [_ Hmatch].
    rewrite Hqs in Hmatch. simpl in Hmatch. rewrite Hst in Hmatch.
    by apply truthy_status.
Qed.

(** X3: getUserOrders answers 200 to administrators only, and then every
    order of the page belongs to the user of the path; it never writes. *)
Theorem getUserOrders_page user userIdParam query db :
  let r := getUserOrders user userIdParam query db in
  r.2 = db ∧
  (isAdmin user = false → r.1 = failure 403 "Access denied") ∧
  (res_status r.1 = 200 →
     isAdmin user = true ∧
     ∃ os pg, res_data r.1 = Some (os, pg) ∧
       ∀ o, o ∈ os → order_userId o = userIdParam).
Proof.
  intros r. subst r. unfold getUserOrders.
  destruct (isAdmin user); simpl; [|repeat split; done].
  destruct (ObjectId_isValid userIdParam); simpl; [|repeat split; done].
  destruct (findAll _ _ _ (orders db)) as [[os pg]|] eqn:Hfind; simpl;
    [|repeat split; done].
  split; [done|]. split; [done|]. intros _. split; [done|].
  exists os, pg. split; [done|]. intros o Ho.
  destruct (findAll_matches _ _ _ _ _ _ Hfind o Ho) as (d & -> & _ & Hmatch).
  unfold matches in Hmatch. simpl in Hmatch.
  apply andb_true_iff in Hmatch as [Hmatch _]. by apply String.eqb_eq in Hmatch.
Qed.

(** X4: getOrderById shows an order to a caller who is not an administrator
    only when the caller owns it: a 200 carries the order of the requested id
    and its userId is the caller's; the database is not written. *)
Theorem getOrderById_owner_only user id db :
  let r := getOrderById user id db in
  r.2 = db ∧
  (res_status r.1 = 200 →
     ∃ d, findDoc id (orders db) = Some d ∧
       res_data r.1 = Some (Order_new d) ∧ doc__id d = id ∧
       (isAdmin user = false → doc_userId d = userId user)).
Proof.
  intros r. subst r. unfold getOrderById.
  destruct (ObjectId_isValid id); simpl; [|split; [done|discriminate]].
  unfold findById.
  destruct (findDoc id (orders db)) as [d|] eqn:Hd; simpl;
    [|split; [done|discriminate]].
  destruct (isAdmin user) eqn:Hadm; simpl.
  - split; [done|]. intros _. exists d. repeat split; try done.
    unfold findDoc in Hd.
    destruct (list_find _ (orders db)) as [[i x]|] eqn:Hf; [|discriminate].
    apply list_find_Some in Hf as (_ & Hx & _). simpl in Hd. by inversion Hd; subst.
  - destruct (String.eqb (doc_userId d) (userId user)) eqn:Heq; simpl;
      [|split; [done|discriminate]].
    split; [done|]. intros _. exists d. repeat split; try done.
    + unfold findDoc in Hd.
      destruct (list_find _ (orders db)) as [[i x]|] eqn:Hf; [|discriminate].
      apply list_find_Some in Hf as (_ & Hx & _). simpl in Hd.
      by inversion Hd; subst.
    + intros _. by apply String.eqb_eq.
Qed.

(** X5: for a positive limit, [pages] is the least number of pages of that
    size that hold [total] documents. *)
Theorem pageCount_ceiling total limit :
  (0 ≤ total)%Z → (0 < limit)%Z →
  ∃ pages, pageCount total limit = Some pages ∧
    (0 ≤ pages)%Z ∧ ((pages - 1) * limit < total ≤ pages * limit)%Z.
Proof.
  intros Ht Hl. unfold pageCount.
  replace (limit =? 0)%Z with false by lia.
  eexists. split; [reflexivity|].
  pose proof (Z.div_mod (- total) limit ltac:(lia)) as Hdm.
  pose proof (Z.mod_pos_bound (- total) limit Hl) as Hmod.
  nia.
Qed.

End ListingFacts.

Section ListingScenario.
Import OrderController Scenario.

Lemma findAll_page_witness :
  ∃ os pg,
    findAll (mkFilter (Some idB) None) 1 10 (orders dbTwo) = Some (os, pg) ∧
    ∃ docs,
      os = Order_new <$> docs ∧
      docs `sublist_of` sortNewestFirst (selected (mkFilter (Some idB) None) (orders dbTwo)) ∧
      (∀ d, d ∈ docs → d ∈ orders dbTwo ∧ matches (mkFilter (Some idB) None) d = true) ∧
      StronglySorted newerEq docs ∧
      (10%Z ≠ 0%Z → length docs ≤ Z.abs_nat 10) ∧
      pg_total pg = Z.of_nat (length (selected (mkFilter (Some idB) None) (orders dbTwo))) ∧
      pg_page pg = 1%Z ∧ pg_limit pg = 10%Z.
Proof.
  destruct (findAll (mkFilter (Some idB) None) 1 10 (orders dbTwo))
    as [[os pg]|] eqn:Hf; [|vm_compute in Hf; discriminate].
  exists os, pg. split; [reflexivity|].
  exact (findAll_page _ _ _ _ _ _ Hf).
Defined.

Lemma getAllOrders_page_witness :
  let r := getAllOrders claimsA ordersOfB dbTwo in
  res_status r.1 = 200 ∧
  r.2 = dbTwo ∧
  ∃ os pg,
    res_data r.1 = Some (os, pg) ∧
    (isAdmin claimsA = false → truthyOpt (q_userId ordersOfB) = false →
       ∀ o, o ∈ os → order_userId o = userId claimsA) ∧
    (∀ u, q_userId ordersOfB = Some u → truthy u = true →
       ∀ o, o ∈ os → order_userId o = u) ∧
    (∀ st, q_status ordersOfB = Some st → truthy st = true →
       ∀ o, o ∈ os → order_status o = st).
Proof.
  assert (H200 : res_status (getAllOrders claimsA ordersOfB dbTwo).1 = 200)
    by (vm_compute; reflexivity).
  split; [exact H200|].
  exact (getAllOrders_page claimsA ordersOfB dbTwo H200).
Defined.

Lemma pageCount_ceiling_witness :
  (0 ≤ 25)%Z ∧ (0 < 10)%Z ∧
  ∃ pages, pageCount 25 10 = Some pages ∧
    (0 ≤ pages)%Z ∧ ((pages - 1) * 10 < 25 ≤ pages * 10)%Z.
Proof.
  split; [lia|]. split; [lia|]. apply pageCount_ceiling; lia.
Defined.

End ListingScenario.

(** ** Statistics and the life of an order *)

Section LifecycleFacts.
Context `{MongoDriver}.
Import OrderController.

Lemma selected_user u coll :
  selected (mkFilter (Some u) None) coll = ownedBy u coll.
Proof.
  unfold selected, ownedBy. induction coll as [|d coll IH]; [done|].
  rewrite !filter_cons, IH. unfold matches. simpl. rewrite andb_true_r.
  destruct (String.eqb_spec (doc_userId d) u) as [Heq|Hne].
  - by rewrite !decide_True.
  - by rewrite !decide_False.
Qed.

Lemma selected_all coll : selected (mkFilter None None) coll = coll.
Proof.
  unfold selected. induction coll as [|d coll IH]; [done|].
  rewrite filter_cons, IH. by rewrite decide_True.
Qed.

Lemma countStatus_length s docs :
  countStatus s docs = Z.of_nat (length (filter (λ d, doc_status d = s) docs)).
Proof.
  induction docs as [|d docs IH]; [done|].
  rewrite filter_cons. simpl. rewrite IH.
  destruct (String.eqb_spec (doc_status d) s) as [Heq|Hne].
  - rewrite decide_True by done. simpl. lia.
  - rewrite decide_False by done. lia.
Qed.

(** The group, or the default when nothing matches, is [statsOf]. *)
Lemma groupStats_statsOf docs :
  default (mkOrderStats 0 0 0 0 0) (head (groupStats docs)) = statsOf docs.
Proof.
  destruct docs as [|d docs]; [done|].
  unfold groupStats, statsOf. cbn [head default].
  by rewrite !countStatus_length.
Qed.

(** X6: getOrderStats counts the caller's own orders for every caller who is
    not an administrator, whatever userId the query names; for an
    administrator it counts the orders of the user the query names, or all
    orders when it names none.  The figures are the number of orders, the sum
    of their totals and the numbers of pending, completed and cancelled
    ones (all 0 when there is no order). *)
Theorem getOrderStats_scope user queryUserId db :
  let r := getOrderStats user queryUserId db in
  r.2 = db ∧
  (isAdmin user = false → truthy (userId user) = true →
   ObjectId_isValid (userId user) = true →
     r.1 = succeed 200 None (Some (statsOf (ownedBy (userId user) (orders db))))) ∧
  (isAdmin user = true →
   ∀ u, queryUserId = Some u → truthy u = true → ObjectId_isValid u = true →
     r.1 = succeed 200 None (Some (statsOf (ownedBy u (orders db))))) ∧
  (isAdmin user = true → truthyOpt queryUserId = false →
     r.1 = succeed 200 None (Some (statsOf (orders db)))).
Proof.
  intros r. subst r. unfold getOrderStats, Order_getOrderStats.
  split.
  { destruct (negb (isAdmin user)); [|destruct (truthyOpt queryUserId)];
      repeat (case_match; try done). }
  split; [|split].
  - intros -> Ht Hv. cbn [negb truthyOpt]. rewrite Ht.
    unfold newObjectId. change (default "" (Some (userId user))) with (userId user).
    rewrite Hv.
    fold (selected (mkFilter (Some (userId user)) None) (orders db)).
    by rewrite selected_user, groupStats_statsOf.
  - intros -> u -> Ht Hv. cbn [negb truthyOpt]. rewrite Ht.
    cbn [truthyOpt]. rewrite Ht.
    unfold newObjectId. change (default "" (Some u)) with u. rewrite Hv.
    fold (selected (mkFilter (Some u) None) (orders db)).
    by rewrite selected_user, groupStats_statsOf.
  - intros -> Hq. cbn [negb]. rewrite Hq. cbn [truthyOpt].
    fold (selected (mkFilter None None) (orders db)).
    by rewrite selected_all, groupStats_statsOf.
Qed.

(** What a request does to the orders collection: nothing, or it appends a
    pending order with the one-entry history, or it pushes one of the six
    statuses onto one order. *)
Lemma handle_orders req db :
  orders (handle req db) = orders db ∨
  (∃ env od,
     orders (handle req db) = (create env od (orders db)).2 ∧
     data_status od = "pending" ∧
     data_statusHistory od = [mkStatusEntry "pending" "Order created" (now env)]) ∨
  (∃ env i st notes,
     st ∈ validStatuses ∧
     orders (handle req db) = alter (pushStatus env st notes) i (orders db)).
Proof.
  assert (Hcreate : ∀ env user body,
    orders (createOrder env user body db).2 = orders db ∨
    ∃ env' od,
      orders (createOrder env user body db).2 = (create env' od (orders db)).2 ∧
      data_status od = "pending" ∧
      data_statusHistory od = [mkStatusEntry "pending" "Order created" (now env')]).
  { intros env user body.
    destruct (decide (res_status (createOrder env user body db).1 = 201))
      as [H201|Hne]; [|left; by rewrite createOrder_failed].
    destruct (createOrder env user body db) as [resp db'] eqn:Hc.
    destruct (createOrder_created _ _ _ _ _ _ Hc H201)
      as (its & sa & total & lines & _ & _ & _ & _ & _ & Hdb).
    right. cbv zeta in Hdb. subst db'. cbn [snd orders].
    eexists env, _. split; [reflexivity|]. split; reflexivity. }
  destruct req as [env user body|env user body|env user id body|id u|id force
                  |env user body|user body|user title|user]; simpl.
  - destruct (Hcreate env user body) as [?|?]; [by left|by right; left].
  - unfold createOrderFromCart.
    destruct (newObjectId (userId user)) as [uid|]; [|by left].
    destruct (users db !! uid) as [u|]; [|by left].
    destruct (user_cart u) as [|l cart]; [by left|].
    destruct (Hcreate env user
                (mkCreateOrderBody (Some (cartToItems (l :: cart)))
                   (shippingAddress body) (paymentMethod body) (notes body)))
      as [?|?]; [by left|by right; left].
  - unfold updateOrderStatus.
    destruct (negb (ObjectId_isValid id)); [by left|].
    destruct (includes validStatuses (sb_status body)) eqn:Hinc; [|by left].
    destruct (findById id (orders db)) as [order|]; [|by left].
    destruct (negb (isAdmin user) && _); [by left|].
    destruct (negb (isAdmin user) && _ && _); [by left|].
    simpl. unfold updateStatus.
    destruct (list_find _ (orders db)) as [[j x]|]; [|by left].
    right; right. destruct (sb_status body) as [st|]; [|discriminate].
    exists env, j, st, (orDefault (sb_notes body) ""). split; [|done].
    cbn [includes] in Hinc. apply existsb_exists in Hinc as (y & Hy & Heq).
    apply String.eqb_eq in Heq. subst y. by apply list_elem_of_In.
  - left. apply updateBook_orders.
  - left. apply deleteCategory_orders.
  - left. unfold UserRoutes.cartAdd. repeat (case_match; try done).
  - left. unfold UserRoutes.cartUpdate. repeat (case_match; try done).
  - left. unfold UserRoutes.cartRemove. repeat (case_match; try done).
  - left. unfold UserRoutes.cartClear. repeat (case_match; try done).
Qed.

Lemma handle_validStatusOrders req db :
  validStatusOrders db → validStatusOrders (handle req db).
Proof.
  unfold validStatusOrders. intros Hv.
  destruct (handle_orders req db)
    as [->|[(env & od & -> & Hs & _)|(env & i & st & notes & Hst & ->)]]; [done| |].
  - unfold create. simpl. apply Forall_app. split; [done|].
    constructor; [|done]. simpl. rewrite Hs. simpl. by left.
  - apply Forall_alter; [done|]. intros d _ _. by simpl.
Qed.

Lemma run_validStatusOrders reqs :
  ∀ db, validStatusOrders db → validStatusOrders (run reqs db).
Proof.
  unfold run. induction reqs as [|req reqs IH]; intros db Hv; simpl; [done|].
  by apply IH, handle_validStatusOrders.
Qed.

(** X7: the six statuses do not include completed, the status that
    getOrderStats counts as completedOrders: after any run of requests that
    create orders, set their status, edit the books, the categories or the
    carts, starting from a store whose orders have valid statuses, every
    order still has a valid status and getOrderStats reports
    completedOrders = 0.  (The administrator's updateOrder, which writes any
    status, is not one of these requests.) *)
Theorem completedOrders_is_zero db reqs user queryUserId stats :
  validStatusOrders db →
  res_data (getOrderStats user queryUserId (run reqs db)).1 = Some stats →
  validStatusOrders (run reqs db) ∧ completedOrders stats = 0%Z.
Proof.
  intros Hv Hdata. apply (run_validStatusOrders reqs) in Hv.
  split; [done|]. revert Hdata. unfold getOrderStats, Order_getOrderStats.
  set (target := if negb (isAdmin user) then _ else _).
  set (ms := if truthyOpt target then _ else _).
  destruct ms as [f| |]; [|discriminate|discriminate].
  simpl. intros [= <-]. rewrite groupStats_statsOf. simpl.
  assert (Hnone : filter (λ d, doc_status d = "completed")
                    (filter (λ d, matches (mkFilter f None) d = true)
                       (orders (run reqs db))) = []); [|by rewrite Hnone].
  destruct (filter (λ d, doc_status d = "completed") _) as [|d ds] eqn:Hf;
    [done|exfalso].
  assert (Hd : d ∈ d :: ds) by left. rewrite <- Hf in Hd.
  apply list_elem_of_filter in Hd as [Hc Hd].
  apply list_elem_of_filter in Hd as [_ Hd].
  unfold validStatusOrders in Hv. rewrite Forall_forall in Hv.
  specialize (Hv d Hd). rewrite Hc in Hv. unfold validStatuses in Hv.
  repeat (apply elem_of_cons in Hv as [Hv|Hv]; [discriminate|]).
  by apply elem_of_nil in Hv.
Qed.

Lemma handle_historyExtended req db : historyExtended db (handle req db).
Proof.
  intros i d Hd.
  destruct (handle_orders req db)
    as [->|[(env & od & -> & _)|(env & j & st & notes & _ & ->)]].
  - exists d. by repeat split.
  - exists d. unfold create. simpl. split; [by apply lookup_app_l_Some|].
    by repeat split.
  - rewrite list_lookup_alter. case_decide as Hij.
    + subst j. rewrite Hd. simpl. eexists. split; [done|]. simpl.
      repeat split; try done. by apply prefix_app_r.
    + exists d. by repeat split.
Qed.

(** X8: the status history of a stored order is append-only: whatever
    requests follow (orders created, statuses set, books, categories and
    carts edited), the order stays at its position with its id, owner, order
    number and creation date, and its earlier history is a prefix of its
    later history.  (The administrator's updateOrder, which can replace the
    history, is not one of these requests.) *)
Theorem statusHistory_append_only reqs db i d :
  orders db !! i = Some d →
  ∃ d', orders (run reqs db) !! i = Some d' ∧
    doc__id d' = doc__id d ∧ doc_userId d' = doc_userId d ∧
    doc_orderNumber d' = doc_orderNumber d ∧
    doc_createdAt d' = doc_createdAt d ∧
    doc_statusHistory d `prefix_of` doc_statusHistory d'.
Proof.
  revert db d. unfold run.
  induction reqs as [|req reqs IH]; intros db d Hd; simpl.
  - exists d. by repeat split.
  - destruct (handle_historyExtended req db i d Hd)
      as (d1 & Hd1 & Hid & Hu & Hn & Hc & Hp).
    destruct (IH _ _ Hd1) as (d2 & Hd2 & Hid2 & Hu2 & Hn2 & Hc2 & Hp2).
    exists d2. split; [done|].
    repeat split; try congruence. by etrans.
Qed.

Lemma handle_pendingFirst req db : pendingFirst db → pendingFirst (handle req db).
Proof.
  unfold pendingFirst. intros Hp.
  destruct (handle_orders req db)
    as [->|[(env & od & -> & _ & Hh)|(env & j & st & notes & _ & ->)]]; [done| |].
  - unfold create. simpl. apply Forall_app. split; [done|].
    constructor; [|done]. simpl. by rewrite Hh.
  - apply Forall_alter; [done|]. intros d _ Hd. simpl.
    destruct (doc_statusHistory d); [discriminate|done].
Qed.

(** X9: every order that createOrder stores starts its history with the
    pending entry, and no later request removes it: a store whose orders all
    start with pending stays so after any run of requests. *)
Theorem statusHistory_starts_pending reqs db :
  pendingFirst db → pendingFirst (run reqs db).
Proof.
  revert db. unfold run. induction reqs as [|req reqs IH]; intros db Hp; simpl;
    [done|].
  by apply IH, handle_pendingFirst.
Qed.

Lemma findDoc_Some id coll d :
  findDoc id coll = Some d →
  ∃ i, list_find (λ d, doc__id d = id) coll = Some (i, d) ∧ doc__id d = id.
Proof.
  unfold findDoc.
  destruct (list_find _ coll) as [[i x]|] eqn:Hf; [|discriminate].
  simpl. intros [= <-]. exists i. split; [done|].
  by apply list_find_Some in Hf as (_ & Hx & _).
Qed.

(** Reading an order after [Order.updateStatus]. *)
Lemma findDoc_updateStatus env id st notes coll d :
  findDoc id coll = Some d →
  findDoc id (updateStatus env id st notes coll) = Some (pushStatus env st notes d).
Proof.
  intros Hd. apply findDoc_Some in Hd as (i & Hf & Hid).
  unfold updateStatus, findDoc. rewrite Hf.
  apply list_find_Some in Hf as (Hl & _ & Hmin).
  assert (Hfind : list_find (λ d, doc__id d = id)
                    (alter (pushStatus env st notes) i coll)
                  = Some (i, pushStatus env st notes d)); [|by rewrite Hfind].
  apply list_find_Some. split; [|split].
  - by rewrite list_lookup_alter_eq, Hl.
  - done.
  - intros j y Hy Hj. rewrite list_lookup_alter_ne in Hy by lia.
    by apply (Hmin j y).
Qed.

(** The shape of an accepted [updateOrderStatus]. *)
Lemma updateOrderStatus_accepted env user id body db resp db' :
  updateOrderStatus env user id body db = (resp, db') →
  res_status resp = 200 →
  ∃ st d,
    sb_status body = Some st ∧ st ∈ validStatuses ∧
    findDoc id (orders db) = Some d ∧
    let orders' := updateStatus env id st (orDefault (sb_notes body) "") (orders db) in
    resp = mkResponse 200 (Some true) None
             (Some "Order status updated successfully") (findById id orders') ∧
    db' = set_orders (λ _, orders') db.
Proof.
  unfold updateOrderStatus, findById.
  destruct (negb (ObjectId_isValid id)); [by intros [= <- <-]|].
  destruct (includes validStatuses (sb_status body)) eqn:Hinc;
    [|by intros [= <- <-]].
  destruct (sb_status body) as [st|]; [|discriminate].
  destruct (findDoc id (orders db)) as [d|] eqn:Hd; [|by intros [= <- <-]].
  simpl.
  destruct (negb (isAdmin user) && _); [by intros [= <- <-]|].
  destruct (negb (isAdmin user) && _ && _); [by intros [= <- <-]|].
  intros [= <- <-] _. exists st, d. split; [done|]. split; [|done].
  cbn [includes] in Hinc. apply existsb_exists in Hinc as (y & Hy & Heq).
  apply String.eqb_eq in Heq. subst y. by apply list_elem_of_In.
Qed.

(** X10: an accepted updateOrderStatus is read back: the stored order of
    that id then has the requested status, which is one of the six, and its
    history is the former history followed by one entry with that status,
    the notes of the request and the time of the request; the answer carries
    the updated order; books, users and categories are untouched and no
    order is added or removed. *)
Theorem updateOrderStatus_read_back env user id body db :
  let r := updateOrderStatus env user id body db in
  res_status r.1 = 200 →
  ∃ st d,
    sb_status body = Some st ∧ st ∈ validStatuses ∧
    findDoc id (orders db) = Some d ∧
    findDoc id (orders r.2)
      = Some (pushStatus env st (orDefault (sb_notes body) "") d) ∧
    res_data r.1
      = Some (Order_new (pushStatus env st (orDefault (sb_notes body) "") d)) ∧
    doc_status (pushStatus env st (orDefault (sb_notes body) "") d) = st ∧
    doc_statusHistory (pushStatus env st (orDefault (sb_notes body) "") d)
      = doc_statusHistory d
        ++ [mkStatusEntry st (orDefault (sb_notes body) "") (now env)] ∧
    length (orders r.2) = length (orders db) ∧
    books r.2 = books db ∧ users r.2 = users db ∧ categories r.2 = categories db.
Proof.
  intros r H200.
  destruct (updateOrderStatus_accepted env user id body db r.1 r.2
              (surjective_pairing _) H200) as (st & d & Hst & Hv & Hd & Hr & Hdb).
  exists st, d. rewrite Hr, Hdb. cbn [orders set_orders res_data books users categories].
  unfold findById. rewrite (findDoc_updateStatus _ _ _ _ _ _ Hd).
  repeat split; try done.
  unfold updateStatus. destruct (list_find _ (orders db)) as [[j x]|]; [|done].
  apply length_alter.
Qed.

End LifecycleFacts.

Section LifecycleScenario.
Import OrderController Scenario.

Lemma dbOrdered_validStatusOrders : validStatusOrders dbOrdered.
Proof.
  apply (bool_decide_unpack
           (Forall (λ d, doc_status d ∈ validStatuses) (orders dbOrdered))).
  vm_compute. exact I.
Defined.

Lemma dbOrdered_pendingFirst : pendingFirst dbOrdered.
Proof.
  apply (bool_decide_unpack
           (Forall (λ d, entry_status <$> head (doc_statusHistory d)
                         = Some "pending") (orders dbOrdered))).
  vm_compute. exact I.
Defined.

Lemma completedOrders_is_zero_witness :
  validStatusOrders dbOrdered ∧
  ∃ stats,
    res_data (getOrderStats claimsB None (run shipThenOrder dbOrdered)).1
      = Some stats ∧
    validStatusOrders (run shipThenOrder dbOrdered) ∧
    completedOrders stats = 0%Z.
Proof.
  split; [exact dbOrdered_validStatusOrders|].
  destruct (res_data (getOrderStats claimsB None (run shipThenOrder dbOrdered)).1)
    as [stats|] eqn:Hs; [|vm_compute in Hs; discriminate].
  exists stats. split; [reflexivity|].
  exact (completedOrders_is_zero dbOrdered shipThenOrder claimsB None stats
           dbOrdered_validStatusOrders Hs).
Defined.

Lemma statusHistory_append_only_witness :
  ∃ d, orders dbOrdered !! 0%nat = Some d ∧
  ∃ d', orders (run shipThenOrder dbOrdered) !! 0%nat = Some d' ∧
    doc__id d' = doc__id d ∧ doc_userId d' = doc_userId d ∧
    doc_orderNumber d' = doc_orderNumber d ∧
    doc_createdAt d' = doc_createdAt d ∧
    doc_statusHistory d `prefix_of` doc_statusHistory d'.
Proof.
  destruct (orders dbOrdered !! 0%nat) as [d|] eqn:Hd;
    [|vm_compute in Hd; discriminate].
  exists d. split; [reflexivity|].
  exact (statusHistory_append_only shipThenOrder dbOrdered 0%nat d Hd).
Defined.

Lemma statusHistory_starts_pending_witness :
  pendingFirst dbOrdered ∧ pendingFirst (run shipThenOrder dbOrdered).
Proof.
  split; [exact dbOrdered_pendingFirst|].
  exact (statusHistory_starts_pending shipThenOrder dbOrdered dbOrdered_pendingFirst).
Defined.

Lemma updateOrderStatus_read_back_witness :
  let env := mkEnv later idOrder2 in
  let body := mkStatusBody (Some "shipped") None in
  let r := updateOrderStatus env claimsRoot idOrder1 body dbOrdered in
  res_status r.1 = 200 ∧
  ∃ st d,
    sb_status body = Some st ∧ st ∈ validStatuses ∧
    findDoc idOrder1 (orders dbOrdered) = Some d ∧
    findDoc idOrder1 (orders r.2)
      = Some (pushStatus env st (orDefault (sb_notes body) "") d) ∧
    res_data r.1
      = Some (Order_new (pushStatus env st (orDefault (sb_notes body) "") d)) ∧
    doc_status (pushStatus env st (orDefault (sb_notes body) "") d) = st ∧
    doc_statusHistory (pushStatus env st (orDefault (sb_notes body) "") d)
      = doc_statusHistory d
        ++ [mkStatusEntry st (orDefault (sb_notes body) "") (now env)] ∧
    length (orders r.2) = length (orders dbOrdered) ∧
    books r.2 = books dbOrdered ∧ users r.2 = users dbOrdered ∧
    categories r.2 = categories dbOrdered.
Proof.
  intros env body r.
  assert (H200 : res_status r.1 = 200) by (vm_compute; reflexivity).
  split; [exact H200|].
  exact (updateOrderStatus_read_back env claimsRoot idOrder1 body dbOrdered H200).
Defined.

End LifecycleScenario.

(** ** More on creating and editing orders *)

Section OrderEngineFacts.
Context `{MongoDriver}.
Import OrderController.

(** X11: createOrder answers 201 exactly when the request has a non-empty
    list of items, a shipping address with address and city, a payment
    method, every item passes the checks of the loop (a well-formed id of a
    stored book, a positive quantity within the stock of that book) and the
    caller's id is well formed. *)
Theorem createOrder_succeeds_iff env user body db :
  res_status (createOrder env user body db).1 = 201 ↔
  ∃ its sa,
    items body = Some its ∧ its ≠ [] ∧
    shippingAddress body = Some sa ∧ hasAddressAndCity sa = true ∧
    truthyOpt (paymentMethod body) = true ∧
    Forall (itemAccepted (books db)) its ∧
    ObjectId_isValid (userId user) = true.
Proof.
  unfold createOrder. split.
  - destruct (items body) as [[|item its]|]; try (simpl; discriminate).
    destruct (shippingAddress body) as [sa|]; [|simpl; discriminate].
    destruct (hasAddressAndCity sa) eqn:Hsa; [|simpl; discriminate].
    destruct (truthyOpt (paymentMethod body)) eqn:Hpm; [|simpl; discriminate].
    cbn [negb].
    destruct (validateItems (books db) (item :: its) 0 []) as [[total lines]|r|] eqn:Hv.
    + unfold newObjectId.
      destruct (ObjectId_isValid (userId user)); [|simpl; discriminate].
      intros _. exists (item :: its), sa. repeat split; try done.
      by eapply validateItems_Next_accepted.
    + simpl. intros H201. apply validateItems_Respond in Hv. lia.
    + simpl; discriminate.
  - intros (its & sa & -> & Hne & -> & -> & -> & Hacc & Hu).
    destruct its as [|item its]; [done|]. cbn [negb].
    destruct (validateItems_accepted _ _ Hacc 0%Z []) as (t' & a' & ->).
    unfold newObjectId. rewrite Hu. reflexivity.
Qed.

Lemma lineQuantity_nonneg bs id its ls :
  Forall2 (snapshotOf bs) its ls → (0 ≤ lineQuantity id ls)%Z.
Proof.
  induction 1 as [|item l its ls (_ & _ & bk & _ & _ & _ & _ & _ & Hq) _ IH]; [done|].
  rewrite lineQuantity_cons. case_decide; lia.
Qed.

Lemma lineQuantity_absent bs id its ls :
  Forall2 (snapshotOf bs) its ls → Some id ∉ bookId <$> its →
  lineQuantity id ls = 0%Z.
Proof.
  induction 1 as [|item l its ls (Hb & _) _ IH]; [done|].
  rewrite fmap_cons, not_elem_of_cons. intros [Hne Hnot].
  rewrite lineQuantity_cons, decide_False; [by apply IH|].
  intros <-. by rewrite Hb in Hne.
Qed.

Lemma lineQuantity_distinct bs id its ls book :
  Forall2 (snapshotOf bs) its ls → NoDup (bookId <$> its) →
  bs !! id = Some book → (0 ≤ book_stock book)%Z →
  (lineQuantity id ls ≤ book_stock book)%Z.
Proof.
  induction 1 as [|item l its ls (Hb & _ & bk & Hbk & _ & _ & _ & _ & Hq) HF IH];
    intros Hnd Hbook Hpos; [done|].
  rewrite fmap_cons in Hnd. apply NoDup_cons in Hnd as [Hnot Hnd].
  rewrite lineQuantity_cons. case_decide as Hid.
  - subst id. rewrite Hb in Hnot.
    rewrite (lineQuantity_absent _ _ _ _ HF Hnot).
    rewrite Hbook in Hbk. inversion Hbk; subst. lia.
  - by apply IH.
Qed.

(** X12: a successful createOrder never raises a stock; and when the items
    of the request name pairwise distinct books, no stock that was
    non-negative becomes negative. *)
Theorem createOrder_stock_bounds env user body db its id book :
  res_status (createOrder env user body db).1 = 201 →
  items body = Some its →
  books db !! id = Some book →
  ∃ book',
    books (createOrder env user body db).2 !! id = Some book' ∧
    (book_stock book' ≤ book_stock book)%Z ∧
    (NoDup (bookId <$> its) → (0 ≤ book_stock book)%Z → (0 ≤ book_stock book')%Z).
Proof.
  intros H201 Hits Hbook.
  destruct (createOrder env user body db) as [resp db'] eqn:Hc.
  destruct (createOrder_created _ _ _ _ _ _ Hc H201)
    as (its' & sa & total & lines & Hits' & _ & Hv & _ & _ & Hdb).
  rewrite Hits in Hits'. inversion Hits'; subst its'.
  apply validateItems_Next in Hv as (ls & Hls & _ & HF).
  simpl in Hls. subst lines. cbv zeta in Hdb. subst db'. simpl.
  rewrite decrementStock_lookup, Hbook. simpl.
  eexists. split; [done|]. simpl.
  pose proof (lineQuantity_nonneg _ id _ _ HF).
  split; [lia|]. intros Hnd Hpos.
  pose proof (lineQuantity_distinct _ id _ _ _ HF Hnd Hbook Hpos). lia.
Qed.

(** X13: updateOrder changes nothing for a caller who is not an
    administrator, and for an administrator it never changes the id, the
    owner, the order number or the creation date of an order, whatever the
    body carries; the orders with another id, the books, the users and the
    categories are untouched, and no order is added or removed. *)
Theorem updateOrder_protected_fields env user id updateData db :
  let r := updateOrder env user id updateData db in
  (isAdmin user = false → r.2 = db) ∧
  books r.2 = books db ∧ users r.2 = users db ∧ categories r.2 = categories db ∧
  length (orders r.2) = length (orders db) ∧
  ∀ i d, orders db !! i = Some d →
    ∃ d', orders r.2 !! i = Some d' ∧
      doc__id d' = doc__id d ∧ doc_userId d' = doc_userId d ∧
      doc_orderNumber d' = doc_orderNumber d ∧
      doc_createdAt d' = doc_createdAt d ∧
      (doc__id d ≠ id → d' = d).
Proof.
  intros r. subst r. unfold updateOrder.
  assert (Hsame : ∀ resp : Response Order,
    (isAdmin user = false → (resp, db).2 = db) ∧
    books (resp, db).2 = books db ∧ users (resp, db).2 = users db ∧
    categories (resp, db).2 = categories db ∧
    length (orders (resp, db).2) = length (orders db) ∧
    ∀ i d, orders db !! i = Some d →
      ∃ d', orders (resp, db).2 !! i = Some d' ∧
        doc__id d' = doc__id d ∧ doc_userId d' = doc_userId d ∧
        doc_orderNumber d' = doc_orderNumber d ∧
        doc_createdAt d' = doc_createdAt d ∧ (doc__id d ≠ id → d' = d)).
  { intros resp. simpl. repeat split; try done. intros i d Hd. by exists d. }
  destruct (negb (ObjectId_isValid id)); [apply Hsame|].
  destruct (findById id (orders db)) as [order|]; [|apply Hsame].
  destruct (isAdmin user); [|apply Hsame]. cbn [negb fst snd].
  split; [discriminate|]. repeat (split; [done|]).
  unfold updateById, set_orders. cbn [orders].
  destruct (list_find _ (orders db)) as [[j x]|] eqn:Hf.
  - split; [apply length_alter|]. intros i d Hd.
    apply list_find_Some in Hf as (Hx & Hid & _).
    rewrite list_lookup_alter. case_decide as Hij.
    + subst j. rewrite Hd. simpl. eexists. split; [done|].
      rewrite Hd in Hx. inversion Hx; subst x. by repeat split.
    + exists d. by repeat split.
  - split; [done|]. intros i d Hd. exists d. by repeat split.
Qed.

End OrderEngineFacts.

(** ** Editing an order as an administrator *)

Section OrderEditFacts.
Context `{MongoDriver}.
Import OrderController.

(** Reading an order after [Order.updateById] with the protected fields
    deleted. *)
Lemma findDoc_updateById env id u coll d :
  findDoc id coll = Some d →
  findDoc id (updateById env id (deleteProtected u) coll)
  = Some (applyOrderUpdate env (deleteProtected u) d).
Proof.
  intros Hd. apply findDoc_Some in Hd as (i & Hf & Hid).
  unfold updateById, findDoc. rewrite Hf.
  apply list_find_Some in Hf as (Hl & _ & Hmin).
  assert (Hfind : list_find (λ d, doc__id d = id)
                    (alter (applyOrderUpdate env (deleteProtected u)) i coll)
                  = Some (i, applyOrderUpdate env (deleteProtected u) d));
    [|by rewrite Hfind].
  apply list_find_Some. split; [|split].
  - by rewrite list_lookup_alter_eq, Hl.
  - done.
  - intros j y Hy Hj. rewrite list_lookup_alter_ne in Hy by lia.
    by apply (Hmin j y).
Qed.

Lemma findDoc_elem_of id coll d : findDoc id coll = Some d → d ∈ coll.
Proof.
  intros Hd. apply findDoc_Some in Hd as (i & Hf & _).
  apply list_find_Some in Hf as (Hl & _). by eapply list_elem_of_lookup_2.
Qed.

(** X30: updateOrder checks nothing about the fields it writes: for an
    administrator, the order of a well-formed id gets the status, the status
    history, the lines and the total of the body as they are, and the time of
    the request as updatedAt.  So a status outside the six is stored without
    an entry in the history, and with the status completed the statistics
    count a completed order. *)
Theorem updateOrder_unchecked env user id u db d :
  ObjectId_isValid id = true → isAdmin user = true →
  findDoc id (orders db) = Some d →
  let r := updateOrder env user id u db in
  let d' := applyOrderUpdate env (deleteProtected u) d in
  res_status r.1 = 200 ∧ res_data r.1 = Some (Order_new d') ∧
  findDoc id (orders r.2) = Some d' ∧
  doc_status d' = default (doc_status d) (ou_status u) ∧
  doc_statusHistory d' = default (doc_statusHistory d) (ou_statusHistory u) ∧
  doc_items d' = default (doc_items d) (ou_items u) ∧
  doc_totalAmount d' = default (doc_totalAmount d) (ou_totalAmount u) ∧
  doc_updatedAt d' = now env ∧
  (∀ st, ou_status u = Some st → st ∉ validStatuses → ¬ validStatusOrders r.2) ∧
  (ou_status u = Some "completed" →
     (0 < completedOrders (statsOf (orders r.2)))%Z).
Proof.
  intros Hv Hadm Hd r d'. subst r. unfold updateOrder, findById.
  rewrite Hv, Hd, Hadm.
  cbn [negb fmap option_fmap option_map fst snd res_status res_data orders
       set_orders].
  pose proof (findDoc_updateById env id u _ _ Hd) as Hd'. fold d' in Hd'.
  rewrite Hd'. repeat (split; [done|]).
  apply findDoc_elem_of in Hd'. split.
  - intros st Hst Hnot Hvalid. unfold validStatusOrders in Hvalid.
    cbn [orders set_orders] in Hvalid.
    rewrite Forall_forall in Hvalid. apply Hvalid in Hd'.
    subst d'. simpl in Hd'. rewrite Hst in Hd'. done.
  - intros Hst. unfold statsOf. cbn [completedOrders].
    assert (Hin : d' ∈ filter (λ d, doc_status d = "completed")
                    (updateById env id (deleteProtected u) (orders db))).
    { apply list_elem_of_filter. split; [|done]. subst d'. simpl. by rewrite Hst. }
    destruct (filter _ _) as [|x l]; [by apply elem_of_nil in Hin|]. simpl. lia.
Qed.

End OrderEditFacts.

Section OrderEngineScenario.
Import OrderController Scenario.

Lemma createOrder_stock_bounds_witness :
  res_status (createOrder env0 claimsB twoOfX db0).1 = 201 ∧
  items twoOfX = Some [mkItem (Some idX) (Some 2%Z)] ∧
  books db0 !! idX = Some bookX ∧
  ∃ book',
    books (createOrder env0 claimsB twoOfX db0).2 !! idX = Some book' ∧
    (book_stock book' ≤ book_stock bookX)%Z ∧
    (NoDup (bookId <$> [mkItem (Some idX) (Some 2%Z)]) →
     (0 ≤ book_stock bookX)%Z → (0 ≤ book_stock book')%Z).
Proof.
  assert (H201 : res_status (createOrder env0 claimsB twoOfX db0).1 = 201)
    by (vm_compute; reflexivity).
  assert (Hb : books db0 !! idX = Some bookX) by (vm_compute; reflexivity).
  split; [exact H201|]. split; [reflexivity|]. split; [exact Hb|].
  exact (createOrder_stock_bounds env0 claimsB twoOfX db0 _ idX bookX
           H201 eq_refl Hb).
Defined.

Lemma updateOrder_unchecked_witness :
  let env := mkEnv later idOrder2 in
  let r := updateOrder env claimsRoot idOrder1 markCompleted dbOrdered in
  ObjectId_isValid idOrder1 = true ∧ isAdmin claimsRoot = true ∧
  ∃ d, findDoc idOrder1 (orders dbOrdered) = Some d ∧
    (let d' := applyOrderUpdate env (deleteProtected markCompleted) d in
     res_status r.1 = 200 ∧ res_data r.1 = Some (Order_new d') ∧
     findDoc idOrder1 (orders r.2) = Some d' ∧
     doc_status d' = default (doc_status d) (ou_status markCompleted) ∧
     doc_statusHistory d'
       = default (doc_statusHistory d) (ou_statusHistory markCompleted) ∧
     doc_items d' = default (doc_items d) (ou_items markCompleted) ∧
     doc_totalAmount d'
       = default (doc_totalAmount d) (ou_totalAmount markCompleted) ∧
     doc_updatedAt d' = now env ∧
     (∀ st, ou_status markCompleted = Some st → st ∉ validStatuses →
        ¬ validStatusOrders r.2) ∧
     (ou_status markCompleted = Some "completed" →
        (0 < completedOrders (statsOf (orders r.2)))%Z)).
Proof.
  intros env r.
  assert (Hv : ObjectId_isValid idOrder1 = true) by (vm_compute; reflexivity).
  assert (Hadm : isAdmin claimsRoot = true) by (vm_compute; reflexivity).
  split; [exact Hv|]. split; [exact Hadm|].
  destruct (findDoc idOrder1 (orders dbOrdered)) as [d|] eqn:Hd;
    [|vm_compute in Hd; discriminate].
  exists d. split; [reflexivity|].
  exact (updateOrder_unchecked env claimsRoot idOrder1 markCompleted dbOrdered d
           Hv Hadm Hd).
Defined.

End OrderEngineScenario.

(** ** More on the cart, the accounts and the profile *)

Section AccountFacts.
Context `{MongoDriver} `{JsonWebToken} `{Bcrypt}.
Import UserRoutes.

Lemma cartUpdate_accepted user body db :
  res_status (cartUpdate user body db).1 = 200 →
  ∃ u title i l,
    ObjectId_isValid (userId user) = true ∧
    users db !! userId user = Some u ∧
    ub_title body = Some title ∧ truthy title = true ∧
    (0 ≤ ub_quantity body)%Z ∧
    findIndex title (user_cart u) = Some i ∧
    user_cart u !! i = Some l ∧ cart_title l = title ∧
    let cart' :=
      if (ub_quantity body =? 0)%Z then delete i (user_cart u)
      else alter (set_quantity (ub_quantity body)) i (user_cart u) in
    cartUpdate user body db
      = (bare 200 "Cart updated successfully" cart',
         saveCart (userId user) cart' db).
Proof.
  unfold cartUpdate.
  destruct (ub_title body) as [title|]; [|simpl; discriminate].
  cbn [truthyOpt].
  destruct (truthy title) eqn:Ht; [|simpl; discriminate].
  destruct (ub_quantity body <? 0)%Z eqn:Hq; [simpl; discriminate|].
  cbn [negb orb]. unfold newObjectId.
  destruct (ObjectId_isValid (userId user)); [|simpl; discriminate].
  destruct (users db !! userId user) as [u|]; [|simpl; discriminate].
  change (default "" (Some title)) with title.
  destruct (findIndex title (user_cart u)) as [i|] eqn:Hf; [|simpl; discriminate].
  intros _. destruct (findIndex_Some _ _ _ Hf) as (l & Hl & Hlt).
  exists u, title, i, l. repeat split; try done. lia.
Qed.

(** What [saveCart] stores: the cart replaces the cart of that user, whose
    other fields stay; every other user and collection is as before. *)
Lemma saveCart_stored uid cart db u :
  users db !! uid = Some u →
  ∃ u', users (saveCart uid cart db) !! uid = Some u' ∧
    user_cart u' = cart ∧
    user_name u' = user_name u ∧ user_email u' = user_email u ∧
    user_password u' = user_password u ∧ user_role u' = user_role u.
Proof.
  intros Hu. unfold saveCart. cbn [users set_users].
  rewrite lookup_alter, decide_True, Hu by done. by eexists.
Qed.

Lemma saveCart_others uid cart db :
  (∀ k, k ≠ uid → users (saveCart uid cart db) !! k = users db !! k) ∧
  books (saveCart uid cart db) = books db ∧
  orders (saveCart uid cart db) = orders db ∧
  categories (saveCart uid cart db) = categories db.
Proof.
  unfold saveCart. cbn [users books orders categories set_users].
  split; [|done]. intros k Hk. by rewrite lookup_alter, decide_False.
Qed.

(** X14: an accepted /cart/update with a numeric quantity changes the cart
    of the caller only, and only the line of the given title: with quantity 0
    the stored cart is the former one without that line (and, carts having
    one line per title, the title is no longer in it); with another quantity
    the stored line has that quantity and the former title, author, price,
    description and date, and every other line stays where it was.  The
    answer carries the stored cart; name, email, password and role of the
    caller, the other users, the books, the orders and the categories are
    untouched. *)
Theorem cartUpdate_line user body db :
  oneLinePerTitle db →
  res_status (cartUpdate user body db).1 = 200 →
  let r := cartUpdate user body db in
  ∃ u u' title i l,
    users db !! userId user = Some u ∧
    ub_title body = Some title ∧
    user_cart u !! i = Some l ∧ cart_title l = title ∧
    users r.2 !! userId user = Some u' ∧
    res_data r.1 = Some (user_cart u') ∧
    user_name u' = user_name u ∧ user_email u' = user_email u ∧
    user_password u' = user_password u ∧ user_role u' = user_role u ∧
    (∀ uid, uid ≠ userId user → users r.2 !! uid = users db !! uid) ∧
    books r.2 = books db ∧ orders r.2 = orders db ∧
    categories r.2 = categories db ∧
    (ub_quantity body = 0%Z →
       user_cart u' = delete i (user_cart u) ∧ title ∉ titles (user_cart u')) ∧
    (ub_quantity body ≠ 0%Z →
       length (user_cart u') = length (user_cart u) ∧
       (∃ l', user_cart u' !! i = Some l' ∧
          cart_quantity l' = ub_quantity body ∧
          cart_title l' = cart_title l ∧ cart_author l' = cart_author l ∧
          cart_price l' = cart_price l ∧
          cart_description l' = cart_description l ∧
          cart_addedAt l' = cart_addedAt l ∧
          cart_bookId l' = cart_bookId l ∧ cart__id l' = cart__id l) ∧
       ∀ j, j ≠ i → user_cart u' !! j = user_cart u !! j).
Proof.
  intros Hinv H200 r. subst r.
  destruct (cartUpdate_accepted _ _ _ H200)
    as (u & title & i & l & Hv & Hu & Htitle & Ht & Hq & Hf & Hl & Hlt & Heq).
  cbv zeta in Heq. rewrite Heq. cbn [fst snd res_data bare].
  set (cart' := if (ub_quantity body =? 0)%Z then delete i (user_cart u)
                else alter (set_quantity (ub_quantity body)) i (user_cart u)).
  destruct (saveCart_stored (userId user) cart' db u Hu)
    as (u' & Hu' & Hcart & Hname & Hemail & Hpw & Hrole).
  destruct (saveCart_others (userId user) cart' db) as (Hothers & Hb & Ho & Hc).
  exists u, u', title, i, l. rewrite Hcart.
  repeat (split; [done|]).
  split.
  - intros Hz. subst cart'. rewrite Hz. simpl. split; [done|].
    specialize (Hinv _ _ Hu). unfold titles in *.
    rewrite list_fmap_delete. intros Hin.
    apply list_elem_of_lookup in Hin as (j & Hj).
    assert (Hlt' : (cart_title <$> user_cart u) !! i = Some title)
      by (by rewrite list_lookup_fmap, Hl; simpl; rewrite Hlt).
    destruct (decide (j < i)) as [Hji|Hji].
    + rewrite list_lookup_delete_lt in Hj by done.
      pose proof (NoDup_lookup _ _ _ _ Hinv Hj Hlt'). lia.
    + rewrite list_lookup_delete_ge in Hj by lia.
      pose proof (NoDup_lookup _ _ _ _ Hinv Hj Hlt'). lia.
  - intros Hnz. subst cart'. replace (ub_quantity body =? 0)%Z with false by lia.
    split; [apply length_alter|].
    split.
    { eexists. rewrite list_lookup_alter_eq, Hl. split; [reflexivity|].
      by repeat split. }
    intros j Hj. by rewrite list_lookup_alter_ne.
Qed.

Lemma saveCart_saveCart uid c c' db :
  saveCart uid c (saveCart uid c' db) = saveCart uid c db.
Proof.
  unfold saveCart, set_users. simpl. f_equal.
  apply map_eq. intros k. rewrite !lookup_alter.
  case_decide; [|done]. rewrite decide_True by done.
  by destruct (users db !! uid).
Qed.

Lemma filter_title_twice t (cart : list CartLine) :
  filter (λ item, cart_title item ≠ t) (filter (λ item, cart_title item ≠ t) cart)
  = filter (λ item, cart_title item ≠ t) cart.
Proof.
  induction cart as [|x c IH]; [done|].
  rewrite filter_cons. case_decide as Hx; [|done].
  by rewrite filter_cons, decide_True, IH.
Qed.

Lemma filter_title_absent t (cart : list CartLine) :
  t ∉ titles cart → filter (λ item, cart_title item ≠ t) cart = cart.
Proof.
  unfold titles. induction cart as [|x c IH]; [done|].
  rewrite fmap_cons, not_elem_of_cons. intros [Hne Hnot].
  rewrite filter_cons, decide_True by done. f_equal. by apply IH.
Qed.

(** X15: /cart/remove is an idempotent filter: after an accepted call the
    stored cart of the caller is the former cart without the lines of that
    title, in their order, and the answer carries it; a title that is not in
    the cart is no error and leaves the cart as it was; the caller's other
    fields, the other users and the other collections are untouched, and a
    second call with the same title gives the same answer and changes
    nothing. *)
Theorem cartRemove_idempotent user title db :
  let r := cartRemove user title db in
  (cartRemove user title r.2).2 = r.2 ∧
  (res_status r.1 = 200 →
     ∃ u u' t,
       title = Some t ∧ users db !! userId user = Some u ∧
       users r.2 !! userId user = Some u' ∧
       res_data r.1 = Some (user_cart u') ∧
       user_cart u' = filter (λ item, cart_title item ≠ t) (user_cart u) ∧
       (∀ l, l ∈ user_cart u' ↔ l ∈ user_cart u ∧ cart_title l ≠ t) ∧
       (t ∉ titles (user_cart u')) ∧
       (t ∉ titles (user_cart u) → user_cart u' = user_cart u) ∧
       user_name u' = user_name u ∧ user_email u' = user_email u ∧
       user_password u' = user_password u ∧ user_role u' = user_role u ∧
       (∀ uid, uid ≠ userId user → users r.2 !! uid = users db !! uid) ∧
       books r.2 = books db ∧ orders r.2 = orders db ∧
       categories r.2 = categories db ∧
       (cartRemove user title r.2).1 = r.1).
Proof.
  intros r. subst r. unfold cartRemove.
  destruct title as [t|]; [|by split]. cbn [truthyOpt].
  destruct (truthy t) eqn:Ht; [|by split]. cbn [negb]. unfold newObjectId.
  destruct (ObjectId_isValid (userId user)) eqn:Hv; [|by split].
  change (default "" (Some t)) with t.
  destruct (users db !! userId user) as [u|] eqn:Hu.
  2:{ split; [|simpl; discriminate]. simpl. by rewrite Hu. }
  cbn [fst snd].
  set (cart' := filter (λ item, cart_title item ≠ t) (user_cart u)).
  destruct (saveCart_stored (userId user) cart' db u Hu)
    as (u' & Hu' & Hcart & Hname & Hemail & Hpw & Hrole).
  destruct (saveCart_others (userId user) cart' db) as (Hothers & Hb & Ho & Hc).
  rewrite Hu'. cbn [fst snd]. rewrite Hcart. subst cart'.
  rewrite filter_title_twice. split; [apply saveCart_saveCart|].
  intros _. exists u, u', t. rewrite Hcart.
  cbn [res_data bare].
  split; [done|]. split; [done|]. split; [done|]. split; [done|]. split; [done|].
  split.
  { intros l. rewrite list_elem_of_filter. tauto. }
  split.
  { unfold titles. intros (x & Hx & Hin)%list_elem_of_fmap.
    by apply list_elem_of_filter in Hin as [Hne _]. }
  split; [apply filter_title_absent|].
  by repeat (split; [done|]).
Qed.

(** X16: an accepted /cart/add of a title that the cart does not have
    stores the former cart followed by one line with quantity 1, the title,
    author, price and description of the request and the time of the request,
    without a book reference; the answer carries the stored cart, and the
    caller's other fields, the other users and the other collections are
    untouched. *)
Theorem cartAdd_new_title env user body db u title :
  res_status (cartAdd env user body db).1 = 200 →
  users db !! userId user = Some u →
  ab_title body = Some title →
  title ∉ titles (user_cart u) →
  let r := cartAdd env user body db in
  ∃ author price u',
    ab_author body = Some author ∧ ab_price body = Some price ∧
    price ≠ 0%Z ∧
    users r.2 !! userId user = Some u' ∧
    user_cart u'
      = user_cart u ++
        [mkCartLine title author price (ab_description body) 1 (now env)
           None None] ∧
    res_data r.1 = Some (user_cart u') ∧
    user_name u' = user_name u ∧ user_email u' = user_email u ∧
    user_password u' = user_password u ∧ user_role u' = user_role u ∧
    (∀ uid, uid ≠ userId user → users r.2 !! uid = users db !! uid) ∧
    books r.2 = books db ∧ orders r.2 = orders db ∧
    categories r.2 = categories db.
Proof.
  intros H200 Hu Htitle Hnot r. subst r. revert H200.
  unfold cartAdd. rewrite Htitle.
  destruct (ab_author body) as [author|]; [|simpl; discriminate].
  destruct (ab_price body) as [price|]; [|simpl; discriminate].
  destruct (negb (truthy title) || negb (truthy author) || (price =? 0)%Z) eqn:Hg;
    [simpl; discriminate|].
  unfold newObjectId.
  destruct (ObjectId_isValid (userId user)); [|simpl; discriminate].
  rewrite Hu. intros _.
  destruct (findIndex title (user_cart u)) as [i|] eqn:Hf.
  { exfalso. apply Hnot. apply findIndex_Some in Hf as (l & Hl & Hlt).
    unfold titles. apply list_elem_of_fmap. exists l. split; [done|].
    by eapply list_elem_of_lookup_2. }
  cbn [fst snd res_data bare].
  set (cart' := user_cart u ++ _).
  destruct (saveCart_stored (userId user) cart' db u Hu)
    as (u' & Hu' & Hcart & Hname & Hemail & Hpw & Hrole).
  destruct (saveCart_others (userId user) cart' db) as (Hothers & Hb & Ho & Hc).
  exists author, price, u'. rewrite Hcart.
  split; [done|]. split; [done|].
  split; [apply orb_false_elim in Hg as [_ Hg]; lia|].
  by repeat (split; [done|]).
Qed.

(** X17: PUT /profile can change the name of the caller and nothing else:
    email, password hash, role and cart of every user are as before, the
    other users are untouched, and so are books, orders and categories. *)
Theorem updateProfile_only_name user name db :
  let r := updateProfile user name db in
  books r.2 = books db ∧ orders r.2 = orders db ∧
  categories r.2 = categories db ∧
  ∀ uid u, users db !! uid = Some u →
    ∃ u', users r.2 !! uid = Some u' ∧
      user_email u' = user_email u ∧ user_password u' = user_password u ∧
      user_role u' = user_role u ∧ user_cart u' = user_cart u ∧
      (uid ≠ userId user → u' = u) ∧
      (res_status r.1 = 200 → uid = userId user → Some (user_name u') = name).
Proof.
  intros r. subst r. unfold updateProfile.
  destruct name as [n|]; cbn [truthyOpt negb];
    [|repeat split; try done; intros uid u Hu; exists u; by repeat split].
  destruct (truthy n); cbn [negb];
    [|repeat split; try done; intros uid u Hu; exists u; by repeat split].
  unfold newObjectId. destruct (ObjectId_isValid (userId user));
    [|repeat split; try done; intros uid u Hu; exists u; by repeat split].
  repeat split; try done. intros uid u Hu. cbn [snd users set_users].
  rewrite lookup_alter. case_decide as Heq.
  - subst uid. rewrite Hu. simpl. eexists. split; [done|]. by repeat split.
  - exists u. by repeat split.
Qed.

Lemma findByEmail_insert e id u (us : gmap string User) :
  user_email u = e →
  (∀ k v, us !! k = Some v → user_email v ≠ e) →
  findByEmail e (<[id := u]> us) = Some (id, u).
Proof.
  intros He Hfresh. unfold findByEmail.
  destruct (list_find _ (map_to_list (<[id := u]> us))) as [[i [k v]]|] eqn:Hf.
  - apply list_find_Some in Hf as (Hl & Hv & _). simpl in Hv. simpl.
    apply list_elem_of_lookup_2, elem_of_map_to_list in Hl.
    rewrite lookup_insert in Hl. case_decide as Hk.
    + by inversion Hl; subst.
    + by destruct (Hfresh k v Hl).
  - exfalso. apply list_find_None in Hf. rewrite Forall_forall in Hf.
    apply (Hf (id, u)); [|done].
    apply elem_of_map_to_list. apply lookup_insert_eq.
Qed.

(** The shape of an accepted [register]. *)
Lemma register_created env body db :
  res_status (register env body db).1 = 201 →
  ∃ name em pw,
    rb_name body = Some name ∧ rb_email body = Some em ∧
    rb_password body = Some pw ∧ truthy pw = true ∧
    let u := mkUser name (toLowerCase em) (bcrypt_hash pw) (Some "user") [] in
    register env body db
      = (bare 201 "User registered successfully"
           (mkAuthPayload (insertedId env) name (toLowerCase em) None
              (jwt_sign (tokenPayload (insertedId env) (toLowerCase em)))),
         set_users (insert (insertedId env) u) db).
Proof.
  unfold register.
  destruct (rb_name body) as [name|]; [|simpl; discriminate].
  destruct (rb_email body) as [em|]; [|simpl; discriminate].
  destruct (rb_password body) as [pw|]; [|simpl; discriminate].
  destruct (negb (truthy name) || negb (truthy em) || negb (truthy pw)) eqn:Hg;
    [simpl; discriminate|].
  destruct (String.length pw <? 6)%nat; [simpl; discriminate|].
  destruct (findByEmail em (users db)); [simpl; discriminate|].
  intros _. exists name, em, pw. repeat split; try done.
  apply orb_false_elim in Hg as [_ Hg]. by destruct (truthy pw).
Qed.

(** X18: a registration is found again by login: when no stored user has
    the lower-cased email, an accepted register stores the user under the
    inserted id with the lower-cased email, the hash of the password, the
    role user and an empty cart, leaving the other users alone; a login with
    the same email in any letter case and the same password is then answered
    200 with that id and a token signed from {userId, email}, and a password
    that does not verify is answered 401; login never writes. *)
Theorem register_then_login env rbody db em pw em' :
  res_status (register env rbody db).1 = 201 →
  rb_email rbody = Some em →
  rb_password rbody = Some pw →
  (∀ k v, users db !! k = Some v → user_email v ≠ toLowerCase em) →
  bcrypt_compare pw (bcrypt_hash pw) = true →
  toLowerCase em' = toLowerCase em →
  truthy em' = true →
  let db' := (register env rbody db).2 in
  let id := insertedId env in
  (∃ name, users db' !! id
           = Some (mkUser name (toLowerCase em) (bcrypt_hash pw) (Some "user") [])) ∧
  (∀ k, k ≠ id → users db' !! k = users db !! k) ∧
  (∃ p, login (mkLoginBody (Some em') (Some pw)) db'
          = (bare 200 "Login successful" p, db') ∧
        ap_id p = id ∧ ap_email p = toLowerCase em ∧ ap_cart p = Some [] ∧
        ap_token p = jwt_sign (tokenPayload id (toLowerCase em))) ∧
  (∀ pw', truthy pw' = true → bcrypt_compare pw' (bcrypt_hash pw) = false →
     login (mkLoginBody (Some em') (Some pw')) db'
       = (bareError 401 "Invalid email or password", db')).
Proof.
  intros H201 Hem Hpw Hfresh Hcmp Hlow Ht db' id. subst db' id.
  destruct (register_created _ _ _ H201)
    as (name & em0 & pw0 & _ & Hem0 & Hpw0 & Htpw & Heq).
  rewrite Hem in Hem0. rewrite Hpw in Hpw0.
  inversion Hem0; inversion Hpw0; subst em0 pw0.
  cbv zeta in Heq. rewrite Heq. cbn [snd users set_users].
  split; [exists name; apply lookup_insert_eq|].
  split; [intros k Hk; by apply lookup_insert_ne|].
  assert (Hfind : findByEmail (toLowerCase em')
                    (<[insertedId env :=
                         mkUser name (toLowerCase em) (bcrypt_hash pw)
                           (Some "user") []]> (users db))
                  = Some (insertedId env,
                          mkUser name (toLowerCase em) (bcrypt_hash pw)
                            (Some "user") [])).
  { rewrite Hlow. by apply findByEmail_insert. }
  split.
  - eexists. unfold login. cbn [lb_email lb_password].
    rewrite Ht, Htpw. cbn [negb orb users set_users].
    rewrite Hfind. cbn [user_password]. rewrite Hcmp. cbn [negb].
    split; [reflexivity|]. by repeat split.
  - intros pw' Htpw' Hbad. unfold login. cbn [lb_email lb_password].
    rewrite Ht, Htpw'. cbn [negb orb users set_users].
    rewrite Hfind. cbn [user_password]. by rewrite Hbad.
Qed.

End AccountFacts.

Section AccountScenario.
Import UserRoutes Scenario.

Lemma cartUpdate_line_witness :
  let body := mkUpdateBody (Some "Dune") 3 in
  let r := cartUpdate claimsA body dbCart1 in
  oneLinePerTitle dbCart1 ∧
  res_status r.1 = 200 ∧
  ∃ u u' title i l,
    users dbCart1 !! userId claimsA = Some u ∧
    ub_title body = Some title ∧
    user_cart u !! i = Some l ∧ cart_title l = title ∧
    users r.2 !! userId claimsA = Some u' ∧
    res_data r.1 = Some (user_cart u') ∧
    user_name u' = user_name u ∧ user_email u' = user_email u ∧
    user_password u' = user_password u ∧ user_role u' = user_role u ∧
    (∀ uid, uid ≠ userId claimsA → users r.2 !! uid = users dbCart1 !! uid) ∧
    books r.2 = books dbCart1 ∧ orders r.2 = orders dbCart1 ∧
    categories r.2 = categories dbCart1 ∧
    (ub_quantity body = 0%Z →
       user_cart u' = delete i (user_cart u) ∧ title ∉ titles (user_cart u')) ∧
    (ub_quantity body ≠ 0%Z →
       length (user_cart u') = length (user_cart u) ∧
       (∃ l', user_cart u' !! i = Some l' ∧
          cart_quantity l' = ub_quantity body ∧
          cart_title l' = cart_title l ∧ cart_author l' = cart_author l ∧
          cart_price l' = cart_price l ∧
          cart_description l' = cart_description l ∧
          cart_addedAt l' = cart_addedAt l ∧
          cart_bookId l' = cart_bookId l ∧ cart__id l' = cart__id l) ∧
       ∀ j, j ≠ i → user_cart u' !! j = user_cart u !! j).
Proof.
  intros body r.
  assert (H200 : res_status (cartUpdate claimsA body dbCart1).1 = 200)
    by (vm_compute; reflexivity).
  split; [exact dbCart1_oneLinePerTitle|]. split; [exact H200|].
  exact (cartUpdate_line claimsA body dbCart1 dbCart1_oneLinePerTitle H200).
Defined.

(** The update on the concrete store: the stored line has quantity 3. *)
Example cartUpdate_three :
  (λ l, (cart_title l, cart_quantity l))
    <$> default [] (user_cart
          <$> users (cartUpdate claimsA (mkUpdateBody (Some "Dune") 3) dbCart1).2
              !! idA)
  = [("Dune", 3%Z)].
Proof. vm_compute. reflexivity. Qed.

Lemma cartAdd_new_title_witness :
  let r := cartAdd env0 claimsA addDune db0 in
  res_status r.1 = 200 ∧
  users db0 !! userId claimsA = Some userA ∧
  ab_title addDune = Some "Dune" ∧
  ("Dune" ∉ titles (user_cart userA)) ∧
  ∃ author price u',
    ab_author addDune = Some author ∧ ab_price addDune = Some price ∧
    price ≠ 0%Z ∧
    users r.2 !! userId claimsA = Some u' ∧
    user_cart u'
      = user_cart userA ++
        [mkCartLine "Dune" author price (ab_description addDune) 1 (now env0)
           None None] ∧
    res_data r.1 = Some (user_cart u') ∧
    user_name u' = user_name userA ∧ user_email u' = user_email userA ∧
    user_password u' = user_password userA ∧ user_role u' = user_role userA ∧
    (∀ uid, uid ≠ userId claimsA → users r.2 !! uid = users db0 !! uid) ∧
    books r.2 = books db0 ∧ orders r.2 = orders db0 ∧
    categories r.2 = categories db0.
Proof.
  intros r.
  assert (H200 : res_status (cartAdd env0 claimsA addDune db0).1 = 200)
    by (vm_compute; reflexivity).
  assert (Hu : users db0 !! userId claimsA = Some userA)
    by (vm_compute; reflexivity).
  assert (Hnot : "Dune" ∉ titles (user_cart userA))
    by (simpl; apply not_elem_of_nil).
  split; [exact H200|]. split; [exact Hu|]. split; [reflexivity|].
  split; [exact Hnot|].
  exact (cartAdd_new_title env0 claimsA addDune db0 userA "Dune"
           H200 Hu eq_refl Hnot).
Defined.

Lemma db0_no_c : ∀ k v, users db0 !! k = Some v → user_email v ≠ "c@example.com".
Proof.
  apply (bool_decide_unpack
           (map_Forall (λ _ v, user_email v ≠ "c@example.com") (users db0))).
  vm_compute. exact I.
Defined.

Lemma register_then_login_witness :
  let env := mkEnv later idC in
  let db' := (register env registerC db0).2 in
  res_status (register env registerC db0).1 = 201 ∧
  rb_email registerC = Some "C@Example.com" ∧
  rb_password registerC = Some "secret-c" ∧
  (∀ k v, users db0 !! k = Some v →
     user_email v ≠ toLowerCase "C@Example.com") ∧
  bcrypt_compare "secret-c" (bcrypt_hash "secret-c") = true ∧
  toLowerCase "c@EXAMPLE.com" = toLowerCase "C@Example.com" ∧
  truthy "c@EXAMPLE.com" = true ∧
  (∃ name, users db' !! idC
           = Some (mkUser name (toLowerCase "C@Example.com")
                     (bcrypt_hash "secret-c") (Some "user") [])) ∧
  (∀ k, k ≠ idC → users db' !! k = users db0 !! k) ∧
  (∃ p, login (mkLoginBody (Some "c@EXAMPLE.com") (Some "secret-c")) db'
          = (bare 200 "Login successful" p, db') ∧
        ap_id p = idC ∧ ap_email p = toLowerCase "C@Example.com" ∧
        ap_cart p = Some [] ∧
        ap_token p = jwt_sign (tokenPayload idC (toLowerCase "C@Example.com"))) ∧
  (∀ pw', truthy pw' = true →
     bcrypt_compare pw' (bcrypt_hash "secret-c") = false →
     login (mkLoginBody (Some "c@EXAMPLE.com") (Some pw')) db'
       = (bareError 401 "Invalid email or password", db')).
Proof.
  intros env db'.
  assert (H201 : res_status (register env registerC db0).1 = 201)
    by (vm_compute; reflexivity).
  assert (Hfresh : ∀ k v, users db0 !! k = Some v →
                     user_email v ≠ toLowerCase "C@Example.com")
    by exact db0_no_c.
  assert (Hcmp : bcrypt_compare "secret-c" (bcrypt_hash "secret-c") = true)
    by (vm_compute; reflexivity).
  assert (Hlow : toLowerCase "c@EXAMPLE.com" = toLowerCase "C@Example.com")
    by (vm_compute; reflexivity).
  split; [exact H201|]. split; [reflexivity|]. split; [reflexivity|].
  split; [exact Hfresh|]. split; [exact Hcmp|]. split; [exact Hlow|].
  split; [reflexivity|].
  exact (register_then_login env registerC db0 "C@Example.com" "secret-c"
           "c@EXAMPLE.com" H201 eq_refl eq_refl Hfresh Hcmp Hlow eq_refl).
Defined.

End AccountScenario.

(** ** The catalog: books and categories *)

Section CatalogFacts.
Context `{MongoDriver}.
Import BookController CategoryController.

(** The shape of an accepted [createBook]. *)
Lemma createBook_created env body db :
  res_status (createBook env body db).1 = 201 →
  ∃ title author price category,
    bb_title body = Some title ∧ bb_author body = Some author ∧
    bb_price body = Some price ∧ bb_category body = Some category ∧
    (0 < price)%Z ∧
    let book :=
      mkBook title author (orDefault (bb_description body) "") price
        (Some (RefString category)) (default 0%Z (bb_stock body)) in
    createBook env body db
      = (mkResponse 201 (Some true) None (Some "Book created successfully")
           (Some (insertedId env, book)),
         set_books (insert (insertedId env) book) db).
Proof.
  unfold createBook.
  destruct (bb_title body) as [title|]; [|simpl; discriminate].
  destruct (bb_author body) as [author|]; [|simpl; discriminate].
  destruct (bb_price body) as [price|]; [|simpl; discriminate].
  destruct (bb_category body) as [category|]; [|simpl; discriminate].
  destruct (negb (truthy title) || negb (truthy author) || (price =? 0)%Z
            || negb (truthy category)); [simpl; discriminate|].
  destruct (price <=? 0)%Z eqn:Hp; [simpl; discriminate|].
  intros _. exists title, author, price, category. repeat split; try done. lia.
Qed.

(** X19: a book that createBook accepts has a positive price and the title,
    author and category of the request, its stock is the given one or 0; it
    is read back by getBookById under the inserted id, the other books and
    the rest of the store are untouched; deleteBook then removes it, after
    which getBookById answers 404, and the store holds the books it held
    before. *)
Theorem createBook_read_delete env body db :
  res_status (createBook env body db).1 = 201 →
  ObjectId_isValid (insertedId env) = true →
  let id := insertedId env in
  let db1 := (createBook env body db).2 in
  let db2 := (deleteBook id db1).2 in
  ∃ book,
    res_data (createBook env body db).1 = Some (id, book) ∧
    bb_title body = Some (book_title book) ∧
    bb_author body = Some (book_author book) ∧
    bb_price body = Some (book_price book) ∧ (0 < book_price book)%Z ∧
    book_category book = RefString <$> bb_category body ∧
    book_stock book = default 0%Z (bb_stock body) ∧
    getBookById id db1 = (succeed 200 None (Some (id, book)), db1) ∧
    (∀ k, k ≠ id → books db1 !! k = books db !! k) ∧
    users db1 = users db ∧ orders db1 = orders db ∧
    categories db1 = categories db ∧
    res_status (deleteBook id db1).1 = 200 ∧
    (getBookById id db2).1 = failure 404 "Book not found" ∧
    (∀ k, k ≠ id → books db2 !! k = books db !! k) ∧
    users db2 = users db ∧ orders db2 = orders db ∧
    categories db2 = categories db.
Proof.
  intros H201 Hv id db1 db2. subst id db1 db2.
  destruct (createBook_created _ _ _ H201)
    as (title & author & price & category & Ht & Ha & Hp & Hc & Hpos & Heq).
  cbv zeta in Heq. rewrite Heq. cbn [fst snd res_data].
  eexists. split; [reflexivity|]. cbn [book_title book_author book_price
    book_category book_stock]. rewrite Hc. cbn [fmap option_fmap option_map].
  repeat (split; [done|]).
  unfold getBookById, deleteBook. rewrite Hv. cbn [negb books set_books].
  rewrite lookup_insert_eq. cbn [fst snd books set_books res_status succeed].
  rewrite lookup_delete_eq.
  repeat split; try done.
  - intros k Hk. by apply lookup_insert_ne.
  - intros k Hk. by rewrite lookup_delete_ne, lookup_insert_ne.
Qed.

Lemma updateBook_nonNegativePrices id u db :
  nonNegativePrices db → nonNegativePrices (updateBook id u db).2.
Proof.
  intros Hinv. unfold updateBook.
  destruct (negb (ObjectId_isValid id)); [done|].
  destruct (books db !! id) as [b|] eqn:Hb; [|done].
  destruct (badPrice u) eqn:Hbad; [done|].
  intros k book. cbn [snd books set_books].
  rewrite lookup_alter. case_decide as Hk; [|apply Hinv].
  subst k. rewrite Hb. simpl. intros [= <-]. simpl.
  unfold badPrice in Hbad. specialize (Hinv _ _ Hb).
  destruct (up_price u) as [p|]; simpl; [|done].
  destruct (p =? 0)%Z eqn:Hz; simpl in Hbad; lia.
Qed.

Lemma handle_nonNegativePrices req db :
  nonNegativePrices db → nonNegativePrices (handle req db).
Proof.
  intros Hinv.
  assert (Hcreate : ∀ env user body,
            nonNegativePrices (OrderController.createOrder env user body db).2).
  { intros env user body.
    destruct (decide (res_status (OrderController.createOrder env user body db).1 = 201))
      as [H201|Hne]; [|by rewrite createOrder_failed].
    destruct (OrderController.createOrder env user body db) as [resp db'] eqn:Hc.
    destruct (createOrder_created _ _ _ _ _ _ Hc H201)
      as (its & sa & total & lines & _ & _ & _ & _ & _ & Hdb).
    cbv zeta in Hdb. subst db'. intros k book. cbn [snd books].
    rewrite decrementStock_lookup.
    destruct (books db !! k) as [b|] eqn:Hb; [|done].
    simpl. intros [= <-]. simpl. by apply (Hinv k). }
  destruct req as [env user body|env user body|env user id body|id u|id force
                  |env user body|user body|user title|user]; simpl.
  - apply Hcreate.
  - unfold OrderController.createOrderFromCart.
    destruct (newObjectId (userId user)) as [uid|]; [|done].
    destruct (users db !! uid) as [u|]; [|done].
    destruct (user_cart u) as [|l cart]; [done|]. apply Hcreate.
  - unfold OrderController.updateOrderStatus. repeat (case_match; try done).
  - by apply updateBook_nonNegativePrices.
  - unfold deleteCategory.
    destruct (negb (ObjectId_isValid id)); [done|].
    destruct (_ && _); [done|].
    destruct (categories db !! id); [|done].
    destruct (_ && _); [|done].
    intros k book. cbn [snd books]. rewrite unsetCategory_lookup.
    destruct (books db !! k) as [b|] eqn:Hb; [|done].
    simpl. intros [= <-]. specialize (Hinv _ _ Hb). by case_decide.
  - unfold UserRoutes.cartAdd. repeat (case_match; try done).
  - unfold UserRoutes.cartUpdate. repeat (case_match; try done).
  - unfold UserRoutes.cartRemove. repeat (case_match; try done).
  - unfold UserRoutes.cartClear. repeat (case_match; try done).
Qed.

(** X20: no request makes a price negative: createBook stores positive
    prices only, updateBook refuses a negative price and, being a test of a
    truthy price, accepts 0; deleteBook, the orders, the categories and the
    carts do not touch prices.  So a store without negative prices has none
    after createBook, updateBook, deleteBook or any run of requests. *)
Theorem prices_never_negative db :
  nonNegativePrices db →
  (∀ env body, nonNegativePrices (createBook env body db).2) ∧
  (∀ id u, nonNegativePrices (updateBook id u db).2) ∧
  (∀ id, nonNegativePrices (deleteBook id db).2) ∧
  (∀ reqs, nonNegativePrices (run reqs db)) ∧
  (∀ id u book,
     ObjectId_isValid id = true → books db !! id = Some book →
     up_price u = Some 0%Z →
     res_status (updateBook id u db).1 = 200 ∧
     (book_price <$> books (updateBook id u db).2 !! id) = Some 0%Z).
Proof.
  intros Hinv. split; [|split; [|split; [|split]]].
  - intros env body.
    destruct (decide (res_status (createBook env body db).1 = 201)) as [H201|Hne].
    + destruct (createBook_created _ _ _ H201)
        as (title & author & price & category & _ & _ & _ & _ & Hpos & Heq).
      cbv zeta in Heq. rewrite Heq. intros k book. cbn [snd books set_books].
      rewrite lookup_insert. case_decide; [|apply Hinv].
      intros [= <-]. simpl. lia.
    + unfold createBook in *. repeat (case_match; try done).
  - intros id u. by apply updateBook_nonNegativePrices.
  - intros id. unfold deleteBook. repeat (case_match; try done).
    intros k book. cbn [snd books set_books]. rewrite lookup_delete.
    case_decide; [done|apply Hinv].
  - intros reqs. revert db Hinv. unfold run.
    induction reqs as [|req reqs IH]; intros db Hinv; simpl; [done|].
    by apply IH, handle_nonNegativePrices.
  - intros id u book Hv Hb Hp. unfold updateBook, badPrice.
    rewrite Hv, Hb, Hp. change (negb (0 =? 0)%Z && (0 <=? 0)%Z) with false.
    cbn [negb fst snd books set_books res_status].
    split; [done|]. rewrite lookup_alter, decide_True, Hb by done.
    simpl. by rewrite Hp.
Qed.

(** X21: toggleCategoryStatus flips isActive of the category and nothing
    else: the stored category and the one of the answer have the negated
    isActive and the former name and description, the message says which way
    it went, the other categories and the books are untouched, and a second
    toggle restores the first state. *)
Theorem toggleCategoryStatus_twice id db c :
  ObjectId_isValid id = true →
  categories db !! id = Some c →
  let r1 := toggleCategoryStatus id db in
  let r2 := toggleCategoryStatus id r1.2 in
  res_status r1.1 = 200 ∧ res_status r2.1 = 200 ∧
  (∃ c1, categories r1.2 !! id = Some c1 ∧
     res_data r1.1 = Some (id, c1) ∧
     cat_isActive c1 = negb (cat_isActive c) ∧
     cat_name c1 = cat_name c ∧ cat_description c1 = cat_description c) ∧
  res_message r1.1
    = Some (if cat_isActive c then "Category deactivated successfully"
            else "Category activated successfully") ∧
  (∃ c2, categories r2.2 !! id = Some c2 ∧
     res_data r2.1 = Some (id, c2) ∧
     cat_isActive c2 = cat_isActive c ∧ cat_name c2 = cat_name c ∧
     cat_description c2 = cat_description c) ∧
  (∀ k, k ≠ id → categories r1.2 !! k = categories db !! k) ∧
  books r1.2 = books db ∧ users r1.2 = users db ∧ orders r1.2 = orders db.
Proof.
  intros Hv Hc r1 r2. subst r1 r2.
  assert (Hstep : ∀ db' c', categories db' !! id = Some c' →
    toggleCategoryStatus id db'
    = (mkResponse 200 (Some true) None
         (Some ("Category " ++ (if negb (cat_isActive c') then "activated"
                                else "deactivated") ++ " successfully")%string)
         (Some (id, set_isActive (negb (cat_isActive c')) c')),
       set_categories
         (λ _, alter (set_isActive (negb (cat_isActive c'))) id (categories db'))
         db')).
  { intros db' c' Hc'. unfold toggleCategoryStatus. rewrite Hv, Hc'.
    cbn [negb]. by rewrite lookup_alter, decide_True, Hc'. }
  rewrite (Hstep db c Hc). cbn [fst snd].
  assert (Hc1 : categories
                  (set_categories
                     (λ _, alter (set_isActive (negb (cat_isActive c))) id
                             (categories db)) db) !! id
                = Some (set_isActive (negb (cat_isActive c)) c)).
  { cbn [categories set_categories]. by rewrite lookup_alter, decide_True, Hc. }
  rewrite (Hstep _ _ Hc1). cbn [fst snd res_status res_data res_message
    categories set_categories books users orders].
  split; [done|]. split; [done|].
  split.
  { eexists. rewrite lookup_alter, decide_True, Hc by done.
    split; [reflexivity|]. by repeat split. }
  split; [by destruct (cat_isActive c)|].
  split.
  { eexists. rewrite !lookup_alter, !decide_True, Hc by done.
    split; [reflexivity|]. split; [reflexivity|].
    simpl. by rewrite negb_involutive. }
  split; [|done]. intros k Hk. by rewrite lookup_alter, decide_False.
Qed.

Lemma countBooks_zero id (bs : gmap string Book) :
  (∀ b book, bs !! b = Some book → book_category book ≠ Some (RefString id)) →
  countBooks id bs = 0.
Proof.
  intros Hnone. unfold countBooks. apply map_size_empty_iff.
  apply map_empty_filter. intros b book Hb. simpl. by apply (Hnone b).
Qed.

Lemma countBooks_zero_inv id (bs : gmap string Book) b book :
  countBooks id bs = 0 → bs !! b = Some book →
  book_category book ≠ Some (RefString id).
Proof.
  unfold countBooks. intros Hz Hb Hcat.
  apply map_size_empty_iff in Hz.
  assert (Hin : filter (λ kb : string * Book,
                          book_category kb.2 = Some (RefString id)) bs !! b
                = Some book) by (by apply map_lookup_filter_Some).
  rewrite Hz in Hin. by rewrite lookup_empty in Hin.
Qed.

(** X22: deleteCategory compares the category field of the books with the
    string of the path, in its count and in its unset alike.  After a 200 no
    book holds that string as its category, no book is removed, every book
    whose field is anything else is untouched and getCategoryById answers
    404.  A field that holds the id as an ObjectId, as scripts/seed.js stores
    it, is neither counted nor unset: when no book holds the string, an
    existing category is deleted with or without force, and every book that
    refers to it by ObjectId keeps that reference. *)
Theorem deleteCategory_matches_strings id force db :
  let r := deleteCategory id force db in
  (res_status r.1 = 200 →
     categories r.2 !! id = None ∧
     (∀ b book, books r.2 !! b = Some book →
        book_category book ≠ Some (RefString id)) ∧
     dom (books r.2) = dom (books db) ∧
     (∀ b book, books db !! b = Some book →
        book_category book ≠ Some (RefString id) →
        books r.2 !! b = Some book) ∧
     (getCategoryById id r.2).1 = failure 404 "Category not found") ∧
  (ObjectId_isValid id = true → is_Some (categories db !! id) →
   (∀ b book, books db !! b = Some book →
      book_category book ≠ Some (RefString id)) →
     res_status r.1 = 200 ∧ categories r.2 !! id = None ∧
     books r.2 = books db ∧
     (∀ b book, books db !! b = Some book →
        book_category book = Some (RefObjectId id) →
        ∃ book', books r.2 !! b = Some book' ∧
          book_category book' = Some (RefObjectId id))).
Proof.
  intros r. subst r. split.
  - unfold deleteCategory.
    destruct (ObjectId_isValid id) eqn:Hv; [|simpl; discriminate]. cbn [negb].
    destruct ((0 <? countBooks id (books db))%nat && negb (forced force))
      eqn:Hblock; [simpl; discriminate|].
    destruct (categories db !! id) as [c|] eqn:Hc; [|simpl; discriminate].
    intros _. cbn [fst snd categories books].
    split; [apply lookup_delete_eq|].
    assert (Hget : ∀ bs us os,
              (getCategoryById id (mkDb bs us os (delete id (categories db)))).1
              = failure 404 "Category not found").
    { intros bs us os. unfold getCategoryById. rewrite Hv. cbn [negb categories].
      by rewrite lookup_delete_eq. }
    assert (Hzero : (0 <? countBooks id (books db))%nat = false →
              ∀ b book, books db !! b = Some book →
                book_category book ≠ Some (RefString id)).
    { intros Hn b book Hb. apply Nat.ltb_ge in Hn.
      apply (countBooks_zero_inv id (books db) b book); [lia|done]. }
    destruct (forced force) eqn:Hf; cbn [andb negb] in *.
    + destruct (0 <? countBooks id (books db))%nat eqn:Hn.
      * split.
        { intros b book. rewrite unsetCategory_lookup.
          destruct (books db !! b) as [bk|]; [|done]. simpl. intros [= <-].
          case_decide as Hcat; [done|exact Hcat]. }
        split; [unfold unsetCategory; apply dom_fmap_L|].
        split; [|apply Hget].
        intros b book Hb Hcat. rewrite unsetCategory_lookup, Hb. simpl.
        by rewrite decide_False.
      * split; [by apply Hzero|]. split; [done|]. split; [done|apply Hget].
    + rewrite andb_true_r in Hblock.
      split; [by apply Hzero|]. split; [done|]. split; [done|apply Hget].
  - intros Hv [c Hc] Hnone. unfold deleteCategory.
    rewrite Hv, (countBooks_zero _ _ Hnone), Hc.
    cbn [negb Nat.ltb Nat.leb andb fst snd res_status succeed categories books].
    rewrite andb_false_r. cbn [fst snd res_status succeed categories books].
    split; [done|]. split; [apply lookup_delete_eq|]. split; [done|].
    intros b book Hb Hcat. by exists book.
Qed.

End CatalogFacts.

Section CatalogScenario.
Import BookController CategoryController Scenario.

Lemma db0_nonNegativePrices : nonNegativePrices db0.
Proof.
  apply (bool_decide_unpack
           (map_Forall (λ _ book, (0 ≤ book_price book)%Z) (books db0))).
  vm_compute. exact I.
Defined.

Lemma createBook_read_delete_witness :
  let env := mkEnv later idEmma in
  let db1 := (createBook env newEmma db0).2 in
  let db2 := (deleteBook idEmma db1).2 in
  res_status (createBook env newEmma db0).1 = 201 ∧
  ObjectId_isValid (insertedId env) = true ∧
  ∃ book,
    res_data (createBook env newEmma db0).1 = Some (idEmma, book) ∧
    bb_title newEmma = Some (book_title book) ∧
    bb_author newEmma = Some (book_author book) ∧
    bb_price newEmma = Some (book_price book) ∧ (0 < book_price book)%Z ∧
    book_category book = RefString <$> bb_category newEmma ∧
    book_stock book = default 0%Z (bb_stock newEmma) ∧
    getBookById idEmma db1 = (succeed 200 None (Some (idEmma, book)), db1) ∧
    (∀ k, k ≠ idEmma → books db1 !! k = books db0 !! k) ∧
    users db1 = users db0 ∧ orders db1 = orders db0 ∧
    categories db1 = categories db0 ∧
    res_status (deleteBook idEmma db1).1 = 200 ∧
    (getBookById idEmma db2).1 = failure 404 "Book not found" ∧
    (∀ k, k ≠ idEmma → books db2 !! k = books db0 !! k) ∧
    users db2 = users db0 ∧ orders db2 = orders db0 ∧
    categories db2 = categories db0.
Proof.
  intros env db1 db2.
  assert (H201 : res_status (createBook env newEmma db0).1 = 201)
    by (vm_compute; reflexivity).
  assert (Hid : ObjectId_isValid (insertedId env) = true)
    by (vm_compute; reflexivity).
  split; [exact H201|]. split; [exact Hid|].
  exact (createBook_read_delete env newEmma db0 H201 Hid).
Defined.

Lemma prices_never_negative_witness :
  nonNegativePrices db0 ∧
  (∀ env body, nonNegativePrices (createBook env body db0).2) ∧
  (∀ id u, nonNegativePrices (updateBook id u db0).2) ∧
  (∀ id, nonNegativePrices (deleteBook id db0).2) ∧
  (∀ reqs, nonNegativePrices (run reqs db0)) ∧
  (∀ id u book,
     ObjectId_isValid id = true → books db0 !! id = Some book →
     up_price u = Some 0%Z →
     res_status (updateBook id u db0).1 = 200 ∧
     (book_price <$> books (updateBook id u db0).2 !! id) = Some 0%Z).
Proof.
  split; [exact db0_nonNegativePrices|].
  exact (prices_never_negative db0 db0_nonNegativePrices).
Defined.

Lemma toggleCategoryStatus_twice_witness :
  let c := mkCategory "Fantasy" "" true in
  let r1 := toggleCategoryStatus idFantasy db0 in
  let r2 := toggleCategoryStatus idFantasy r1.2 in
  ObjectId_isValid idFantasy = true ∧
  categories db0 !! idFantasy = Some c ∧
  res_status r1.1 = 200 ∧ res_status r2.1 = 200 ∧
  (∃ c1, categories r1.2 !! idFantasy = Some c1 ∧
     res_data r1.1 = Some (idFantasy, c1) ∧
     cat_isActive c1 = negb (cat_isActive c) ∧
     cat_name c1 = cat_name c ∧ cat_description c1 = cat_description c) ∧
  res_message r1.1
    = Some (if cat_isActive c then "Category deactivated successfully"
            else "Category activated successfully") ∧
  (∃ c2, categories r2.2 !! idFantasy = Some c2 ∧
     res_data r2.1 = Some (idFantasy, c2) ∧
     cat_isActive c2 = cat_isActive c ∧ cat_name c2 = cat_name c ∧
     cat_description c2 = cat_description c) ∧
  (∀ k, k ≠ idFantasy → categories r1.2 !! k = categories db0 !! k) ∧
  books r1.2 = books db0 ∧ users r1.2 = users db0 ∧ orders r1.2 = orders db0.
Proof.
  intros c r1 r2.
  assert (Hv : ObjectId_isValid idFantasy = true) by (vm_compute; reflexivity).
  assert (Hc : categories db0 !! idFantasy = Some c) by (vm_compute; reflexivity).
  split; [exact Hv|]. split; [exact Hc|].
  exact (toggleCategoryStatus_twice idFantasy db0 c Hv Hc).
Defined.

(** The one seeded book refers to its category by ObjectId. *)
Lemma dbSeeded_no_string_reference b book :
  books dbSeeded !! b = Some book →
  book_category book ≠ Some (RefString idSciFi).
Proof.
  unfold dbSeeded. cbn [books]. intros Hb.
  by apply lookup_singleton_Some in Hb as [_ <-].
Defined.

Lemma deleteCategory_matches_strings_witness :
  let r := deleteCategory idSciFi None dbSeeded in
  ObjectId_isValid idSciFi = true ∧
  is_Some (categories dbSeeded !! idSciFi) ∧
  books dbSeeded !! idDune = Some bookSeeded ∧
  book_category bookSeeded = Some (RefObjectId idSciFi) ∧
  (∀ b book, books dbSeeded !! b = Some book →
     book_category book ≠ Some (RefString idSciFi)) ∧
  res_status r.1 = 200 ∧ categories r.2 !! idSciFi = None ∧
  books r.2 = books dbSeeded ∧
  (∀ b book, books dbSeeded !! b = Some book →
     book_category book = Some (RefObjectId idSciFi) →
     ∃ book', books r.2 !! b = Some book' ∧
       book_category book' = Some (RefObjectId idSciFi)).
Proof.
  intros r.
  assert (Hv : ObjectId_isValid idSciFi = true) by (vm_compute; reflexivity).
  assert (Hc : is_Some (categories dbSeeded !! idSciFi))
    by (vm_compute; eexists; reflexivity).
  split; [exact Hv|]. split; [exact Hc|].
  split; [vm_compute; reflexivity|]. split; [reflexivity|].
  split; [exact dbSeeded_no_string_reference|].
  exact (proj2 (deleteCategory_matches_strings idSciFi None dbSeeded)
           Hv Hc dbSeeded_no_string_reference).
Defined.

(** On the seeded store the category goes, with force=true as well, and the
    book keeps its reference to it. *)
Example deleteCategory_seeded :
  (∀ force,
     force = None ∨ force = Some "true" →
     let r := deleteCategory idSciFi force dbSeeded in
     res_status r.1 = 200 ∧
     categories r.2 !! idSciFi = None ∧
     (book_category <$> books r.2 !! idDune)
       = Some (Some (RefObjectId idSciFi))).
Proof. intros force [-> | ->]; vm_compute; repeat split; reflexivity. Qed.

End CatalogScenario.

(** ** Middleware and routers *)

Section MiddlewareFacts.
Context `{MongoDriver} `{JsonWebToken}.

Lemma orDefault_admin r : orDefault r "user" = "admin" ↔ r = Some "admin".
Proof.
  unfold orDefault. destruct r as [s|]; [|split; discriminate].
  destruct (truthy s) eqn:Ht.
  - split; [by intros ->|by intros [= ->]].
  - split; [discriminate|]. intros [= ->]. discriminate.
Qed.

(** X23: requireAdmin of src/middleware/auth.js decides on the stored role
    alone: it lets a request through exactly when the id of the claims is well
    formed and names a stored user whose role is admin; the claims it hands
    on carry that role; a role in the token is ignored, so a token that says
    admin does not help a user whose stored role is not admin. *)
Theorem requireAdmin_reads_store {A : Type} user db :
  ((∃ c, AuthMiddleware.requireAdmin (A := A) user db = Next c) ↔
   ObjectId_isValid (userId user) = true ∧
   ∃ u, users db !! userId user = Some u ∧ user_role u = Some "admin") ∧
  (∀ c, AuthMiddleware.requireAdmin (A := A) user db = Next c →
     isAdmin c = true ∧ userId c = userId user ∧ email c = email user) ∧
  (∀ r, AuthMiddleware.requireAdmin (A := A)
          (mkClaims (userId user) (email user) r) db
        = AuthMiddleware.requireAdmin user db) ∧
  (∀ u, users db !! userId user = Some u → user_role u ≠ Some "admin" →
     ObjectId_isValid (userId user) = true →
     AuthMiddleware.requireAdmin (A := A) user db
       = Respond (failure 403 "Admin access required")).
Proof.
  unfold AuthMiddleware.requireAdmin, newObjectId.
  split; [|split; [|split]].
  - split.
    + intros [c Hc]. destruct (ObjectId_isValid (userId user)); [|discriminate].
      split; [done|]. destruct (users db !! userId user) as [u|]; [|discriminate].
      exists u. split; [done|]. by case_bool_decide.
    + intros (-> & u & -> & Hr). rewrite bool_decide_eq_true_2 by done. by eexists.
  - intros c. destruct (ObjectId_isValid (userId user)); [|discriminate].
    destruct (users db !! userId user) as [u|]; [|discriminate].
    case_bool_decide as Hr; [|discriminate]. intros [= <-].
    unfold isAdmin. simpl. by rewrite bool_decide_eq_true_2.
  - done.
  - intros u Hu Hr ->. rewrite Hu. by rewrite bool_decide_eq_false_2.
Qed.

(** X24: addUserRole takes role and email from the stored user, not from
    the token: the claims it hands on have the id of the token, the stored
    email and name, and the stored role, or user when the stored user has
    none; they are an administrator's exactly when the stored role is admin;
    an id that names no stored user is answered 404. *)
Theorem addUserRole_from_store {A : Type} user db :
  (∀ c n, AuthMiddleware.addUserRole (A := A) user db = Next (c, n) →
     ∃ u, users db !! userId user = Some u ∧
       userId c = userId user ∧ email c = user_email u ∧ n = user_name u ∧
       role c = Some (orDefault (user_role u) "user") ∧
       (isAdmin c = true ↔ user_role u = Some "admin")) ∧
  (ObjectId_isValid (userId user) = true →
   ∀ u, users db !! userId user = Some u →
     ∃ c, AuthMiddleware.addUserRole (A := A) user db = Next (c, user_name u)) ∧
  (ObjectId_isValid (userId user) = true → users db !! userId user = None →
     AuthMiddleware.addUserRole (A := A) user db
       = Respond (failure 404 "User not found")).
Proof.
  unfold AuthMiddleware.addUserRole, newObjectId.
  split; [|split].
  - intros c n. destruct (ObjectId_isValid (userId user)); [|discriminate].
    destruct (users db !! userId user) as [u|]; [|discriminate].
    intros [= <- <-]. exists u. repeat split; try done.
    + unfold isAdmin. simpl. intros Hb. apply bool_decide_eq_true in Hb.
      apply orDefault_admin. congruence.
    + intros Hr. unfold isAdmin. simpl. apply bool_decide_eq_true.
      f_equal. by apply orDefault_admin.
  - intros -> u ->. by eexists.
  - by intros -> ->.
Qed.

(** X25: the router of the orders lets no controller run without verified
    claims: either the bearer token of the request verifies to claims (with
    the admin role, on the two admin-only routes) and the answer is the
    controller's on those claims, or the answer is a 401 or 403 without data
    and the database is as before. *)
Theorem order_routes_mediation {A : Type} route authHeader
  (controller : Claims → Db → Response A * Db) db :
  (∃ token user,
     OrderRoutes.bearerToken authHeader = Some token ∧
     jwt_verify token = Some user ∧
     (OrderRoutes.adminOnly route = true → isAdmin user = true) ∧
     OrderRoutes.dispatch route authHeader controller db = controller user db) ∨
  (∃ res,
     OrderRoutes.dispatch route authHeader controller db = (res, db) ∧
     (res_status res = 401 ∨ res_status res = 403) ∧ res_data res = None).
Proof.
  unfold OrderRoutes.dispatch, OrderRoutes.authenticateToken, OrderRoutes.requireAdmin.
  destruct (OrderRoutes.bearerToken authHeader) as [token|];
    [|right; eexists; split; [reflexivity|]; split; [by left|done]].
  destruct (jwt_verify token) as [user|] eqn:Hv;
    [|right; eexists; split; [reflexivity|]; split; [by right|done]].
  destruct (OrderRoutes.adminOnly route); [|left; by exists token, user].
  destruct (isAdmin user) eqn:Hadm; cbn [negb].
  - left. by exists token, user.
  - right. eexists. split; [reflexivity|]. split; [by right|done].
Qed.

Lemma split_spaceFree s : spaceFree s = true → OrderRoutes.split " " s = [s].
Proof.
  unfold spaceFree. induction s as [|a s IH]; [done|].
  simpl. intros (Ha & Hs)%andb_true_iff.
  apply negb_true_iff in Ha. rewrite Ha. by rewrite (IH Hs).
Qed.

Lemma split_segment a b :
  spaceFree a = true →
  OrderRoutes.split " " (a ++ " " ++ b) = a :: OrderRoutes.split " " b.
Proof.
  unfold spaceFree. induction a as [|c a IH]; [done|].
  simpl. intros (Hc & Ha)%andb_true_iff.
  apply negb_true_iff in Hc. rewrite Hc.
  change (String.append a (String " " b)) with (a ++ " " ++ b)%string.
  by rewrite (IH Ha).
Qed.

(** X26: the token of a request is the second space-separated segment of
    the Authorization header: from "<scheme> <token>" with a scheme and a
    non-empty token that contain no space the middleware reads the token
    (also when more segments follow); a header without a space, or with an
    empty second segment, carries no token, like a missing header. *)
Theorem bearerToken_segment scheme token :
  spaceFree scheme = true → spaceFree token = true → truthy token = true →
  OrderRoutes.bearerToken (Some (scheme ++ " " ++ token)%string) = Some token ∧
  (∀ more, OrderRoutes.bearerToken
             (Some (scheme ++ " " ++ token ++ " " ++ more)%string) = Some token) ∧
  OrderRoutes.bearerToken (Some token) = None ∧
  (∀ more, OrderRoutes.bearerToken (Some (scheme ++ " " ++ " " ++ more)%string)
           = None).
Proof.
  intros Hs Ht Hne. unfold OrderRoutes.bearerToken.
  split; [|split; [|split]].
  - rewrite (split_segment _ _ Hs), (split_spaceFree _ Ht). simpl. by rewrite Hne.
  - intros more. rewrite (split_segment _ _ Hs), (split_segment _ _ Ht).
    simpl. by rewrite Hne.
  - by rewrite (split_spaceFree _ Ht).
  - intros more. rewrite (split_segment _ _ Hs).
    change (" " ++ more)%string with ("" ++ " " ++ more)%string.
    by rewrite (split_segment "" more).
Qed.

(** X27: the routers of the books and of the categories run their reading
    routes without any token, and their writing routes only on verified
    claims with the admin role; every other request to a writing route is
    answered 401 or 403 and changes nothing.  As register and login sign no
    role, a writing route answers 403 Admin access required to every token
    they issue. *)
Theorem catalog_routes_gate {A : Type} route authHeader
  (controller : option Claims → Db → Response A * Db) db :
  (CatalogRoutes.protected route = false →
     CatalogRoutes.dispatch route authHeader controller db = controller None db) ∧
  (CatalogRoutes.protected route = true →
     (∃ token user,
        OrderRoutes.bearerToken authHeader = Some token ∧
        jwt_verify token = Some user ∧ isAdmin user = true ∧
        CatalogRoutes.dispatch route authHeader controller db
          = controller (Some user) db) ∨
     (∃ res,
        CatalogRoutes.dispatch route authHeader controller db = (res, db) ∧
        (res_status res = 401 ∨ res_status res = 403) ∧ res_data res = None)) ∧
  (CatalogRoutes.protected route = true →
   ∀ token id e,
     OrderRoutes.bearerToken authHeader = Some token →
     jwt_verify token = Some (UserRoutes.tokenPayload id e) →
     CatalogRoutes.dispatch route authHeader controller db
       = (failure 403 "Admin access required", db)).
Proof.
  unfold CatalogRoutes.dispatch, OrderRoutes.authenticateToken,
    OrderRoutes.requireAdmin.
  split; [by intros ->|]. split.
  - intros ->.
    destruct (OrderRoutes.bearerToken authHeader) as [token|];
      [|right; eexists; split; [reflexivity|]; split; [by left|done]].
    destruct (jwt_verify token) as [user|] eqn:Hv;
      [|right; eexists; split; [reflexivity|]; split; [by right|done]].
    destruct (isAdmin user) eqn:Hadm; cbn [negb].
    + left. by exists token, user.
    + right. eexists. split; [reflexivity|]. split; [by right|done].
  - intros -> token id e -> ->. reflexivity.
Qed.

End MiddlewareFacts.

Section MiddlewareScenario.
Import Scenario.

Lemma bearerToken_segment_witness :
  spaceFree "Bearer" = true ∧ spaceFree tokenA = true ∧ truthy tokenA = true ∧
  OrderRoutes.bearerToken (Some ("Bearer" ++ " " ++ tokenA)%string) = Some tokenA ∧
  (∀ more, OrderRoutes.bearerToken
             (Some ("Bearer" ++ " " ++ tokenA ++ " " ++ more)%string)
           = Some tokenA) ∧
  OrderRoutes.bearerToken (Some tokenA) = None ∧
  (∀ more, OrderRoutes.bearerToken (Some ("Bearer" ++ " " ++ " " ++ more)%string)
           = None).
Proof.
  split; [reflexivity|]. split; [reflexivity|]. split; [reflexivity|].
  exact (bearerToken_segment "Bearer" tokenA eq_refl eq_refl eq_refl).
Defined.

End MiddlewareScenario.

(** ** Order numbers *)

Section OrderNumberFacts.
Context `{MongoDriver}.
Import OrderController.

Lemma to_uint_head p d' : Pos.to_uint p ≠ Decimal.D0 d'.
Proof.
  intros Hd.
  pose proof (DecimalPos.Unsigned.to_of (Pos.to_uint p)) as Hto.
  rewrite DecimalPos.Unsigned.of_to in Hto. simpl in Hto.
  rewrite Hd, unorm_D0 in Hto.
  assert (Hdec : Decimal.nzhead d' = Decimal.Nil ∨ Decimal.nzhead d' ≠ Decimal.Nil)
    by (destruct (Decimal.nzhead d'); by (left + right)).
  destruct Hdec as [Hnz|Hnz].
  - apply unorm_0 in Hnz. rewrite Hnz in Hto. inversion Hto; subst d'.
    pose proof (DecimalPos.Unsigned.of_to p) as Hof. rewrite Hd in Hof. discriminate.
  - rewrite unorm_nzhead in Hto by done.
    symmetry in Hto. by apply nzhead_nonzero in Hto.
Qed.

(** The decimal numeral of a positive number does not start with 0. *)
Lemma String_of_head z :
  (0 < z)%Z → ∃ a rest, String_of z = String a rest ∧ a ≠ "0"%char.
Proof.
  intros Hz. destruct z as [|p|p]; [lia| |lia].
  unfold String_of. simpl.
  pose proof (to_uint_head p) as Hh.
  pose proof (DecimalPos.Unsigned.to_uint_nonnil p) as Hn.
  unfold NilZero.string_of_uint.
  destruct (Pos.to_uint p) as [|d|d|d|d|d|d|d|d|d|d]; [done|by destruct (Hh d)|..];
    simpl; eexists _, _; (split; [reflexivity|discriminate]).
Qed.

Lemma String_of_inj z1 z2 : String_of z1 = String_of z2 → z1 = z2.
Proof.
  unfold String_of. intros Heq.
  apply (f_equal NilZero.int_of_string) in Heq.
  assert (Hnil : ∀ z, Z.to_int z ≠ Decimal.Pos Decimal.Nil
                     ∧ Z.to_int z ≠ Decimal.Neg Decimal.Nil).
  { intros [|p|p]; simpl; (split; [|try done]); try done;
      intros [= Hp]; by apply DecimalPos.Unsigned.to_uint_nonnil in Hp. }
  rewrite !NilZero.isi in Heq by apply Hnil.
  injection Heq as Heq. by apply DecimalZ.to_int_inj.
Qed.

Lemma zeros_app_inj k1 k2 a1 r1 a2 r2 :
  a1 ≠ "0"%char → a2 ≠ "0"%char →
  (zeros k1 ++ String a1 r1 = zeros k2 ++ String a2 r2)%string →
  String a1 r1 = String a2 r2.
Proof.
  intros H1 H2. revert k2.
  induction k1 as [|k1 IH]; intros [|k2]; simpl; intros Heq.
  - done.
  - injection Heq as -> _. done.
  - injection Heq as <- _. done.
  - injection Heq as Heq. by apply IH in Heq.
Qed.

Lemma append_inj_l (p a b : string) : (p ++ a = p ++ b)%string → a = b.
Proof.
  induction p as [|c p IH]; simpl; [done|]. intros [= Heq]. by apply IH.
Qed.

(** The number depends on the collection through its size only. *)
Lemma generateOrderNumber_length d c1 c2 :
  length c1 = length c2 → generateOrderNumber d c1 = generateOrderNumber d c2.
Proof. unfold generateOrderNumber. by intros ->. Qed.

Lemma generateOrderNumber_inj d1 d2 c1 c2 :
  sameDay d1 d2 →
  generateOrderNumber d1 c1 = generateOrderNumber d2 c2 → length c1 = length c2.
Proof.
  intros (Hy & Hm & Hd).
  unfold generateOrderNumber. rewrite Hy, Hm, Hd. intros Heq. cbv zeta in Heq.
  repeat (apply append_inj_l in Heq).
  unfold padStart in Heq.
  destruct (String_of_head (Z.of_nat (length c1) + 1)) as (a1 & r1 & E1 & N1); [lia|].
  destruct (String_of_head (Z.of_nat (length c2) + 1)) as (a2 & r2 & E2 & N2); [lia|].
  rewrite E1, E2 in Heq. apply zeros_app_inj in Heq; [|done..].
  rewrite <- E1, <- E2 in Heq. apply String_of_inj in Heq. lia.
Qed.

(** X28: on one calendar day the order number is a function of the number
    of stored orders and of nothing else: two numbers generated on the same
    day are equal exactly when the collections they were generated from have
    the same size (also beyond four digits, where the padding stops). *)
Theorem generateOrderNumber_same_day d1 d2 c1 c2 :
  sameDay d1 d2 →
  (generateOrderNumber d1 c1 = generateOrderNumber d2 c2 ↔ length c1 = length c2).
Proof.
  intros Hday. split; [by apply generateOrderNumber_inj|].
  destruct Hday as (Hy & Hm & Hd).
  intros Hl. unfold generateOrderNumber. by rewrite Hy, Hm, Hd, Hl.
Qed.

Lemma handle_numberedInSequence req db :
  numberedInSequence db → numberedInSequence (handle req db).
Proof.
  unfold numberedInSequence. intros Hn.
  destruct (handle_orders req db)
    as [->|[(env & od & -> & _ & _)|(env & i0 & st & notes & _ & ->)]]; [done| |].
  - unfold create. cbn [snd]. intros i d Hd.
    apply lookup_app_Some in Hd as [Hd|[Hge Hd]].
    + rewrite take_app_le by (apply lookup_lt_Some in Hd; lia). by apply Hn.
    + apply list_lookup_singleton_Some in Hd as [Hi <-]. cbn [doc_orderNumber doc_createdAt].
      apply generateOrderNumber_length.
      rewrite length_take, length_app. simpl. lia.
  - intros i d Hd. rewrite list_lookup_alter in Hd.
    assert (Hlen : length (take i (alter (pushStatus env st notes) i0 (orders db)))
                   = length (take i (orders db)))
      by (by rewrite !length_take, length_alter).
    rewrite (generateOrderNumber_length _ _ _ Hlen).
    case_decide as Hi.
    + subst i0. destruct (orders db !! i) as [x|] eqn:Hx; [|done]. simpl in Hd.
      injection Hd as <-. simpl. by apply Hn.
    + by apply Hn.
Qed.

Lemma run_numberedInSequence reqs :
  ∀ db, numberedInSequence db → numberedInSequence (run reqs db).
Proof.
  unfold run. induction reqs as [|req reqs IH]; intros db Hn; simpl; [done|].
  by apply IH, handle_numberedInSequence.
Qed.

(** X29: no request removes an order or renumbers one, so the numbers stay
    distinct: in a store whose orders were numbered in sequence, after any run
    of requests (orders created, statuses set, books, categories and carts
    edited) the orders are still numbered in sequence and two orders of the
    same calendar day have different numbers. *)
Theorem orderNumbers_distinct reqs db :
  numberedInSequence db →
  numberedInSequence (run reqs db) ∧
  ∀ i j di dj,
    orders (run reqs db) !! i = Some di → orders (run reqs db) !! j = Some dj →
    i ≠ j → sameDay (doc_createdAt di) (doc_createdAt dj) →
    doc_orderNumber di ≠ doc_orderNumber dj.
Proof.
  intros Hn. apply (run_numberedInSequence reqs) in Hn. split; [done|].
  intros i j di dj Hi Hj Hij Hday Heq.
  rewrite (Hn _ _ Hi), (Hn _ _ Hj) in Heq.
  apply (generateOrderNumber_inj _ _ _ _ Hday) in Heq.
  rewrite !length_take in Heq.
  apply lookup_lt_Some in Hi, Hj. lia.
Qed.

End OrderNumberFacts.

Section OrderNumberScenario.
Import OrderController Scenario.

Lemma dbOrdered_numberedInSequence : numberedInSequence dbOrdered.
Proof.
  intros i d Hd. destruct i as [|i]; [|vm_compute in Hd; discriminate].
  vm_compute in Hd. injection Hd as <-. vm_compute. reflexivity.
Defined.

Lemma generateOrderNumber_same_day_witness :
  sameDay day noon ∧
  (generateOrderNumber day (orders dbOrdered)
   = generateOrderNumber noon (orders dbShipped)
   ↔ length (orders dbOrdered) = length (orders dbShipped)).
Proof.
  assert (Hday : sameDay day noon) by (repeat split).
  split; [exact Hday|].
  exact (generateOrderNumber_same_day day noon (orders dbOrdered)
           (orders dbShipped) Hday).
Defined.

Lemma orderNumbers_distinct_witness :
  numberedInSequence dbOrdered ∧
  numberedInSequence (run shipThenOrder dbOrdered) ∧
  ∀ i j di dj,
    orders (run shipThenOrder dbOrdered) !! i = Some di →
    orders (run shipThenOrder dbOrdered) !! j = Some dj →
    i ≠ j → sameDay (doc_createdAt di) (doc_createdAt dj) →
    doc_orderNumber di ≠ doc_orderNumber dj.
Proof.
  split; [exact dbOrdered_numberedInSequence|].
  exact (orderNumbers_distinct shipThenOrder dbOrdered
           dbOrdered_numberedInSequence).
Defined.

(** The numbers of the two orders of the run. *)
Example orderNumbers_of_run :
  doc_orderNumber <$> orders (run shipThenOrder dbOrdered)
  = ["ORD-20250115-0001"; "ORD-20250116-0002"].
Proof. vm_compute. reflexivity. Qed.

End OrderNumberScenario.
